(** * LOGGR: the visit store, its query/filter engine, navigation and import

    A shallow embedding of the application logic of the LOGGR field-visit
    log (the [App] component, [components/VisitList.tsx],
    [components/VisitForm.tsx] and the [Visit] interface), followed by the
    properties of the specification that are settled against it.

    Conventions of the embedding.
    - A JavaScript string is the [string] of the bytes of its UTF-8
      form (on well-formed text a string occurs in another at the same
      places whether bytes or code units are compared);
      [undefined]/[null] in an optional position is [None].
    - [String.prototype.toLowerCase] is a platform function and a
      parameter [toLowerCase : string -> string] of the engine: it follows
      the Unicode case mappings, which no function on single characters
      reproduces.
    - [new Date(s).getTime()] is a platform function; it is a parameter
      [getTime : string -> option Z] whose [None] stands for [NaN]
      (Invalid Date).  The difference of two time values keeps the sign of
      the integer difference, so the comparator is modelled over [Z].
    - [new Date().toISOString()] and [Math.random()] are read from the
      environment: the handlers that use them take the readings as
      arguments.  [new Date(s).toISOString()] on a string of the form is
      a parameter whose [None] stands for the RangeError thrown on an
      Invalid Date; a handler that can throw returns a [completion].
    - [window.confirm] is the user's answer, an argument of the handler.
    - React state: a handler is a function from the state of the render it
      was created in to the state after all of its setters have run. *)

From Stdlib Require Import List String Ascii ZArith QArith Bool Lia.
From Stdlib Require Import Permutation Sorted DecimalString DecimalNat.
Import ListNotations.

Local Open Scope string_scope.
Local Open Scope list_scope.

(* ================================================================== *)
(** ** Platform: the JavaScript operations the program relies on *)
(* ================================================================== *)

Module JS.

(** A Number value, as far as the program observes it. *)
Inductive number : Type :=
| NaN
| Infinity (negative : bool)
| Finite (q : Q).

(** ToBoolean on the values the program tests. *)
Definition truthy_number (n : number) : bool :=
  match n with
  | NaN => false
  | Infinity _ => true
  | Finite q => negb (Qnum q =? 0)%Z
  end.

Definition truthy_string (s : string) : bool :=
  match s with
  | EmptyString => false
  | String _ _ => true
  end.

(** ToBoolean of an optional string property: [undefined] and [""] are
    falsy. *)
Definition truthy_opt_string (o : option string) : bool :=
  match o with
  | None => false
  | Some s => truthy_string s
  end.

(** [a || b] where [a] is an optional string and [b] a string. *)
Definition or_string (a : option string) (b : string) : string :=
  match a with
  | Some s => if truthy_string s then s else b
  | None => b
  end.

(** [!b] on an optional boolean: [undefined] is falsy. *)
Definition not_opt_bool (o : option bool) : bool :=
  match o with
  | Some b => negb b
  | None => true
  end.

(** [s.startsWith(q)]. *)
Fixpoint startsWith (s q : string) {struct q} : bool :=
  match q, s with
  | EmptyString, _ => true
  | String _ _, EmptyString => false
  | String a q', String b s' => Ascii.eqb a b && startsWith s' q'
  end.

(** [String.prototype.includes]: [q] occurs in [s] at some position. *)
Fixpoint includes (s q : string) : bool :=
  if startsWith s q then true
  else match s with
       | EmptyString => false
       | String _ s' => includes s' q
       end.

(** [Array.prototype.includes] on an array of strings. *)
Definition array_includes (l : list string) (x : string) : bool :=
  existsb (String.eqb x) l.

(** Number subtraction on time values; [None] is [NaN]. *)
Definition num_sub (a b : option Z) : option Z :=
  match a, b with
  | Some x, Some y => Some (x - y)%Z
  | _, _ => None
  end.

Section Sort.
Context {A : Type}.
Variable comparefn : A -> A -> option Z.

(** The value [Array.prototype.sort] works with: a comparator result
    that is [NaN] counts as [+0]. *)
Definition SortCompare (x y : A) : Z :=
  match comparefn x y with
  | Some v => v
  | None => 0%Z
  end.

(** [Array.prototype.sort] is stable; for a consistent comparator the
    stable sorted arrangement is unique, and it is the one computed by
    inserting every element before the first later element that does
    not precede it. *)
Fixpoint insert (x : A) (l : list A) : list A :=
  match l with
  | [] => [x]
  | y :: l' =>
      if (SortCompare x y <=? 0)%Z then x :: y :: l'
      else y :: insert x l'
  end.

Definition sort (l : list A) : list A := fold_right insert [] l.
End Sort.

End JS.

(* ================================================================== *)
(** ** Data model: [types.ts] and the filter specification *)
(* ================================================================== *)

Inductive VisitType : Type := FollowUp | Crawlback | Call.

Definition VisitType_eqb (a b : VisitType) : bool :=
  match a, b with
  | FollowUp, FollowUp | Crawlback, Crawlback | Call, Call => true
  | _, _ => false
  end.

(** [interface Visit]; an optional property that is absent or [undefined]
    is [None]. *)
Record Visit : Type := mkVisit {
  id : string;
  businessName : string;
  timestamp : string;
  lastModified : option string;
  contactPerson : string;
  ownerName : string;
  ownerContact : option string;
  numberOfPhones : option JS.number;
  estimatedMonthlyPayment : option JS.number;
  currentProvider : string;
  address : string;
  notes : string;
  visitType : VisitType;
  revisitDate : option string;
  isRevisitSuccessful : option bool
}.

(** [type Filters] of [FilterModal.tsx]. *)
Inductive SortBy : Type := newest | oldest | byLastModified.

Inductive VisitTypeFilter : Type :=
| all
| only (t : VisitType).

Record Filters : Type := mkFilters {
  sortBy : SortBy;
  f_visitType : VisitTypeFilter;
  providers : list string
}.

(* ================================================================== *)
(** ** [components/VisitList.tsx]: the query/filter engine *)
(* ================================================================== *)

Module VisitList.

Definition initialFilters : Filters :=
  {| sortBy := newest; f_visitType := all; providers := [] |}.

(** [activeFilters.visitType !== 'all' &&
     visit.visitType !== activeFilters.visitType]. *)
Definition visitType_rejected (f : Filters) (visit : Visit) : bool :=
  match f_visitType f with
  | all => false
  | only t => negb (VisitType_eqb (visitType visit) t)
  end.

Section Engine.
(** [String.prototype.toLowerCase]: the lower-casing of the platform,
    which follows the Unicode case mappings and is not a
    character-by-character map (a capital sigma becomes one of two small
    letters, by its position in the word). *)
Variable toLowerCase : string -> string.

(** The callback of [.filter] in [filteredVisits]. *)
Definition retains (searchQuery : string) (activeFilters : Filters)
           (visit : Visit) : bool :=
  let lowerCaseQuery := toLowerCase searchQuery in
  if visitType_rejected activeFilters visit then false
  else if (0 <? List.length (providers activeFilters))%nat
          && negb (JS.array_includes (providers activeFilters)
                                     (currentProvider visit))
  then false
  else if JS.truthy_string searchQuery
          && negb (JS.includes (toLowerCase (businessName visit))
                               lowerCaseQuery
                   || JS.includes (toLowerCase (contactPerson visit))
                                  lowerCaseQuery
                   || JS.includes (toLowerCase (address visit))
                                  lowerCaseQuery)
  then false
  else true.

(** [new Date(s).getTime()]. *)
Variable getTime : string -> option Z.

(** The callback of [.sort] in [filteredVisits]. *)
Definition compareVisits (activeFilters : Filters) (a b : Visit)
  : option Z :=
  match sortBy activeFilters with
  | byLastModified =>
      let timeA := getTime (JS.or_string (lastModified a) (timestamp a)) in
      let timeB := getTime (JS.or_string (lastModified b) (timestamp b)) in
      JS.num_sub timeB timeA
  | newest =>
      let timeA := getTime (timestamp a) in
      let timeB := getTime (timestamp b) in
      JS.num_sub timeB timeA
  | oldest =>
      let timeA := getTime (timestamp a) in
      let timeB := getTime (timestamp b) in
      JS.num_sub timeA timeB
  end.

Definition filteredVisits (visits : list Visit) (searchQuery : string)
           (activeFilters : Filters) : list Visit :=
  JS.sort (compareVisits activeFilters)
          (filter (retains searchQuery activeFilters) visits).
End Engine.

End VisitList.

(* ================================================================== *)
(** ** Dialogs: what a handler shows to the user *)
(* ================================================================== *)

(** [window.alert] and [window.confirm] are the only way the program
    reports to the user.  A handler is a computation that returns a value
    together with the dialogs it opened, in order; the answer to a
    [confirm] is an input. *)
Inductive ui_event : Type :=
| Alert (message : string)
| Confirm (message : string) (answer : bool).

Definition UI (A : Type) : Type := (A * list ui_event)%type.

Definition ret {A} (a : A) : UI A := (a, []).

Definition bind {A B} (m : UI A) (k : A -> UI B) : UI B :=
  let (a, t1) := m in
  let (b, t2) := k a in
  (b, t1 ++ t2).

Definition alert (message : string) : UI unit := (tt, [Alert message]).

Definition confirm (message : string) (answer : bool) : UI bool :=
  (answer, [Confirm message answer]).

Declare Scope ui_scope.
Delimit Scope ui_scope with ui.
Notation "x <- m ;; k" := (bind m (fun x => k))
  (at level 61, m at next level, right associativity) : ui_scope.
Notation "m ;;; k" := (bind m (fun _ => k))
  (at level 61, right associativity) : ui_scope.

(** The state a handler leaves, and whether it reported anything. *)
Definition result {A} (m : UI A) : A := fst m.
Definition dialogs {A} (m : UI A) : list ui_event := snd m.

(** An error is surfaced when some [alert] was shown. *)
Definition error_surfaced {A} (m : UI A) : Prop :=
  exists message, In (Alert message) (dialogs m).

(** A computation that may throw an [Error] with a message. *)
Inductive completion (A : Type) : Type :=
| Normal (a : A)
| Throw (message : string).
Arguments Normal {A} a.
Arguments Throw {A} message.

(** The state once an event handler is done: a handler that throws before
    it calls a setter leaves the state of the render it ran in. *)
Definition settled {S : Type} (st : S) (c : completion S) : S :=
  match c with
  | Normal st' => st'
  | Throw _ => st
  end.

(* ================================================================== *)
(** ** [App.tsx]: the repository operations and the navigation state *)
(* ================================================================== *)

(** An optional own property of an object literal: the key may be absent,
    or present with a value that may be [undefined].  Object spread copies
    present keys only. *)
Inductive optional (A : Type) : Type :=
| absent
| present (v : option A).
Arguments absent {A}.
Arguments present {A} v.

(** The value of property [k] in [{...old, ...new}]. *)
Definition spread_over {A} (old : option A) (new : optional A) : option A :=
  match new with
  | absent => old
  | present v => v
  end.

(** [Omit<Visit, 'id' | 'timestamp' | 'lastModified'> & { id?: string }],
    the argument of [handleSaveVisit]. *)
Record Draft : Type := mkDraft {
  d_id : option string;
  d_businessName : string;
  d_contactPerson : string;
  d_ownerName : string;
  d_ownerContact : optional string;
  d_numberOfPhones : option JS.number;
  d_estimatedMonthlyPayment : option JS.number;
  d_currentProvider : string;
  d_address : string;
  d_notes : string;
  d_visitType : VisitType;
  d_revisitDate : optional string;
  d_isRevisitSuccessful : optional bool
}.

Module App.

Inductive View : Type := list_view | detail_view | form_view.

(** The four state cells of the [App] component. *)
Record State : Type := mkState {
  visits : list Visit;
  view : View;
  selectedVisitId : option string;
  isEditing : bool
}.

Definition initialState (stored : list Visit) : State :=
  {| visits := stored; view := list_view;
     selectedVisitId := None; isEditing := false |}.

(** [visits.find(v => v.id === id)]. *)
Definition findVisit (i : string) (vs : list Visit) : option Visit :=
  find (fun v => id v =? i) vs.

(** The [selectedVisit] memo. *)
Definition selectedVisit (st : State) : option Visit :=
  if negb (JS.truthy_opt_string (selectedVisitId st)) then None
  else match selectedVisitId st with
       | Some i => findVisit i (visits st)
       | None => None
       end.

(** [selectedVisitId === id]. *)
Definition selected_is (st : State) (i : string) : bool :=
  match selectedVisitId st with
  | Some s => s =? i
  | None => false
  end.

Definition handleSelectVisit (i : string) (st : State) : UI State :=
  ret {| visits := visits st; view := detail_view;
         selectedVisitId := Some i; isEditing := isEditing st |}.

Definition handleGoBack (st : State) : UI State :=
  match view st with
  | detail_view =>
      ret {| visits := visits st; view := list_view;
             selectedVisitId := None; isEditing := isEditing st |}
  | form_view =>
      let v' := match isEditing st, selectedVisit st with
                | true, Some _ => detail_view
                | _, _ => list_view
                end in
      ret {| visits := visits st; view := v';
             selectedVisitId := selectedVisitId st; isEditing := false |}
  | list_view => ret st
  end.

Definition handleNewVisit (st : State) : UI State :=
  ret {| visits := visits st; view := form_view;
         selectedVisitId := None; isEditing := false |}.

Definition handleEditVisit (st : State) : UI State :=
  match selectedVisit st with
  | Some _ =>
      ret {| visits := visits st; view := form_view;
             selectedVisitId := selectedVisitId st; isEditing := true |}
  | None => ret st
  end.

Definition handleEditVisitFromList (i : string) (st : State) : UI State :=
  ret {| visits := visits st; view := form_view;
         selectedVisitId := Some i; isEditing := true |}.

Definition handleDeleteVisit (answer : bool) (i : string) (st : State)
  : UI State :=
  (ok <- confirm "Are you sure you want to delete this visit?" answer ;;
   if ok then
     let visits' := filter (fun v => negb (id v =? i)) (visits st) in
     if selected_is st i then
       ret {| visits := visits'; view := list_view;
              selectedVisitId := None; isEditing := isEditing st |}
     else
       ret {| visits := visits'; view := view st;
              selectedVisitId := selectedVisitId st;
              isEditing := isEditing st |}
   else ret st)%ui.

(** [{ ...v, ...visit, timestamp: v.timestamp, lastModified: now }],
    where [visit.id] is the string [i]. *)
Definition merged (now i : string) (visit : Draft) (v : Visit) : Visit :=
  {| id := i;
     businessName := d_businessName visit;
     timestamp := timestamp v;
     lastModified := Some now;
     contactPerson := d_contactPerson visit;
     ownerName := d_ownerName visit;
     ownerContact := spread_over (ownerContact v) (d_ownerContact visit);
     numberOfPhones := d_numberOfPhones visit;
     estimatedMonthlyPayment := d_estimatedMonthlyPayment visit;
     currentProvider := d_currentProvider visit;
     address := d_address visit;
     notes := d_notes visit;
     visitType := d_visitType visit;
     revisitDate := spread_over (revisitDate v) (d_revisitDate visit);
     isRevisitSuccessful :=
       spread_over (isRevisitSuccessful v) (d_isRevisitSuccessful visit) |}.

(** [{ ...visit, id: newId, timestamp: stamp }]. *)
Definition newVisit (newId stamp : string) (visit : Draft) : Visit :=
  {| id := newId;
     businessName := d_businessName visit;
     timestamp := stamp;
     lastModified := None;
     contactPerson := d_contactPerson visit;
     ownerName := d_ownerName visit;
     ownerContact := spread_over None (d_ownerContact visit);
     numberOfPhones := d_numberOfPhones visit;
     estimatedMonthlyPayment := d_estimatedMonthlyPayment visit;
     currentProvider := d_currentProvider visit;
     address := d_address visit;
     notes := d_notes visit;
     visitType := d_visitType visit;
     revisitDate := spread_over None (d_revisitDate visit);
     isRevisitSuccessful := spread_over None (d_isRevisitSuccessful visit) |}.

(** What [handleSaveVisit] reads from the environment: the results of
    [new Date().toISOString()] (the second call happens only when a
    record is created) and of [Math.random()] converted to a string. *)
Record Env : Type := mkEnv {
  now : string;
  random : string;
  now_again : string
}.

Definition handleSaveVisit (env : Env) (visit : Draft) (st : State)
  : UI State :=
  let visits' :=
    match d_id visit with
    | Some i =>
        if JS.truthy_string i then
          (* Editing existing visit *)
          map (fun v => if id v =? i then merged (now env) i visit v else v)
              (visits st)
        else
          newVisit (now env ++ random env) (now_again env) visit :: visits st
    | None =>
        (* Creating new visit *)
        newVisit (now env ++ random env) (now_again env) visit :: visits st
    end in
  ret {| visits := visits'; view := list_view;
         selectedVisitId := None; isEditing := false |}.

(** [{ ...v, isRevisitSuccessful: !v.isRevisitSuccessful,
       lastModified: now }]. *)
Definition toggled (now : string) (v : Visit) : Visit :=
  {| id := id v;
     businessName := businessName v;
     timestamp := timestamp v;
     lastModified := Some now;
     contactPerson := contactPerson v;
     ownerName := ownerName v;
     ownerContact := ownerContact v;
     numberOfPhones := numberOfPhones v;
     estimatedMonthlyPayment := estimatedMonthlyPayment v;
     currentProvider := currentProvider v;
     address := address v;
     notes := notes v;
     visitType := visitType v;
     revisitDate := revisitDate v;
     isRevisitSuccessful := Some (JS.not_opt_bool (isRevisitSuccessful v)) |}.

Definition handleToggleRevisitSuccess (now : string) (i : string)
           (st : State) : UI State :=
  ret {| visits :=
           map (fun v => if id v =? i then toggled now v else v) (visits st);
         view := view st;
         selectedVisitId := selectedVisitId st;
         isEditing := isEditing st |}.

(** What [renderContent] puts on the screen. *)
Inductive Rendered : Type :=
| Nothing
| VisitDetail (visit : Visit)
| VisitForm (initialVisit : option Visit)
| VisitListScreen (visits : list Visit).

Definition renderContent (st : State) : Rendered :=
  match view st with
  | detail_view =>
      match selectedVisit st with
      | Some v => VisitDetail v
      | None => Nothing
      end
  | form_view =>
      VisitForm (if isEditing st then selectedVisit st else None)
  | list_view => VisitListScreen (visits st)
  end.

End App.

(* ================================================================== *)
(** ** [components/VisitForm.tsx]: submitting the form *)
(* ================================================================== *)

Module VisitForm.

(** The [FormData] state of the form: every input is a string. *)
Record FormData : Type := mkFormData {
  fd_visitType : VisitType;
  fd_businessName : string;
  fd_contactPerson : string;
  fd_ownerName : string;
  fd_ownerContact : string;
  fd_numberOfPhones : string;
  fd_estimatedMonthlyPayment : string;
  fd_currentProvider : string;
  fd_address : string;
  fd_notes : string;
  fd_revisitDate : string
}.

Section Submit.
(** [String.prototype.trim], [parseFloat] and
    [new Date(s).toISOString()].  The last is [None] when [s] is no
    date: [toISOString] of an Invalid Date throws a RangeError. *)
Variable trim : string -> string.
Variable parseFloat : string -> JS.number.
Variable dateToISOString : string -> option string.

(** [s.trim() === '' ? null : parseFloat(s)]. *)
Definition numberOrNull (s : string) : option JS.number :=
  if trim s =? "" then None else Some (parseFloat s).

(** [formData.revisitDate
       ? new Date(formData.revisitDate).toISOString() : undefined]. *)
Definition revisitDateOf (formData : FormData)
  : completion (option string) :=
  if JS.truthy_string (fd_revisitDate formData) then
    match dateToISOString (fd_revisitDate formData) with
    | Some iso => Normal (Some iso)
    | None => Throw "Invalid time value"
    end
  else Normal None.

(** The object literal passed to [onSave]; evaluating it throws when
    the revisit date does. *)
Definition toDraft (formData : FormData) (initialVisit : option Visit)
  : completion Draft :=
  match revisitDateOf formData with
  | Throw m => Throw m
  | Normal revisit =>
      Normal
        {| d_id := option_map id initialVisit;
           d_businessName := fd_businessName formData;
           d_contactPerson := fd_contactPerson formData;
           d_ownerName := fd_ownerName formData;
           d_ownerContact := present (Some (fd_ownerContact formData));
           d_numberOfPhones := numberOrNull (fd_numberOfPhones formData);
           d_estimatedMonthlyPayment :=
             numberOrNull (fd_estimatedMonthlyPayment formData);
           d_currentProvider := fd_currentProvider formData;
           d_address := fd_address formData;
           d_notes := fd_notes formData;
           d_visitType := fd_visitType formData;
           d_revisitDate := present revisit;
           d_isRevisitSuccessful := absent |}
  end.

(** [handleSubmit], with [onSave] the continuation.  The argument of
    [onSave] is evaluated first: when that throws, [onSave] is not
    called and the exception leaves the handler. *)
Definition handleSubmit {S : Type} (onSave : Draft -> S -> UI S)
           (formData : FormData) (initialVisit : option Visit) (st : S)
  : UI (completion S) :=
  if negb (JS.truthy_string (fd_businessName formData)) then
    (alert "Business Name is required." ;;; ret (Normal st))%ui
  else
    match toDraft formData initialVisit with
    | Throw m => ret (Throw m)
    | Normal visit => (st' <- onSave visit st ;; ret (Normal st'))%ui
    end.

(** The form as [renderContent] wires it:
    [onSave={handleSaveVisit}] and
    [initialVisit={isEditing ? selectedVisit : null}]. *)
Definition submit (env : App.Env) (formData : FormData) (st : App.State)
  : UI (completion App.State) :=
  handleSubmit (App.handleSaveVisit env) formData
               (if App.isEditing st then App.selectedVisit st else None)
               st.
End Submit.

End VisitForm.

(* ================================================================== *)
(** ** [components/VisitList.tsx]: import *)
(* ================================================================== *)

(** The result of [JSON.parse]. *)
Module JSON.

#[local] Set Warnings "-register-all".

Inductive value : Type :=
| Null
| Bool (b : bool)
| Number (n : JS.number)
| Str (s : string)
| Array (elements : list value)
| Object (properties : list (string * value)).

(** ToBoolean of a property read; [None] is [undefined]. *)
Definition truthy (v : option value) : bool :=
  match v with
  | None => false
  | Some Null => false
  | Some (Bool b) => b
  | Some (Number n) => JS.truthy_number n
  | Some (Str s) => JS.truthy_string s
  | Some (Array _) => true
  | Some (Object _) => true
  end.

Fixpoint lookup (k : string) (properties : list (string * value))
  : option value :=
  match properties with
  | [] => None
  | (k', v) :: rest => if k' =? k then Some v else lookup k rest
  end.

End JSON.

Module Importer.

(** [v.k] for [k] one of [id], [businessName], [timestamp]: reading a
    property of [null] throws a TypeError; a primitive or an array has no
    such property. *)
Definition get (v : JSON.value) (k : string)
  : completion (option JSON.value) :=
  match v with
  | JSON.Null =>
      Throw ("Cannot read properties of null (reading '" ++ k ++ "')")
  | JSON.Object properties => Normal (JSON.lookup k properties)
  | _ => Normal None
  end.

(** ToBoolean of [v.id && v.businessName && v.timestamp]. *)
Definition hasRequired (v : JSON.value) : completion bool :=
  match get v "id" with
  | Throw m => Throw m
  | Normal a =>
      if negb (JSON.truthy a) then Normal false
      else match get v "businessName" with
           | Throw m => Throw m
           | Normal b =>
               if negb (JSON.truthy b) then Normal false
               else match get v "timestamp" with
                    | Throw m => Throw m
                    | Normal c => Normal (JSON.truthy c)
                    end
           end
  end.

(** [Array.prototype.every] with a callback that may throw. *)
Fixpoint every (p : JSON.value -> completion bool) (l : list JSON.value)
  : completion bool :=
  match l with
  | [] => Normal true
  | v :: rest =>
      match p v with
      | Throw m => Throw m
      | Normal true => every p rest
      | Normal false => Normal false
      end
  end.

Definition string_of_nat (n : nat) : string :=
  NilEmpty.string_of_uint (Nat.to_uint n).

Definition confirmMessage (existing incoming : nat) : string :=
  "Are you sure you want to replace all " ++ string_of_nat existing
  ++ " existing logs with " ++ string_of_nat incoming
  ++ " imported logs? This action cannot be undone.".

Definition invalidFormat : string :=
  "Invalid file format. Ensure the file is a valid JSON export from this application.".

Section Reader.
(** [JSON.parse]; a SyntaxError carries the engine's message. *)
Variable JSON_parse : string -> completion JSON.value.

(** The part of the [try] block that can throw: it yields the array
    to import. *)
Definition validated (text : option string)
  : completion (list JSON.value) :=
  match text with
  | None => Throw "File is not readable"
  | Some text =>
      match JSON_parse text with
      | Throw m => Throw m
      | Normal (JSON.Array importedVisits) =>
          match every hasRequired importedVisits with
          | Throw m => Throw m
          | Normal true => Normal importedVisits
          | Normal false => Throw invalidFormat
          end
      | Normal _ => Throw invalidFormat
      end
  end.

(** [reader.onload] of [handleFileChange]: [visits] is the collection
    of the current render, the result is the collection afterwards.
    [JSON.parse(text) as Visit[]] is an unchecked cast, so at this
    point the collection is an array of parsed JSON values. *)
Definition handleFileChange (answer : bool) (text : option string)
           (visits : list JSON.value) : UI (list JSON.value) :=
  match validated text with
  | Normal importedVisits =>
      (ok <- confirm (confirmMessage (List.length visits)
                                     (List.length importedVisits))
                     answer ;;
       if ok then
         alert "Logs imported successfully!" ;;; ret importedVisits
       else ret visits)%ui
  | Throw m =>
      (alert ("Failed to import logs. Please check the file format. Error: "
              ++ m) ;;;
       ret visits)%ui
  end.
End Reader.

(** The shape [interface Visit] asks of a parsed value. *)
Definition isStr (v : option JSON.value) : bool :=
  match v with Some (JSON.Str _) => true | _ => false end.

Definition isOptStr (v : option JSON.value) : bool :=
  match v with None => true | Some (JSON.Str _) => true | _ => false end.

Definition isNumOrNull (v : option JSON.value) : bool :=
  match v with
  | Some (JSON.Number _) => true
  | Some JSON.Null => true
  | _ => false
  end.

Definition isOptBool (v : option JSON.value) : bool :=
  match v with None => true | Some (JSON.Bool _) => true | _ => false end.

Definition isVisitType (v : option JSON.value) : bool :=
  match v with
  | Some (JSON.Str s) =>
      (s =? "Follow-Up") || (s =? "Crawlback") || (s =? "Call")
  | _ => false
  end.

Definition conformsToVisit (v : JSON.value) : bool :=
  match v with
  | JSON.Object p =>
      isStr (JSON.lookup "id" p)
      && isStr (JSON.lookup "businessName" p)
      && isStr (JSON.lookup "timestamp" p)
      && isOptStr (JSON.lookup "lastModified" p)
      && isStr (JSON.lookup "contactPerson" p)
      && isStr (JSON.lookup "ownerName" p)
      && isOptStr (JSON.lookup "ownerContact" p)
      && isNumOrNull (JSON.lookup "numberOfPhones" p)
      && isNumOrNull (JSON.lookup "estimatedMonthlyPayment" p)
      && isStr (JSON.lookup "currentProvider" p)
      && isStr (JSON.lookup "address" p)
      && isStr (JSON.lookup "notes" p)
      && isVisitType (JSON.lookup "visitType" p)
      && isOptStr (JSON.lookup "revisitDate" p)
      && isOptBool (JSON.lookup "isRevisitSuccessful" p)
  | _ => false
  end.

End Importer.

(* ================================================================== *)
(** ** The navigation controller as a transition system *)
(* ================================================================== *)

Module Navigation.

(** What can happen to the application: the callbacks of [App] that the
    rendered screen offers, and a change of the stored collection that
    no handler of [App] made ([StoreChanged]).  The collection lives in
    the [useLocalStorage] hook, outside the component, and its setter is
    handed to the list as [setVisits]: an import calls it from
    [reader.onload], which runs whenever the file has been read, whatever
    the view is by then. *)
Inductive event : Type :=
| SelectVisit (i : string)
| NewVisit
| EditVisitFromList (i : string)
| DeleteVisitFromList (answer : bool) (i : string)
| Back
| Edit
| Delete (answer : bool)
| ToggleRevisitSuccess (now : string)
| Save (env : App.Env) (formData : VisitForm.FormData)
| Cancel
| StoreChanged (stored : list Visit).

Definition listed (i : string) (vs : list Visit) : bool :=
  existsb (fun v => id v =? i) vs.

Section Machine.
Variable trim : string -> string.
Variable parseFloat : string -> JS.number.
Variable dateToISOString : string -> option string.

(** The state after an event, when the screen offers it. *)
Definition fire (e : event) (st : App.State) : option App.State :=
  match e, App.renderContent st with
  | StoreChanged stored, _ =>
      Some {| App.visits := stored; App.view := App.view st;
              App.selectedVisitId := App.selectedVisitId st;
              App.isEditing := App.isEditing st |}
  | SelectVisit i, App.VisitListScreen vs =>
      if listed i vs then Some (result (App.handleSelectVisit i st))
      else None
  | NewVisit, App.VisitListScreen _ =>
      Some (result (App.handleNewVisit st))
  | EditVisitFromList i, App.VisitListScreen vs =>
      if listed i vs then Some (result (App.handleEditVisitFromList i st))
      else None
  | DeleteVisitFromList answer i, App.VisitListScreen vs =>
      if listed i vs then Some (result (App.handleDeleteVisit answer i st))
      else None
  | Back, App.VisitDetail _ => Some (result (App.handleGoBack st))
  | Edit, App.VisitDetail _ => Some (result (App.handleEditVisit st))
  | Delete answer, App.VisitDetail v =>
      Some (result (App.handleDeleteVisit answer (id v) st))
  | ToggleRevisitSuccess now, App.VisitDetail v =>
      Some (result (App.handleToggleRevisitSuccess now (id v) st))
  | Save env formData, App.VisitForm _ =>
      Some (settled st
              (result (VisitForm.submit trim parseFloat dateToISOString
                                        env formData st)))
  | Cancel, App.VisitForm _ => Some (result (App.handleGoBack st))
  | _, _ => None
  end.

Fixpoint run (events : list event) (st : App.State)
  : option App.State :=
  match events with
  | [] => Some st
  | e :: rest =>
      match fire e st with
      | Some st' => run rest st'
      | None => None
      end
  end.

Definition reachable (st : App.State) : Prop :=
  exists stored events, run events (App.initialState stored) = Some st.
End Machine.

(** The events that are callbacks of [App]. *)
Definition in_band (e : event) : bool :=
  match e with
  | StoreChanged _ => false
  | _ => true
  end.

(** The view is [Detail(i)] or [Form(Edit(i))]. *)
Definition shows_record (st : App.State) (i : string) : Prop :=
  App.selectedVisitId st = Some i
  /\ (App.view st = App.detail_view
      \/ (App.view st = App.form_view /\ App.isEditing st = true)).

(** Whatever record the view is about is in the collection. *)
Definition backed (st : App.State) : Prop :=
  forall i, shows_record st i -> In i (map id (App.visits st)).

End Navigation.

(* ================================================================== *)
(** ** [components/VisitList.tsx]: the state of the list screen *)
(* ================================================================== *)

Module ListScreen.

(** The state cells of the [VisitList] component that the list depends
    on. *)
Record State : Type := mkState {
  searchQuery : string;
  openItemId : option string;
  isFilterModalOpen : bool;
  activeFilters : Filters
}.

Definition initialState : State :=
  {| searchQuery := ""; openItemId := None; isFilterModalOpen := false;
     activeFilters := VisitList.initialFilters |}.

Definition is_newest (s : SortBy) : bool :=
  match s with
  | newest => true
  | oldest | byLastModified => false
  end.

Definition is_all (t : VisitTypeFilter) : bool :=
  match t with
  | all => true
  | only _ => false
  end.

(** [activeFilters.sortBy !== 'newest' || activeFilters.visitType !== 'all'
     || activeFilters.providers.length > 0]. *)
Definition isFilterActive (activeFilters : Filters) : bool :=
  negb (is_newest (sortBy activeFilters))
  || negb (is_all (f_visitType activeFilters))
  || (0 <? List.length (providers activeFilters))%nat.

(** What the [<main>] element shows: the items, or one of two
    messages. *)
Inductive Main : Type :=
| Items (filteredVisits : list Visit)
| Message (text : string).

Definition main (toLowerCase : string -> string)
           (getTime : string -> option Z) (visits : list Visit)
           (st : State) : Main :=
  let filteredVisits :=
    VisitList.filteredVisits toLowerCase getTime visits (searchQuery st)
                             (activeFilters st) in
  if (0 <? List.length filteredVisits)%nat then Items filteredVisits
  else Message (if JS.truthy_string (searchQuery st)
                   || isFilterActive (activeFilters st)
                then "No visits match your search or filters."
                else "No visits logged yet.").

Definition handleRefresh (st : State) : State :=
  {| searchQuery := ""; openItemId := None;
     isFilterModalOpen := isFilterModalOpen st;
     activeFilters := VisitList.initialFilters |}.

Definition handleApplyFilters (filters : Filters) (st : State) : State :=
  {| searchQuery := searchQuery st; openItemId := openItemId st;
     isFilterModalOpen := isFilterModalOpen st;
     activeFilters := filters |}.

Definition handleClearFilters (st : State) : State :=
  {| searchQuery := searchQuery st; openItemId := openItemId st;
     isFilterModalOpen := isFilterModalOpen st;
     activeFilters := VisitList.initialFilters |}.

Definition setSearchQuery (q : string) (st : State) : State :=
  {| searchQuery := q; openItemId := openItemId st;
     isFilterModalOpen := isFilterModalOpen st;
     activeFilters := activeFilters st |}.

Definition setFilterModalOpen (b : bool) (st : State) : State :=
  {| searchQuery := searchQuery st; openItemId := openItemId st;
     isFilterModalOpen := b;
     activeFilters := activeFilters st |}.

(** [s.split(c)[0]]: the part of [s] before the first [c], all of [s]
    when there is none. *)
Fixpoint beforeFirst (c : ascii) (s : string) : string :=
  match s with
  | EmptyString => EmptyString
  | String a rest =>
      if Ascii.eqb a c then EmptyString else String a (beforeFirst c rest)
  end.

(** The link [handleExport] clicks. *)
Record Download : Type := mkDownload {
  href : string;
  download : string
}.

Section Exporting.
Context {A : Type}.
(** [JSON.stringify(visits, null, 2)] and [encodeURIComponent]. *)
Variable stringify : list A -> string.
Variable encodeURIComponent : string -> string.

(** [handleExport]; [now] is [new Date().toISOString()]. *)
Definition handleExport (now : string) (visits : list A)
  : UI (option Download) :=
  if (List.length visits =? 0)%nat then
    (alert "There are no logs to export." ;;; ret None)%ui
  else
    ret (Some {| href := "data:text/json;charset=utf-8,"
                         ++ encodeURIComponent (stringify visits);
                 download := "business-visits-log-"
                             ++ beforeFirst "T" now ++ ".json" |}).
End Exporting.

End ListScreen.

(* ================================================================== *)
(** ** [components/FilterModal.tsx] *)
(* ================================================================== *)

Module FilterModal.

(** The updater of [handleProviderToggle]. *)
Definition handleProviderToggle (provider : string) (prev : Filters)
  : Filters :=
  let newProviders :=
    if JS.array_includes (providers prev) provider
    then filter (fun p => negb (p =? provider)) (providers prev)
    else providers prev ++ [provider] in
  {| sortBy := sortBy prev; f_visitType := f_visitType prev;
     providers := newProviders |}.

(** The updaters of the radio buttons. *)
Definition chooseSortBy (s : SortBy) (f : Filters) : Filters :=
  {| sortBy := s; f_visitType := f_visitType f; providers := providers f |}.

Definition chooseVisitType (t : VisitTypeFilter) (f : Filters) : Filters :=
  {| sortBy := sortBy f; f_visitType := t; providers := providers f |}.

(** The list screen together with the modal it owns: [localFilters] is
    the state cell of [FilterModal]. *)
Record Screen : Type := mkScreen {
  screen : ListScreen.State;
  localFilters : Filters
}.

Definition initialScreen : Screen :=
  {| screen := ListScreen.initialState;
     localFilters := VisitList.initialFilters |}.

Inductive event : Type :=
| Search (q : string)
| Refresh
| OpenFilters
| CloseFilters
| ChooseSortBy (s : SortBy)
| ChooseVisitType (t : VisitTypeFilter)
| ToggleProvider (provider : string)
| ApplyFilters
| ClearFilters.

Section Machine.
(** The [PROVIDERS] constant, one checkbox each. *)
Variable PROVIDERS : list string.

(** The state after an event, when the screen offers it.  Opening the
    modal runs the effect that copies the current filters into
    [localFilters]; the controls of the modal exist only while it is
    open, and it then covers the controls of the list. *)
Definition fire (e : event) (s : Screen) : option Screen :=
  let isOpen := ListScreen.isFilterModalOpen (screen s) in
  match e with
  | Search q =>
      if isOpen then None
      else Some {| screen := ListScreen.setSearchQuery q (screen s);
                   localFilters := localFilters s |}
  | Refresh =>
      if isOpen then None
      else Some {| screen := ListScreen.handleRefresh (screen s);
                   localFilters := localFilters s |}
  | OpenFilters =>
      if isOpen then None
      else Some {| screen := ListScreen.setFilterModalOpen true (screen s);
                   localFilters := ListScreen.activeFilters (screen s) |}
  | CloseFilters =>
      if isOpen then
        Some {| screen := ListScreen.setFilterModalOpen false (screen s);
                localFilters := localFilters s |}
      else None
  | ChooseSortBy x =>
      if isOpen then
        Some {| screen := screen s;
                localFilters := chooseSortBy x (localFilters s) |}
      else None
  | ChooseVisitType t =>
      if isOpen then
        Some {| screen := screen s;
                localFilters := chooseVisitType t (localFilters s) |}
      else None
  | ToggleProvider provider =>
      if isOpen && JS.array_includes PROVIDERS provider then
        Some {| screen := screen s;
                localFilters :=
                  handleProviderToggle provider (localFilters s) |}
      else None
  | ApplyFilters =>
      if isOpen then
        Some {| screen :=
                  ListScreen.setFilterModalOpen
                    false
                    (ListScreen.handleApplyFilters (localFilters s)
                                                   (screen s));
                localFilters := localFilters s |}
      else None
  | ClearFilters =>
      if isOpen then
        Some {| screen :=
                  ListScreen.setFilterModalOpen
                    false (ListScreen.handleClearFilters (screen s));
                localFilters := localFilters s |}
      else None
  end.

Fixpoint run (events : list event) (s : Screen) : option Screen :=
  match events with
  | [] => Some s
  | e :: rest =>
      match fire e s with
      | Some s' => run rest s'
      | None => None
      end
  end.
End Machine.

(** The events that edit [localFilters], and what each does to it. *)
Definition is_edit (e : event) : bool :=
  match e with
  | ChooseSortBy _ | ChooseVisitType _ | ToggleProvider _ => true
  | _ => false
  end.

Definition edit (f : Filters) (e : event) : Filters :=
  match e with
  | ChooseSortBy x => chooseSortBy x f
  | ChooseVisitType t => chooseVisitType t f
  | ToggleProvider provider => handleProviderToggle provider f
  | _ => f
  end.

(** Each selected provider is one of [PROVIDERS] and is selected once. *)
Definition tidy (PROVIDERS : list string) (f : Filters) : Prop :=
  NoDup (providers f) /\ incl (providers f) PROVIDERS.

End FilterModal.

(* ================================================================== *)
(** ** [components/VisitForm.tsx]: the form opened on a visit *)
(* ================================================================== *)

Module FormInit.

(** What the local-time getters of a [Date] return. *)
Record LocalTime : Type := mkLocalTime {
  getFullYear : Z;
  getMonth : nat;
  getDate : nat;
  getHours : nat;
  getMinutes : nat
}.

(** [n.toString()] on an integer. *)
Definition toString (n : nat) : string :=
  NilEmpty.string_of_uint (Nat.to_uint n).

Definition toString_Z (z : Z) : string :=
  NilEmpty.string_of_int (Z.to_int z).

Fixpoint zeros (n : nat) : string :=
  match n with
  | O => EmptyString
  | S n' => String "0" (zeros n')
  end.

(** [s.padStart(targetLength, '0')]. *)
Definition padStart (targetLength : nat) (s : string) : string :=
  zeros (targetLength - String.length s) ++ s.

Definition formatForDateTimeLocal (date : LocalTime) : string :=
  let year := toString_Z (getFullYear date) in
  let month := padStart 2 (toString (getMonth date + 1)) in
  let day := padStart 2 (toString (getDate date)) in
  let hours := padStart 2 (toString (getHours date)) in
  let minutes := padStart 2 (toString (getMinutes date)) in
  year ++ "-" ++ month ++ "-" ++ day ++ "T" ++ hours ++ ":" ++ minutes.

(** [formatForDateTimeLocal(new Date(s))]: [None] is an Invalid Date,
    whose getters all return [NaN]. *)
Definition formatDate (date : option LocalTime) : string :=
  match date with
  | Some d => formatForDateTimeLocal d
  | None => "NaN-NaN-NaNTNaN:NaN"
  end.

(** The initial value of the [formData] state. *)
Definition blankForm : VisitForm.FormData :=
  {| VisitForm.fd_visitType := FollowUp;
     VisitForm.fd_businessName := "";
     VisitForm.fd_contactPerson := "";
     VisitForm.fd_ownerName := "";
     VisitForm.fd_ownerContact := "";
     VisitForm.fd_numberOfPhones := "";
     VisitForm.fd_estimatedMonthlyPayment := "";
     VisitForm.fd_currentProvider := "";
     VisitForm.fd_address := "";
     VisitForm.fd_notes := "";
     VisitForm.fd_revisitDate := "" |}.

Section Effect.
(** [String(n)] on a number, and [new Date(s)] read through its
    local-time getters ([None] when [s] is no date). *)
Variable numberToString : JS.number -> string.
Variable localTime : string -> option LocalTime.

(** [n === null ? '' : String(n)]. *)
Definition numberField (n : option JS.number) : string :=
  match n with
  | None => ""
  | Some x => numberToString x
  end.

(** The object the effect passes to [setFormData] when [initialVisit] is
    a visit. *)
Definition formDataFor (initialVisit : Visit) : VisitForm.FormData :=
  {| VisitForm.fd_visitType := visitType initialVisit;
     VisitForm.fd_businessName := businessName initialVisit;
     VisitForm.fd_contactPerson := contactPerson initialVisit;
     VisitForm.fd_ownerName := ownerName initialVisit;
     VisitForm.fd_ownerContact := JS.or_string (ownerContact initialVisit) "";
     VisitForm.fd_numberOfPhones :=
       numberField (numberOfPhones initialVisit);
     VisitForm.fd_estimatedMonthlyPayment :=
       numberField (estimatedMonthlyPayment initialVisit);
     VisitForm.fd_currentProvider := currentProvider initialVisit;
     VisitForm.fd_address := address initialVisit;
     VisitForm.fd_notes := notes initialVisit;
     VisitForm.fd_revisitDate :=
       match revisitDate initialVisit with
       | Some r =>
           if JS.truthy_string r
           then formatDate (localTime r)
           else ""
       | None => ""
       end |}.

(** The effect on [initialVisit]: the form data is written only when
    [initialVisit] is a visit; otherwise it stays as it is. *)
Definition effect (initialVisit : option Visit)
           (formData : VisitForm.FormData) : VisitForm.FormData :=
  match initialVisit with
  | Some v => formDataFor v
  | None => formData
  end.

(** The form data once the form is mounted on [initialVisit]. *)
Definition mounted (initialVisit : option Visit) : VisitForm.FormData :=
  effect initialVisit blankForm.
End Effect.

(** [isSaveDisabled]. *)
Definition isSaveDisabled (formData : VisitForm.FormData) : bool :=
  negb (JS.truthy_string (VisitForm.fd_businessName formData)).

End FormInit.

(* ================================================================== *)
(** ** [components/VisitItem.tsx] *)
(* ================================================================== *)

Module VisitItem.

Definition isDigit (c : ascii) : bool :=
  let n := nat_of_ascii c in ((48 <=? n) && (n <=? 57))%nat.

(** [s.replace(/[-:]/g, '')]. *)
Fixpoint removeDashesAndColons (s : string) : string :=
  match s with
  | EmptyString => EmptyString
  | String c rest =>
      if Ascii.eqb c "-" || Ascii.eqb c ":"
      then removeDashesAndColons rest
      else String c (removeDashesAndColons rest)
  end.

(** [\d{3}] at the head of [s]: what follows the three digits. *)
Definition afterThreeDigits (s : string) : option string :=
  match s with
  | String a (String b (String c rest)) =>
      if isDigit a && isDigit b && isDigit c then Some rest else None
  | _ => None
  end.

(** [s.replace(/\.\d{3}/, '')]: the leftmost match is removed. *)
Fixpoint removeMillis (s : string) : string :=
  match s with
  | EmptyString => EmptyString
  | String c rest =>
      if Ascii.eqb c "." then
        match afterThreeDigits rest with
        | Some rest' => rest'
        | None => String c (removeMillis rest)
        end
      else String c (removeMillis rest)
  end.

Section Calendar.
(** [new Date(s).toISOString()]. *)
Variable dateToISOString : string -> string.

Definition formatGoogleCalendarDate (isoDate : string) : string :=
  removeMillis (removeDashesAndColons (dateToISOString isoDate)).
End Calendar.

(** The mutable [dragState] object; positions are in whole pixels. *)
Record DragState : Type := mkDragState {
  isDragging : bool;
  startX : Z;
  startTranslateX : Z;
  draggedDistance : Z
}.

(** One row of the list: its drag state, the [translateX] of its
    [style.transform] ([None] while the style is empty) and the [isOpen]
    prop, which is [openItemId === visit.id] in the list. *)
Record Row : Type := mkRow {
  dragState : DragState;
  translateX : option Z;
  isOpen : bool
}.

(** The row after it is mounted.  The effect on [isOpen] sets the
    transform to zero when the row is mounted closed, and does nothing
    when the row is mounted while it is the open item of the list (its
    id is still [openItemId] when a search or filter that hid it is
    undone): the style is then empty. *)
Definition mounted (isOpen : bool) : Row :=
  {| dragState := {| isDragging := false; startX := 0; startTranslateX := 0;
                     draggedDistance := 0 |};
     translateX := if isOpen then None else Some 0%Z;
     isOpen := isOpen |}.

(** Where the row is drawn: an empty style is no offset. *)
Definition offset (r : Row) : Z :=
  match translateX r with
  | Some x => x
  | None => 0%Z
  end.

Definition actionsWidth (visit : Visit) : Z :=
  ((if JS.truthy_opt_string (revisitDate visit) then 80 else 0) + 160)%Z.

(** [onSwipeClose] sets [openItemId] to [null]; the effect on [isOpen]
    then resets the transform.  The same happens to a row when another
    row is opened. *)
Definition closed (r : Row) : Row :=
  {| dragState := dragState r; translateX := Some 0%Z; isOpen := false |}.

Definition onDragStart (clientX : Z) (r : Row) : Row :=
  {| dragState :=
       {| isDragging := true;
          startX := clientX;
          startTranslateX := match translateX r with
                             | Some x => x
                             | None => 0%Z
                             end;
          draggedDistance := 0 |};
     translateX := translateX r;
     isOpen := isOpen r |}.

Definition onDragMove (visit : Visit) (clientX : Z) (r : Row) : Row :=
  if negb (isDragging (dragState r)) then r
  else
    let diff := (clientX - startX (dragState r))%Z in
    let newTranslate := (startTranslateX (dragState r) + diff)%Z in
    let newTranslate := if (0 <? newTranslate)%Z then 0%Z else newTranslate in
    let newTranslate :=
      if (newTranslate <? - (actionsWidth visit + 20))%Z
      then (- (actionsWidth visit + 20))%Z
      else newTranslate in
    {| dragState :=
         {| isDragging := true;
            startX := startX (dragState r);
            startTranslateX := startTranslateX (dragState r);
            draggedDistance := diff |};
       translateX := Some newTranslate;
       isOpen := isOpen r |}.

Definition onDragEnd (visit : Visit) (r : Row) : Row :=
  if negb (isDragging (dragState r)) then r
  else
    let state' :=
      {| isDragging := false;
         startX := startX (dragState r);
         startTranslateX := startTranslateX (dragState r);
         draggedDistance := draggedDistance (dragState r) |} in
    let currentTranslate :=
      (startTranslateX (dragState r) + draggedDistance (dragState r))%Z in
    if (currentTranslate <? - (actionsWidth visit / 2))%Z then
      {| dragState := state';
         translateX := Some (- actionsWidth visit)%Z;
         isOpen := true |}
    else
      {| dragState := state'; translateX := Some 0%Z; isOpen := false |}.

(** [handleClick]: the row afterwards, and whether [onSelect] was
    called. *)
Definition handleClick (r : Row) : Row * bool :=
  if (10 <? Z.abs (draggedDistance (dragState r)))%Z then (r, false)
  else if isOpen r then (closed r, false)
  else (r, true).

Inductive gesture : Type :=
| DragStart (clientX : Z)
| DragMove (clientX : Z)
| DragEnd
| Click
| OtherRowOpened.

Definition perform (visit : Visit) (g : gesture) (r : Row) : Row * bool :=
  match g with
  | DragStart x => (onDragStart x r, false)
  | DragMove x => (onDragMove visit x r, false)
  | DragEnd => (onDragEnd visit r, false)
  | Click => handleClick r
  | OtherRowOpened => (if isOpen r then closed r else r, false)
  end.

(** The row after a sequence of gestures, and whether any of them
    selected the visit. *)
Fixpoint performAll (visit : Visit) (gs : list gesture) (r : Row)
  : Row * bool :=
  match gs with
  | [] => (r, false)
  | g :: rest =>
      let (r1, s1) := perform visit g r in
      let (r2, s2) := performAll visit rest r1 in
      (r2, s1 || s2)
  end.

End VisitItem.

(* ================================================================== *)
(** ** Concrete data, to run the definitions *)
(* ================================================================== *)

Module Sample.

Definition digit (c : ascii) : option Z :=
  let n := nat_of_ascii c in
  if ((48 <=? n) && (n <=? 57))%nat then Some (Z.of_nat (n - 48)) else None.

Fixpoint digits (acc : Z) (l : list ascii) : option Z :=
  match l with
  | [] => Some acc
  | c :: rest =>
      match digit c with
      | Some d => digits (10 * acc + d)%Z rest
      | None => None
      end
  end.

Definition number_at (s : string) (from len : nat) : option Z :=
  digits 0%Z (list_ascii_of_string (substring from len s)).

Definition days_from_civil (y m d : Z) : Z :=
  let y' := if (m <=? 2)%Z then (y - 1)%Z else y in
  let era := (y' / 400)%Z in
  let yoe := (y' - era * 400)%Z in
  let mp := ((m + 9) mod 12)%Z in
  let doy := ((153 * mp + 2) / 5 + d - 1)%Z in
  let doe := (yoe * 365 + yoe / 4 - yoe / 100 + doy)%Z in
  (era * 146097 + doe - 719468)%Z.

(** [getTime] on the 24-character form [YYYY-MM-DDTHH:mm:ss.sssZ] that
    [toISOString] produces; any other string is an Invalid Date here. *)
Definition getTime (s : string) : option Z :=
  if (String.length s =? 24)%nat
     && (substring 4 1 s =? "-") && (substring 7 1 s =? "-")
     && (substring 10 1 s =? "T") && (substring 13 1 s =? ":")
     && (substring 16 1 s =? ":") && (substring 19 1 s =? ".")
     && (substring 23 1 s =? "Z")
  then
    match number_at s 0 4, number_at s 5 2, number_at s 8 2,
          number_at s 11 2, number_at s 14 2, number_at s 17 2,
          number_at s 20 3 with
    | Some y, Some mo, Some d, Some h, Some mi, Some sec, Some ms =>
        if ((1 <=? mo) && (mo <=? 12) && (1 <=? d) && (d <=? 31)
            && (h <=? 23) && (mi <=? 59) && (sec <=? 59))%Z
        then Some ((((days_from_civil y mo d * 24 + h) * 60 + mi) * 60
                    + sec) * 1000 + ms)%Z
        else None
    | _, _, _, _, _, _, _ => None
    end
  else None.

Definition T1 : string := "2024-03-01T09:00:00.000Z".
Definition T2 : string := "2024-03-02T10:30:00.000Z".
Definition T3 : string := "2024-03-05T08:15:00.000Z".

Definition acme : Visit :=
  {| id := "2024-03-01T09:00:00.000Z0.123";
     businessName := "Acme Corp";
     timestamp := T1;
     lastModified := None;
     contactPerson := "Wile";
     ownerName := "";
     ownerContact := Some "";
     numberOfPhones := None;
     estimatedMonthlyPayment := None;
     currentProvider := "Provider X";
     address := "1 Desert Road";
     notes := "";
     visitType := Call;
     revisitDate := None;
     isRevisitSuccessful := None |}.

Definition bakery : Visit :=
  {| id := "2024-03-02T10:30:00.000Z0.456";
     businessName := "Corner Bakery";
     timestamp := T2;
     lastModified := None;
     contactPerson := "Ana";
     ownerName := "Ana";
     ownerContact := Some "555-0100";
     numberOfPhones := Some (JS.Finite 3);
     estimatedMonthlyPayment := Some (JS.Finite (1999 # 10));
     currentProvider := "Provider Y";
     address := "22 Main Street";
     notes := "call back";
     visitType := FollowUp;
     revisitDate := Some T3;
     isRevisitSuccessful := Some true |}.

(** A second record stamped at the same instant as [acme]. *)
Definition cafe : Visit :=
  {| id := "2024-03-01T09:00:00.000Z0.789";
     businessName := "Cafe Uno";
     timestamp := T1;
     lastModified := Some T3;
     contactPerson := "";
     ownerName := "";
     ownerContact := None;
     numberOfPhones := None;
     estimatedMonthlyPayment := None;
     currentProvider := "Provider X";
     address := "3 Acme Plaza";
     notes := "";
     visitType := Crawlback;
     revisitDate := None;
     isRevisitSuccessful := None |}.

Definition store : list Visit := [acme; bakery; cafe].

Definition listState : App.State := App.initialState store.

Definition env : App.Env :=
  {| App.now := T3; App.random := "0.5"; App.now_again := T3 |}.

Definition draft (i : option string) : Draft :=
  {| d_id := i;
     d_businessName := "Acme Corporation";
     d_contactPerson := "Wile";
     d_ownerName := "";
     d_ownerContact := present (Some "");
     d_numberOfPhones := None;
     d_estimatedMonthlyPayment := None;
     d_currentProvider := "Provider X";
     d_address := "1 Desert Road";
     d_notes := "moved";
     d_visitType := Call;
     d_revisitDate := present None;
     d_isRevisitSuccessful := absent |}.

Definition formData (name : string) : VisitForm.FormData :=
  {| VisitForm.fd_visitType := FollowUp;
     VisitForm.fd_businessName := name;
     VisitForm.fd_contactPerson := "";
     VisitForm.fd_ownerName := "";
     VisitForm.fd_ownerContact := "";
     VisitForm.fd_numberOfPhones := "";
     VisitForm.fd_estimatedMonthlyPayment := "";
     VisitForm.fd_currentProvider := "";
     VisitForm.fd_address := "";
     VisitForm.fd_notes := "";
     VisitForm.fd_revisitDate := "" |}.

(** A stand-in for [String.prototype.toLowerCase] on text made of ASCII
    characters and capital sigmas (the bytes 206 163 of UTF-8).  A capital
    sigma that follows a letter and is followed by none becomes the final
    small sigma (207 130), any other one the small sigma (207 131), as
    the Final_Sigma rule of the Unicode case mappings has it. *)
Definition isLetter (c : ascii) : bool :=
  let n := nat_of_ascii c in
  ((65 <=? n) && (n <=? 90) || (97 <=? n) && (n <=? 122))%nat.

Definition lower_ascii (c : ascii) : ascii :=
  let n := nat_of_ascii c in
  if ((65 <=? n) && (n <=? 90))%nat then ascii_of_nat (n + 32) else c.

Definition isCapitalSigma (c d : ascii) : bool :=
  ((nat_of_ascii c =? 206) && (nat_of_ascii d =? 163))%nat.

Definition startsWithLetter (s : string) : bool :=
  match s with
  | String c (String d _) => isLetter c || isCapitalSigma c d
  | String c EmptyString => isLetter c
  | EmptyString => false
  end.

Fixpoint lowerAfter (afterLetter : bool) (s : string) : string :=
  match s with
  | EmptyString => EmptyString
  | String c rest =>
      match rest with
      | String d rest' =>
          if isCapitalSigma c d then
            String (ascii_of_nat 207)
                   (String (ascii_of_nat
                              (if afterLetter && negb (startsWithLetter rest')
                               then 130 else 131))
                           (lowerAfter true rest'))
          else String (lower_ascii c) (lowerAfter (isLetter c) rest)
      | EmptyString => String (lower_ascii c) EmptyString
      end
  end.

Definition toLowerCase (s : string) : string := lowerAfter false s.

(** The capital sigma, and two names that differ in what follows it. *)
Definition Sigma : string :=
  String (ascii_of_nat 206) (String (ascii_of_nat 163) EmptyString).

Definition sigmaQuery : string := "A" ++ Sigma.

Definition sigmaShop : Visit :=
  {| id := "2024-03-05T08:15:00.000Z0.321";
     businessName := "A" ++ Sigma ++ "B";
     timestamp := T3;
     lastModified := None;
     contactPerson := "";
     ownerName := "";
     ownerContact := None;
     numberOfPhones := None;
     estimatedMonthlyPayment := None;
     currentProvider := "";
     address := "";
     notes := "";
     visitType := Call;
     revisitDate := None;
     isRevisitSuccessful := None |}.

(** Stand-ins for the platform functions of the form. *)
Definition trim (s : string) : string := s.
Definition parseFloat (s : string) : JS.number :=
  match number_at s 0 (String.length s) with
  | Some z => JS.Finite (inject_Z z)
  | None => JS.NaN
  end.
(** [new Date(s).toISOString()] on the 16-character value of a
    date-and-time input, read in a zone without offset; any other string
    is an Invalid Date here. *)
Definition dateToISOString (s : string) : option string :=
  match getTime (s ++ ":00.000Z")%string with
  | Some _ => Some (s ++ ":00.000Z")%string
  | None => None
  end.

(** Parsed documents: a well-shaped record, one without a business
    name, and one that has the three checked fields but is no [Visit]. *)
Definition goodRecord : JSON.value :=
  JSON.Object
    [("id", JSON.Str "2024-03-01T09:00:00.000Z0.123");
     ("businessName", JSON.Str "Acme Corp");
     ("timestamp", JSON.Str T1);
     ("contactPerson", JSON.Str "Wile");
     ("ownerName", JSON.Str "");
     ("ownerContact", JSON.Str "");
     ("numberOfPhones", JSON.Null);
     ("estimatedMonthlyPayment", JSON.Number (JS.Finite (1999 # 10)));
     ("currentProvider", JSON.Str "Provider X");
     ("address", JSON.Str "1 Desert Road");
     ("notes", JSON.Str "");
     ("visitType", JSON.Str "Call")].

Definition namelessRecord : JSON.value :=
  JSON.Object
    [("id", JSON.Str "2024-03-02T10:30:00.000Z0.456");
     ("timestamp", JSON.Str T2);
     ("visitType", JSON.Str "Call")].

Definition oddRecord : JSON.value :=
  JSON.Object
    [("id", JSON.Number (JS.Finite 7));
     ("businessName", JSON.Bool true);
     ("timestamp", JSON.Object []);
     ("visitType", JSON.Str "Lunch");
     ("mood", JSON.Str "sunny")].

Definition bareRecord : JSON.value :=
  JSON.Object
    [("id", JSON.Str "x");
     ("businessName", JSON.Str "y");
     ("timestamp", JSON.Str "yesterday")].

(** A stand-in for [JSON.parse] that knows three files. *)
Definition parse (text : string) : completion JSON.value :=
  if text =? "odd.json"
  then Normal (JSON.Array [oddRecord; bareRecord; goodRecord])
  else if text =? "nameless.json"
       then Normal (JSON.Array [goodRecord; namelessRecord])
  else if text =? "object.json" then Normal goodRecord
  else Throw "Unexpected token".

(** The detail view of [acme], and its edit form, after the store was
    emptied from outside the handlers of [App]. *)
Definition orphanedDetail : App.State :=
  {| App.visits := []; App.view := App.detail_view;
     App.selectedVisitId := Some (id acme); App.isEditing := false |}.

Definition orphanedForm : App.State :=
  {| App.visits := []; App.view := App.form_view;
     App.selectedVisitId := Some (id acme); App.isEditing := true |}.

(** The form opened from the list for a new visit, and its submission
    under a given business name. *)
Definition newForm : App.State := result (App.handleNewVisit listState).

Definition save (name : string) : UI (completion App.State) :=
  VisitForm.submit trim parseFloat dateToISOString env (formData name)
                   newForm.

(** A record that already has the id the next save will generate, and
    the form for a new visit opened over a store that holds it. *)
Definition twin : Visit :=
  {| id := (App.now env ++ App.random env)%string;
     businessName := "Twin Traders";
     timestamp := T2;
     lastModified := None;
     contactPerson := "";
     ownerName := "";
     ownerContact := None;
     numberOfPhones := None;
     estimatedMonthlyPayment := None;
     currentProvider := "";
     address := "";
     notes := "";
     visitType := Call;
     revisitDate := None;
     isRevisitSuccessful := None |}.

Definition crowdedForm : App.State :=
  result (App.handleNewVisit (App.initialState [twin])).

(** A form whose revisit date is text that is no date. *)
Definition undatedForm : VisitForm.FormData :=
  {| VisitForm.fd_visitType := FollowUp;
     VisitForm.fd_businessName := "Delta Diner";
     VisitForm.fd_contactPerson := "";
     VisitForm.fd_ownerName := "";
     VisitForm.fd_ownerContact := "";
     VisitForm.fd_numberOfPhones := "";
     VisitForm.fd_estimatedMonthlyPayment := "";
     VisitForm.fd_currentProvider := "";
     VisitForm.fd_address := "";
     VisitForm.fd_notes := "";
     VisitForm.fd_revisitDate := "NaN-NaN-NaNTNaN:NaN" |}.

(** The providers offered as checkboxes. *)
Definition PROVIDERS : list string := ["Provider X"; "Provider Y"].

(** Stand-ins for [String(n)] and for the local-time getters. *)
Definition numberToString (n : JS.number) : string :=
  match n with
  | JS.Finite q =>
      if (Qden q =? 1)%positive
      then NilEmpty.string_of_int (Z.to_int (Qnum q))
      else "NaN"
  | _ => "NaN"
  end.

Definition localTime (s : string) : FormInit.LocalTime :=
  match number_at s 0 4, number_at s 5 2, number_at s 8 2,
        number_at s 11 2, number_at s 14 2 with
  | Some y, Some mo, Some d, Some h, Some mi =>
      {| FormInit.getFullYear := y;
         FormInit.getMonth := Z.to_nat mo - 1;
         FormInit.getDate := Z.to_nat d;
         FormInit.getHours := Z.to_nat h;
         FormInit.getMinutes := Z.to_nat mi |}
  | _, _, _, _, _ =>
      {| FormInit.getFullYear := 1970; FormInit.getMonth := 0;
         FormInit.getDate := 1; FormInit.getHours := 0;
         FormInit.getMinutes := 0 |}
  end.

(** [new Date(s)] read through its getters, [None] for an Invalid
    Date. *)
Definition localDate (s : string) : option FormInit.LocalTime :=
  match getTime s with
  | Some _ => Some (localTime s)
  | None => None
  end.

(** A visit whose revisit date is no date, and its edit form. *)
Definition vague : Visit :=
  {| id := "2024-03-02T10:30:00.000Z0.999";
     businessName := "Vague Ventures";
     timestamp := T2;
     lastModified := None;
     contactPerson := "";
     ownerName := "";
     ownerContact := None;
     numberOfPhones := None;
     estimatedMonthlyPayment := None;
     currentProvider := "";
     address := "";
     notes := "";
     visitType := FollowUp;
     revisitDate := Some "next week";
     isRevisitSuccessful := None |}.

Definition vagueForm : App.State :=
  result (App.handleEditVisitFromList (id vague)
                                      (App.initialState [vague])).

(** The edit form of [bakery], opened from the list. *)
Definition editForm : App.State :=
  result (App.handleEditVisitFromList (id bakery) listState).

(** A session on the screens of the application. *)
Definition session : list Navigation.event :=
  [Navigation.SelectVisit (id acme);
   Navigation.Edit;
   Navigation.Save env (formData "Acme Ltd");
   Navigation.NewVisit;
   Navigation.Save env (formData "Delta Diner");
   Navigation.EditVisitFromList (id bakery);
   Navigation.Cancel;
   Navigation.ToggleRevisitSuccess T3;
   Navigation.Delete true].

(** A session in the filter modal. *)
Definition filtering : list FilterModal.event :=
  [FilterModal.OpenFilters;
   FilterModal.ToggleProvider "Provider X";
   FilterModal.ToggleProvider "Provider Y";
   FilterModal.ToggleProvider "Provider X";
   FilterModal.ChooseSortBy oldest;
   FilterModal.ApplyFilters].

End Sample.


(* ================================================================== *)
(** ** Vocabulary of the properties *)
(* ================================================================== *)

(** The boolean an optional flag stands for: absent means false. *)
Definition flag (o : option bool) : bool :=
  match o with
  | Some b => b
  | None => false
  end.

(** Every field the draft carries is the field of the record. *)
Definition draft_fields_taken (d : Draft) (v : Visit) : Prop :=
  businessName v = d_businessName d
  /\ contactPerson v = d_contactPerson d
  /\ ownerName v = d_ownerName d
  /\ numberOfPhones v = d_numberOfPhones d
  /\ estimatedMonthlyPayment v = d_estimatedMonthlyPayment d
  /\ currentProvider v = d_currentProvider d
  /\ address v = d_address d
  /\ notes v = d_notes d
  /\ visitType v = d_visitType d
  /\ (forall x, d_ownerContact d = present x -> ownerContact v = x)
  /\ (forall x, d_revisitDate d = present x -> revisitDate v = x)
  /\ (forall x, d_isRevisitSuccessful d = present x ->
                isRevisitSuccessful v = x).

(** Every optional field the draft does not carry is as in [old]. *)
Definition absent_fields_from (d : Draft) (old : Visit) (v : Visit) : Prop :=
  (d_ownerContact d = absent -> ownerContact v = ownerContact old)
  /\ (d_revisitDate d = absent -> revisitDate v = revisitDate old)
  /\ (d_isRevisitSuccessful d = absent ->
      isRevisitSuccessful v = isRevisitSuccessful old).

Section Matching.
Variable toLowerCase : string -> string.

(** The lower-cased query occurs in the lower-cased field. *)
Definition occurs_ignoring_case (query field : string) : Prop :=
  exists pre suf,
    toLowerCase field = (pre ++ toLowerCase query ++ suf)%string.

(** The retention rule of the engine: the type filter, the provider
    filter, and the query matched on lower-cased text. *)
Definition retained (query : string) (f : Filters) (v : Visit) : Prop :=
  (f_visitType f = all \/ f_visitType f = only (visitType v))
  /\ (providers f = [] \/ In (currentProvider v) (providers f))
  /\ (query = ""
      \/ occurs_ignoring_case query (businessName v)
      \/ occurs_ignoring_case query (contactPerson v)
      \/ occurs_ignoring_case query (address v)).

(** The query is, case-insensitively, a substring of the field: some
    part of the field is the query up to the case of its letters. *)
Definition substring_ignoring_case (query field : string) : Prop :=
  exists pre part suf,
    field = (pre ++ part ++ suf)%string
    /\ toLowerCase part = toLowerCase query.

(** The retention rule, in the words of the specification. *)
Definition retained_as_specified (query : string) (f : Filters) (v : Visit)
  : Prop :=
  (f_visitType f = all \/ f_visitType f = only (visitType v))
  /\ (providers f = [] \/ In (currentProvider v) (providers f))
  /\ (query = ""
      \/ substring_ignoring_case query (businessName v)
      \/ substring_ignoring_case query (contactPerson v)
      \/ substring_ignoring_case query (address v)).
End Matching.

(** A lower-casing that acts on each character by itself. *)
Fixpoint each_character (f : ascii -> ascii) (s : string) : string :=
  match s with
  | EmptyString => EmptyString
  | String c rest => String (f c) (each_character f rest)
  end.

Definition letter_by_letter (toLowerCase : string -> string) : Prop :=
  exists f, forall s, toLowerCase s = each_character f s.

(** The platform's lower-casing maps the empty string, and no other, to
    the empty string. *)
Definition keeps_emptiness (toLowerCase : string -> string) : Prop :=
  forall s, toLowerCase s = "" <-> s = "".

(** The element has a non-empty (truthy) [id], [businessName] and
    [timestamp]. *)
Definition has_required_fields (e : JSON.value) : Prop :=
  exists properties,
    e = JSON.Object properties
    /\ JSON.truthy (JSON.lookup "id" properties) = true
    /\ JSON.truthy (JSON.lookup "businessName" properties) = true
    /\ JSON.truthy (JSON.lookup "timestamp" properties) = true.





Section Times.
Variable getTime : string -> option Z.

(** The string is a date. *)
Definition dated (s : string) : Prop := exists t, getTime s = Some t.

(** The stamps of the record are dates, as the data model types them:
    the timestamp, and the [lastModified] when there is one (which is
    then not the empty string). *)
Definition well_dated (v : Visit) : Prop :=
  dated (timestamp v)
  /\ (forall m, lastModified v = Some m -> m <> "" /\ dated m).

(** The time a record is ordered by, in the words of the
    specification. *)
Definition sort_key (s : SortBy) (v : Visit) : option Z :=
  match s with
  | byLastModified =>
      match lastModified v with
      | Some m => getTime m
      | None => getTime (timestamp v)
      end
  | newest | oldest => getTime (timestamp v)
  end.

(** [a] may stand before [b]: ascending keys for [oldest], descending
    keys otherwise. *)
Definition in_order (s : SortBy) (a b : Visit) : Prop :=
  exists ka kb,
    sort_key s a = Some ka /\ sort_key s b = Some kb
    /\ match s with
       | oldest => (ka <= kb)%Z
       | newest | byLastModified => (kb <= ka)%Z
       end.

Definition has_key (s : SortBy) (k : Z) (v : Visit) : bool :=
  match sort_key s v with
  | Some t => (t =? k)%Z
  | None => false
  end.

(** Both strings are dates and the first is not after the second. *)
Definition time_le (a b : string) : Prop :=
  exists ta tb, getTime a = Some ta /\ getTime b = Some tb /\ (ta <= tb)%Z.

(** The stamps of [v] were read from the clock no later than [now]. *)
Definition stamped_by (now : string) (v : Visit) : Prop :=
  time_le (timestamp v) now
  /\ (forall m, lastModified v = Some m -> time_le m now).
End Times.

(** The record has a non-empty id, business name and timestamp. *)
Definition identified (v : Visit) : Prop :=
  id v <> "" /\ businessName v <> "" /\ timestamp v <> "".

(** The states of the navigation controller: the list with nothing
    selected, the detail view or the edit form of a stored record, and
    the form for a new visit; every stored record is identified. *)
Definition well_formed (st : App.State) : Prop :=
  Forall identified (App.visits st)
  /\ match App.view st with
     | App.list_view =>
         App.selectedVisitId st = None /\ App.isEditing st = false
     | App.detail_view =>
         App.isEditing st = false
         /\ exists i, App.selectedVisitId st = Some i
                      /\ In i (map id (App.visits st))
     | App.form_view =>
         (App.isEditing st = false /\ App.selectedVisitId st = None)
         \/ (App.isEditing st = true
             /\ exists i, App.selectedVisitId st = Some i
                          /\ In i (map id (App.visits st)))
     end.

(** A callback of [App] whose clock readings, if it takes any, are
    non-empty strings. *)
Definition from_screen (e : Navigation.event) : bool :=
  Navigation.in_band e
  && match e with
     | Navigation.Save env _ =>
         JS.truthy_string (App.now env)
         && JS.truthy_string (App.now_again env)
     | _ => true
     end.

(** The revisit date of a visit once its edit form has been opened and
    submitted untouched: the stored text is read as a date, formatted for
    the date-and-time input, and converted back by the submit handler.
    [None] when that conversion has no result. *)
Definition revisit_read_back (dateToISOString : string -> option string)
           (localTime : string -> option FormInit.LocalTime) (v : Visit)
  : option (option string) :=
  match revisitDate v with
  | Some r =>
      if JS.truthy_string r
      then option_map Some
                      (dateToISOString (FormInit.formatDate (localTime r)))
      else Some None
  | None => Some None
  end.

(** The string consists of decimal digits, [n] of them. *)
Definition digits_of_length (n : nat) (s : string) : Prop :=
  String.length s = n
  /\ forallb VisitItem.isDigit (list_ascii_of_string s) = true.


(** The row is within its travel, and when no drag is under way it
    rests fully open, as the list has it, or fully closed. *)
Definition row_in_place (visit : Visit) (r : VisitItem.Row) : Prop :=
  exists t,
    VisitItem.translateX r = Some t
    /\ (- (VisitItem.actionsWidth visit + 20) <= t <= 0)%Z
    /\ (VisitItem.isDragging (VisitItem.dragState r) = false ->
        (VisitItem.isOpen r = true /\ t = (- VisitItem.actionsWidth visit)%Z)
        \/ (VisitItem.isOpen r = false /\ t = 0%Z)).

(** The row is drawn within its travel, and when no drag is under way
    it is drawn fully open or fully closed, and fully open only while
    it is the open row of the list. *)
Definition row_within_travel (visit : Visit) (r : VisitItem.Row) : Prop :=
  (- (VisitItem.actionsWidth visit + 20) <= VisitItem.offset r <= 0)%Z
  /\ (VisitItem.isDragging (VisitItem.dragState r) = false ->
      (VisitItem.isOpen r = true
       /\ VisitItem.offset r = (- VisitItem.actionsWidth visit)%Z)
      \/ VisitItem.offset r = 0%Z).

(** No character of the string is [c]. *)
Definition free_of (c : ascii) (s : string) : Prop :=
  forallb (fun x => negb (Ascii.eqb x c)) (list_ascii_of_string s) = true.

(** The message of the error an offending element of an import raises:
    reading a property of [null] throws, anything else fails the check. *)
Definition offence (e : JSON.value) : string :=
  match e with
  | JSON.Null => "Cannot read properties of null (reading 'id')"
  | _ => Importer.invalidFormat
  end.

(* ================================================================== *)
(** * Properties *)
(* ================================================================== *)

(** ** The sample clock *)

Example sample_getTime_T1 : Sample.getTime Sample.T1 = Some 1709283600000%Z.
Proof. vm_compute. reflexivity. Qed.

Example sample_getTime_invalid : Sample.getTime "yesterday" = None.
Proof. reflexivity. Qed.

(** ** Dialog bookkeeping *)

Lemma ret_no_error {A} (a : A) : ~ error_surfaced (ret a).
Proof. intros [m H]. exact H. Qed.

Lemma confirm_only_no_error {A} (message : string) (answer : bool) (a : A) :
  ~ error_surfaced (a, [Confirm message answer]).
Proof.
  intros [m [H | H]]; [discriminate H | exact H].
Qed.

(** ** Lists of records *)

Section ListFacts.
Context {A : Type}.

Lemma filter_idempotent (p : A -> bool) (l : list A) :
  filter p (filter p l) = filter p l.
Proof.
  induction l as [| x l IH]; simpl; [reflexivity |].
  destruct (p x) eqn:E; simpl; [rewrite E, IH |]; auto.
Qed.

Lemma filter_all (p : A -> bool) (l : list A) :
  (forall x, In x l -> p x = true) -> filter p l = l.
Proof.
  induction l as [| x l IH]; simpl; intros H; [reflexivity |].
  rewrite (H x (or_introl eq_refl)), IH; auto.
Qed.

Lemma map_unchanged (f : A -> A) (l : list A) :
  (forall x, In x l -> f x = x) -> map f l = l.
Proof.
  induction l as [| x l IH]; simpl; intros H; [reflexivity |].
  rewrite (H x (or_introl eq_refl)), IH; auto.
Qed.
End ListFacts.

Lemma id_not_listed (i : string) (vs : list Visit) (v : Visit) :
  ~ In i (map id vs) -> In v vs -> (id v =? i) = false.
Proof.
  intros Hn Hin. apply String.eqb_neq. intros E. apply Hn.
  rewrite <- E. apply in_map. exact Hin.
Qed.

(** ** Delete *)

(** C8.  [handleDeleteVisit], once the user has confirmed, keeps exactly
    the records whose id differs from the given one, in their order and
    unchanged; for an id that matches no record the collection is the same
    and nothing is reported; deleting twice gives the state that deleting
    once gives.  A declined confirmation changes nothing. *)
Theorem delete_removes_exactly_and_is_idempotent :
  forall (i : string) (st : App.State),
    let st1 := result (App.handleDeleteVisit true i st) in
    App.visits st1 = filter (fun v => negb (id v =? i)) (App.visits st)
    /\ (forall v, In v (App.visits st1) <-> In v (App.visits st) /\ id v <> i)
    /\ ~ error_surfaced (App.handleDeleteVisit true i st)
    /\ (~ In i (map id (App.visits st)) -> App.visits st1 = App.visits st)
    /\ result (App.handleDeleteVisit true i st1) = st1
    /\ result (App.handleDeleteVisit false i st) = st.
Proof.
  intros i st st1.
  assert (Hv : App.visits st1
               = filter (fun v => negb (id v =? i)) (App.visits st)).
  { unfold st1, App.handleDeleteVisit, result, confirm, bind. simpl.
    destruct (App.selected_is st i); reflexivity. }
  split; [exact Hv |].
  split.
  { intros v. rewrite Hv, filter_In, negb_true_iff, String.eqb_neq.
    tauto. }
  split.
  { unfold App.handleDeleteVisit, confirm, bind. simpl.
    destruct (App.selected_is st i); apply confirm_only_no_error. }
  split.
  { intros Hn. rewrite Hv. apply filter_all. intros v Hin.
    rewrite (id_not_listed i _ v Hn Hin). reflexivity. }
  split.
  - unfold st1, App.handleDeleteVisit, result, confirm, bind. simpl.
    destruct (App.selected_is st i) eqn:Es; simpl.
    + unfold App.selected_is. simpl. rewrite filter_idempotent. reflexivity.
    + unfold App.selected_is in *. simpl. rewrite Es. simpl.
      rewrite filter_idempotent. reflexivity.
  - unfold App.handleDeleteVisit, result, confirm, bind. simpl.
    reflexivity.
Qed.

Lemma delete_removes_exactly_and_is_idempotent_witness :
  ~ In "none" (map id Sample.store)
  /\ App.visits (result (App.handleDeleteVisit true "none" Sample.listState))
     = Sample.store
  /\ App.visits (result (App.handleDeleteVisit
                           true (id Sample.bakery) Sample.listState))
     = [Sample.acme; Sample.cafe].
Proof.
  assert (Hn : ~ In "none" (map id Sample.store)).
  { simpl. intros [H | [H | [H | H]]]; try discriminate H; exact H. }
  split; [exact Hn |].
  split.
  - destruct (delete_removes_exactly_and_is_idempotent "none" Sample.listState)
      as (_ & _ & _ & H & _).
    exact (H Hn).
  - destruct (delete_removes_exactly_and_is_idempotent
                (id Sample.bakery) Sample.listState) as (H & _).
    rewrite H. reflexivity.
Defined.

(** ** Toggle *)

Lemma nth_error_map_if (f : Visit -> Visit) (i : string) (vs : list Visit)
      (n : nat) (v : Visit) :
  nth_error vs n = Some v ->
  nth_error (map (fun w => if id w =? i then f w else w) vs) n
  = Some (if id v =? i then f v else v).
Proof.
  intros H. rewrite nth_error_map, H. reflexivity.
Qed.

Lemma state_eta (st : App.State) :
  {| App.visits := App.visits st; App.view := App.view st;
     App.selectedVisitId := App.selectedVisitId st;
     App.isEditing := App.isEditing st |} = st.
Proof. destruct st; reflexivity. Qed.

(** C9.  [handleToggleRevisitSuccess] replaces every record with the given
    id, in place, by one whose [isRevisitSuccessful] is the negation of the
    old flag (absent read as false) and whose [lastModified] is the clock
    reading, all other fields kept; a second toggle brings the flag back to
    the original boolean and stamps [lastModified] again; other records are
    untouched, and when no record has the id the state is unchanged. *)
Theorem toggle_flips_and_twice_restores :
  forall (now1 now2 i : string) (st : App.State),
    let st1 := result (App.handleToggleRevisitSuccess now1 i st) in
    let st2 := result (App.handleToggleRevisitSuccess now2 i st1) in
    (forall n v, nth_error (App.visits st) n = Some v -> id v = i ->
       exists v1 v2,
         nth_error (App.visits st1) n = Some v1
         /\ nth_error (App.visits st2) n = Some v2
         /\ isRevisitSuccessful v1 = Some (negb (flag (isRevisitSuccessful v)))
         /\ lastModified v1 = Some now1
         /\ flag (isRevisitSuccessful v2) = flag (isRevisitSuccessful v)
         /\ lastModified v2 = Some now2
         /\ v1 = App.toggled now1 v
         /\ v2 = App.toggled now2 v1
         /\ id v1 = id v /\ timestamp v1 = timestamp v
         /\ businessName v1 = businessName v /\ revisitDate v1 = revisitDate v)
    /\ (forall n v, nth_error (App.visits st) n = Some v -> id v <> i ->
          nth_error (App.visits st1) n = Some v)
    /\ (~ In i (map id (App.visits st)) -> st1 = st)
    /\ ~ error_surfaced (App.handleToggleRevisitSuccess now1 i st).
Proof.
  intros now1 now2 i st st1 st2.
  split; [| split; [| split]].
  - intros n v Hn Hid.
    assert (E : (id v =? i) = true) by (apply String.eqb_eq; exact Hid).
    assert (H1 : nth_error (App.visits st1) n = Some (App.toggled now1 v)).
    { unfold st1. simpl. rewrite (nth_error_map_if _ i _ n v Hn), E.
      reflexivity. }
    assert (H2 : nth_error (App.visits st2) n
                 = Some (App.toggled now2 (App.toggled now1 v))).
    { unfold st2. simpl.
      rewrite (nth_error_map_if _ i _ n (App.toggled now1 v) H1).
      simpl. rewrite E. reflexivity. }
    exists (App.toggled now1 v), (App.toggled now2 (App.toggled now1 v)).
    repeat split; try assumption; try reflexivity.
    + simpl. destruct (isRevisitSuccessful v) as [[|] |]; reflexivity.
    + simpl. destruct (isRevisitSuccessful v) as [[|] |]; reflexivity.
  - intros n v Hn Hid. unfold st1. simpl.
    rewrite (nth_error_map_if _ i _ n v Hn).
    apply String.eqb_neq in Hid. rewrite Hid. reflexivity.
  - intros Hn. unfold st1, App.handleToggleRevisitSuccess, result, ret.
    simpl. rewrite map_unchanged; [apply state_eta |].
    intros v Hin. rewrite (id_not_listed i _ v Hn Hin). reflexivity.
  - apply ret_no_error.
Qed.

Lemma toggle_flips_and_twice_restores_witness :
  exists v1 v2,
    nth_error (App.visits (result (App.handleToggleRevisitSuccess
                                     Sample.T2 (id Sample.acme)
                                     Sample.listState))) 0 = Some v1
    /\ isRevisitSuccessful v1 = Some true
    /\ lastModified v1 = Some Sample.T2
    /\ flag (isRevisitSuccessful v2) = false
    /\ lastModified v2 = Some Sample.T3.
Proof.
  destruct (toggle_flips_and_twice_restores
              Sample.T2 Sample.T3 (id Sample.acme) Sample.listState)
    as (H & _).
  destruct (H 0%nat Sample.acme eq_refl eq_refl)
    as (v1 & v2 & H1 & _ & H3 & H4 & H5 & H6 & _).
  exists v1, v2. repeat split; assumption.
Defined.

(** ** Update *)

Lemma merged_takes_draft (now i : string) (d : Draft) (v : Visit) :
  draft_fields_taken d (App.merged now i d v)
  /\ absent_fields_from d v (App.merged now i d v).
Proof.
  unfold draft_fields_taken, absent_fields_from. simpl.
  repeat split; try reflexivity;
    intros; match goal with H : _ = _ |- _ => rewrite H end; reflexivity.
Qed.

Lemma save_edit_visits (env : App.Env) (d : Draft) (i : string)
      (st : App.State) :
  d_id d = Some i -> i <> "" ->
  App.visits (result (App.handleSaveVisit env d st))
  = map (fun v => if id v =? i then App.merged (App.now env) i d v else v)
        (App.visits st).
Proof.
  intros Hid Hne. unfold App.handleSaveVisit, result, ret. simpl.
  rewrite Hid. destruct i as [| c i']; [contradiction Hne; reflexivity |].
  reflexivity.
Qed.

(** C6.  Saving an edit whose id is that of an existing record replaces
    that record, in place, by one with the same id and the same timestamp,
    with every field of the draft taken from the draft, every optional
    field the draft does not carry kept, and [lastModified] the clock
    reading; when the stamps already in the record were read from the
    clock no later than that reading, the new [lastModified] is not before
    the timestamp nor before the previous [lastModified].  Records with
    another id are untouched. *)
Theorem update_merges_and_stamps :
  forall (getTime : string -> option Z) (env : App.Env) (d : Draft)
         (i : string) (st : App.State),
    d_id d = Some i -> i <> "" ->
    let st1 := result (App.handleSaveVisit env d st) in
    (forall n v, nth_error (App.visits st) n = Some v -> id v = i ->
       exists v',
         nth_error (App.visits st1) n = Some v'
         /\ id v' = id v
         /\ timestamp v' = timestamp v
         /\ lastModified v' = Some (App.now env)
         /\ draft_fields_taken d v'
         /\ absent_fields_from d v v'
         /\ (stamped_by getTime (App.now env) v ->
             exists m', lastModified v' = Some m'
                        /\ time_le getTime (timestamp v') m'
                        /\ (forall m, lastModified v = Some m ->
                                      time_le getTime m m')))
    /\ (forall n v, nth_error (App.visits st) n = Some v -> id v <> i ->
          nth_error (App.visits st1) n = Some v)
    /\ List.length (App.visits st1) = List.length (App.visits st).
Proof.
  intros getTime env d i st Hid Hne st1.
  assert (Hv := save_edit_visits env d i st Hid Hne). fold st1 in Hv.
  split; [| split].
  - intros n v Hn Hv_id.
    exists (App.merged (App.now env) i d v).
    assert (E : (id v =? i) = true) by (apply String.eqb_eq; exact Hv_id).
    split.
    { rewrite Hv, (nth_error_map_if _ i _ n v Hn), E. reflexivity. }
    destruct (merged_takes_draft (App.now env) i d v) as [Ht Ha].
    split; [symmetry; exact Hv_id |].
    split; [reflexivity |].
    split; [reflexivity |].
    split; [exact Ht |].
    split; [exact Ha |].
    intros [Hts Hlm]. exists (App.now env). simpl.
    split; [reflexivity |]. split; [exact Hts | exact Hlm].
  - intros n v Hn Hv_id. rewrite Hv, (nth_error_map_if _ i _ n v Hn).
    apply String.eqb_neq in Hv_id. rewrite Hv_id. reflexivity.
  - rewrite Hv. apply length_map.
Qed.

Lemma update_merges_and_stamps_witness :
  exists v',
    nth_error (App.visits (result (App.handleSaveVisit
                                     Sample.env
                                     (Sample.draft (Some (id Sample.cafe)))
                                     Sample.listState))) 2 = Some v'
    /\ timestamp v' = Sample.T1
    /\ notes v' = "moved"
    /\ isRevisitSuccessful v' = isRevisitSuccessful Sample.cafe
    /\ exists m', lastModified v' = Some m'
                  /\ time_le Sample.getTime (timestamp v') m'.
Proof.
  assert (Hne : id Sample.cafe <> "") by (intros H; discriminate H).
  destruct (update_merges_and_stamps
              Sample.getTime Sample.env
              (Sample.draft (Some (id Sample.cafe))) (id Sample.cafe)
              Sample.listState eq_refl Hne) as (H & _).
  destruct (H 2%nat Sample.cafe eq_refl eq_refl)
    as (v' & H1 & _ & H3 & _ & Ht & Ha & Hc).
  assert (Hs : stamped_by Sample.getTime (App.now Sample.env) Sample.cafe).
  { split.
    - exists 1709283600000%Z, 1709626500000%Z.
      repeat split; try (vm_compute; reflexivity).
      vm_compute. intros E; discriminate E.
    - intros m E. injection E as <-.
      exists 1709626500000%Z, 1709626500000%Z.
      repeat split; try (vm_compute; reflexivity).
      vm_compute. intros E; discriminate E. }
  destruct (Hc Hs) as (m' & Hm & Hle & _).
  exists v'. split; [exact H1 |]. split; [exact H3 |].
  split; [apply Ht |].
  split; [apply Ha; reflexivity |].
  exists m'. split; assumption.
Defined.

(** C1 as amended.  Saving an edit whose id is not the id of any record
    shows no dialog at all, leaves the collection as it was and returns to
    the list like any other save. *)
Theorem update_unknown_id_is_silent :
  forall (env : App.Env) (d : Draft) (i : string) (st : App.State),
    d_id d = Some i -> i <> "" ->
    ~ In i (map id (App.visits st)) ->
    dialogs (App.handleSaveVisit env d st) = []
    /\ ~ error_surfaced (App.handleSaveVisit env d st)
    /\ result (App.handleSaveVisit env d st)
       = {| App.visits := App.visits st; App.view := App.list_view;
            App.selectedVisitId := None; App.isEditing := false |}.
Proof.
  intros env d i st Hid Hne Hn.
  split; [reflexivity |].
  split; [apply ret_no_error |].
  assert (Hv := save_edit_visits env d i st Hid Hne).
  rewrite map_unchanged in Hv.
  - unfold App.handleSaveVisit, result, ret in *. simpl in *.
    rewrite Hv. reflexivity.
  - intros v Hin. rewrite (id_not_listed i _ v Hn Hin). reflexivity.
Qed.

Lemma ghost_not_listed : ~ In "ghost" (map id Sample.store).
Proof.
  simpl. intros [H | [H | [H | H]]]; try discriminate H; exact H.
Qed.

Lemma update_unknown_id_is_silent_witness :
  dialogs (App.handleSaveVisit Sample.env (Sample.draft (Some "ghost"))
                               Sample.listState) = []
  /\ App.visits (result (App.handleSaveVisit
                           Sample.env (Sample.draft (Some "ghost"))
                           Sample.listState)) = Sample.store.
Proof.
  assert (Hne : "ghost" <> "") by (intros H; discriminate H).
  destruct (update_unknown_id_is_silent
              Sample.env (Sample.draft (Some "ghost")) "ghost"
              Sample.listState eq_refl Hne ghost_not_listed)
    as (H1 & _ & H3).
  split; [exact H1 |]. rewrite H3. reflexivity.
Defined.

(** C1 as stated fails: an edit of the unknown id ["ghost"] surfaces no
    error and leaves the three stored records as they were. *)
Lemma update_unknown_id_counterexample :
  ~ In "ghost" (map id (App.visits Sample.listState))
  /\ ~ error_surfaced (App.handleSaveVisit
                         Sample.env (Sample.draft (Some "ghost"))
                         Sample.listState)
  /\ App.visits (result (App.handleSaveVisit
                           Sample.env (Sample.draft (Some "ghost"))
                           Sample.listState))
     = App.visits Sample.listState.
Proof.
  split; [exact ghost_not_listed |].
  split; [apply ret_no_error | reflexivity].
Qed.

(** ** Create *)

Lemma newVisit_takes_draft (newId stamp : string) (d : Draft) :
  draft_fields_taken d (App.newVisit newId stamp d).
Proof.
  unfold draft_fields_taken. simpl.
  repeat split; try reflexivity;
    intros; match goal with H : _ = _ |- _ => rewrite H end; reflexivity.
Qed.

Lemma truthy_string_false (s : string) :
  JS.truthy_string s = false <-> s = "".
Proof.
  destruct s; simpl; split; intros H; try reflexivity; discriminate H.
Qed.

Lemma truthy_string_true (s : string) :
  JS.truthy_string s = true <-> s <> "".
Proof.
  destruct s; simpl; split; intros H; try reflexivity;
    try discriminate H; try (intros E; discriminate E).
  contradiction H. reflexivity.
Qed.

Lemma append_nonempty (a b : string) : a <> "" -> (a ++ b)%string <> "".
Proof.
  destruct a; simpl; intros H E; [apply H; reflexivity | discriminate E].
Qed.

Section Create.
Variable trim : string -> string.
Variable parseFloat : string -> JS.number.
Variable dateToISOString : string -> option string.

Let submit := VisitForm.submit trim parseFloat dateToISOString.
Let toDraft := VisitForm.toDraft trim parseFloat dateToISOString.

Lemma toDraft_throws (fd : VisitForm.FormData) (o : option Visit) :
  (exists m, toDraft fd o = Throw m)
  <-> VisitForm.fd_revisitDate fd <> ""
      /\ dateToISOString (VisitForm.fd_revisitDate fd) = None.
Proof.
  unfold toDraft, VisitForm.toDraft, VisitForm.revisitDateOf.
  destruct (JS.truthy_string (VisitForm.fd_revisitDate fd)) eqn:E.
  - destruct (dateToISOString (VisitForm.fd_revisitDate fd)) as [iso |].
    + split.
      * intros [m H]. discriminate H.
      * intros [_ H]. discriminate H.
    + split.
      * intros _. split; [| reflexivity].
        intros F. rewrite F in E. discriminate E.
      * intros _. eexists. reflexivity.
  - split.
    + intros [m H]. discriminate H.
    + intros [H _]. apply truthy_string_false in E. contradiction.
Qed.

Lemma toDraft_fields (fd : VisitForm.FormData) (o : option Visit)
      (d : Draft) :
  toDraft fd o = Normal d ->
  d_id d = option_map id o
  /\ d_businessName d = VisitForm.fd_businessName fd
  /\ d_contactPerson d = VisitForm.fd_contactPerson fd
  /\ d_ownerName d = VisitForm.fd_ownerName fd
  /\ d_ownerContact d = present (Some (VisitForm.fd_ownerContact fd))
  /\ d_currentProvider d = VisitForm.fd_currentProvider fd
  /\ d_address d = VisitForm.fd_address fd
  /\ d_notes d = VisitForm.fd_notes fd
  /\ d_visitType d = VisitForm.fd_visitType fd
  /\ d_isRevisitSuccessful d = absent
  /\ d_revisitDate d
     = present (if JS.truthy_string (VisitForm.fd_revisitDate fd)
                then dateToISOString (VisitForm.fd_revisitDate fd)
                else None).
Proof.
  unfold toDraft, VisitForm.toDraft, VisitForm.revisitDateOf.
  destruct (JS.truthy_string (VisitForm.fd_revisitDate fd)).
  - destruct (dateToISOString (VisitForm.fd_revisitDate fd)) as [iso |];
      intros H; [| discriminate H].
    injection H as <-. simpl. repeat split; reflexivity.
  - intros H. injection H as <-. simpl. repeat split; reflexivity.
Qed.

(** C5 as amended.  With the form open for a new visit, submitting is
    rejected with an alert, the state unchanged, exactly when the
    business name is empty.  With a business name, a revisit date that
    is filled in with text that is no date makes the handler throw:
    nothing is shown and nothing is saved.  Otherwise the collection
    becomes the new record followed by the old collection; the new
    record has as id the clock reading followed by the random number, as
    timestamp the clock reading, no [lastModified], and the fields of
    the form; looking its id up finds it.  The id is not checked against
    the collection: the ids of the collection stay distinct exactly when
    the generated id is not already in use. *)
Theorem create_validates_and_prepends :
  forall (env : App.Env) (fd : VisitForm.FormData) (st : App.State),
    App.renderContent st = App.VisitForm None ->
    let out := submit env fd st in
    let newId := (App.now env ++ App.random env)%string in
    (error_surfaced out <-> VisitForm.fd_businessName fd = "")
    /\ (VisitForm.fd_businessName fd = "" ->
        result out = Normal st
        /\ dialogs out = [Alert "Business Name is required."])
    /\ (VisitForm.fd_businessName fd <> "" ->
        VisitForm.fd_revisitDate fd <> "" ->
        dateToISOString (VisitForm.fd_revisitDate fd) = None ->
        (exists m, result out = Throw m)
        /\ dialogs out = []
        /\ settled st (result out) = st)
    /\ (VisitForm.fd_businessName fd <> "" ->
        forall d, toDraft fd None = Normal d ->
        let v := App.newVisit newId (App.now_again env) d in
        exists st',
          result out = Normal st'
          /\ dialogs out = []
          /\ App.visits st' = v :: App.visits st
          /\ id v = newId
          /\ (App.now env <> "" -> id v <> "")
          /\ timestamp v = App.now_again env
          /\ lastModified v = None
          /\ isRevisitSuccessful v = None
          /\ draft_fields_taken d v
          /\ businessName v = VisitForm.fd_businessName fd
          /\ contactPerson v = VisitForm.fd_contactPerson fd
          /\ ownerName v = VisitForm.fd_ownerName fd
          /\ ownerContact v = Some (VisitForm.fd_ownerContact fd)
          /\ currentProvider v = VisitForm.fd_currentProvider fd
          /\ address v = VisitForm.fd_address fd
          /\ notes v = VisitForm.fd_notes fd
          /\ visitType v = VisitForm.fd_visitType fd
          /\ App.findVisit (id v) (App.visits st') = Some v
          /\ (~ In newId (map id (App.visits st)) ->
              forall w, In w (App.visits st') -> id w = id v -> w = v)
          /\ (NoDup (map id (App.visits st)) ->
              (NoDup (map id (App.visits st'))
               <-> ~ In newId (map id (App.visits st))))).
Proof.
  intros env fd st Hform out newId.
  assert (Hinit : (if App.isEditing st then App.selectedVisit st else None)
                  = None).
  { unfold App.renderContent in Hform.
    destruct (App.view st); try discriminate Hform.
    - destruct (App.selectedVisit st); discriminate Hform.
    - injection Hform as E. exact E. }
  assert (Hout : out
                 = if negb (JS.truthy_string (VisitForm.fd_businessName fd))
                   then (Normal st, [Alert "Business Name is required."])
                   else match toDraft fd None with
                        | Throw m => (Throw m, [])
                        | Normal d =>
                            (Normal
                               (result (App.handleSaveVisit env d st)), [])
                        end).
  { unfold out, submit, VisitForm.submit, VisitForm.handleSubmit.
    rewrite Hinit. fold toDraft.
    destruct (JS.truthy_string (VisitForm.fd_businessName fd));
      [| reflexivity].
    simpl. destruct (toDraft fd None); reflexivity. }
  assert (Hquiet : VisitForm.fd_businessName fd <> "" -> dialogs out = []).
  { intros Hname. apply truthy_string_true in Hname.
    rewrite Hout, Hname. simpl. destruct (toDraft fd None); reflexivity. }
  split; [| split; [| split]].
  - split.
    + intros [m Hm].
      destruct (string_dec (VisitForm.fd_businessName fd) "") as [E | E];
        [exact E |].
      rewrite (Hquiet E) in Hm. contradiction.
    + intros E. apply truthy_string_false in E.
      rewrite Hout, E. exists "Business Name is required.".
      left. reflexivity.
  - intros Hempty. apply truthy_string_false in Hempty.
    rewrite Hout, Hempty. split; reflexivity.
  - intros Hname Hdate Hnone.
    destruct (proj2 (toDraft_throws fd None) (conj Hdate Hnone)) as [m Hm].
    split; [| split; [exact (Hquiet Hname) |]].
    + exists m. apply truthy_string_true in Hname.
      rewrite Hout, Hname, Hm. reflexivity.
    + apply truthy_string_true in Hname.
      rewrite Hout, Hname, Hm. reflexivity.
  - intros Hname d Hd v.
    destruct (toDraft_fields fd None d Hd)
      as (Hi & Hb & Hc & Ho & Hoc & Hp & Ha & Hn & Ht & Hs & _).
    assert (Hnone : d_id d = None) by exact Hi.
    exists (result (App.handleSaveVisit env d st)).
    assert (Hv : App.visits (result (App.handleSaveVisit env d st))
                 = v :: App.visits st).
    { unfold App.handleSaveVisit, result, ret. simpl. rewrite Hnone.
      reflexivity. }
    split.
    { apply truthy_string_true in Hname.
      rewrite Hout, Hname, Hd. reflexivity. }
    split; [exact (Hquiet Hname) |].
    split; [exact Hv |].
    split; [reflexivity |].
    split; [apply append_nonempty |].
    do 2 (split; [reflexivity |]).
    split; [simpl; rewrite Hs; reflexivity |].
    split; [apply newVisit_takes_draft |].
    split; [exact Hb |]. split; [exact Hc |]. split; [exact Ho |].
    split; [simpl; rewrite Hoc; reflexivity |].
    split; [exact Hp |]. split; [exact Ha |]. split; [exact Hn |].
    split; [exact Ht |].
    split.
    { rewrite Hv. unfold App.findVisit. simpl.
      rewrite String.eqb_refl. reflexivity. }
    split.
    + intros Hfresh w Hw Hid. rewrite Hv in Hw. destruct Hw as [Hw | Hw].
      * symmetry. exact Hw.
      * exfalso. apply Hfresh. change newId with (id v).
        rewrite <- Hid. apply in_map. exact Hw.
    + intros Hnd. rewrite Hv. simpl. split.
      * intros H. inversion H; assumption.
      * intros H. constructor; assumption.
Qed.
End Create.

Lemma fresh_sample_id :
  ~ In (App.now Sample.env ++ App.random Sample.env)%string
       (map id Sample.store).
Proof.
  simpl. intros [H | [H | [H | H]]]; try discriminate H; exact H.
Qed.

Lemma sample_ids_distinct : NoDup (map id Sample.store).
Proof.
  simpl. repeat constructor; simpl;
    intros H; repeat (destruct H as [H | H]; [discriminate H |]); exact H.
Qed.

Lemma create_validates_and_prepends_witness :
  App.renderContent Sample.newForm = App.VisitForm None
  /\ (exists st',
        result (Sample.save "Delta Diner") = Normal st'
        /\ List.length (App.visits st') = 4%nat
        /\ NoDup (map id (App.visits st')))
  /\ result (Sample.save "") = Normal Sample.newForm.
Proof.
  pose (form := Sample.newForm).
  split; [reflexivity |].
  assert (Hne : VisitForm.fd_businessName (Sample.formData "Delta Diner")
                <> "") by (intros E; discriminate E).
  destruct (create_validates_and_prepends
              Sample.trim Sample.parseFloat Sample.dateToISOString
              Sample.env (Sample.formData "Delta Diner") form eq_refl)
    as (_ & _ & _ & H).
  destruct (H Hne _ eq_refl)
    as (st' & Hr & _ & Hv & _ & _ & _ & _ & _ & _ & _ & _ & _ & _ & _ & _
        & _ & _ & _ & _ & Hu).
  split.
  - exists st'. split; [exact Hr |].
    split; [rewrite Hv; reflexivity |].
    apply (Hu sample_ids_distinct). exact fresh_sample_id.
  - destruct (create_validates_and_prepends
                Sample.trim Sample.parseFloat Sample.dateToISOString
                Sample.env (Sample.formData "") form eq_refl)
      as (_ & H0 & _).
    destruct (H0 eq_refl) as (Hr0 & _). exact Hr0.
Defined.

(** C5 as stated fails: the id given to a new record need not be unique
    in the collection.  The store holds a record whose id is the clock
    reading followed by the random number that the next save draws; the
    save goes through without a dialog, and afterwards two different
    records have that id. *)
Lemma create_duplicate_id_counterexample :
  App.renderContent Sample.crowdedForm = App.VisitForm None
  /\ NoDup (map id (App.visits Sample.crowdedForm))
  /\ exists st' v,
       VisitForm.submit Sample.trim Sample.parseFloat
                        Sample.dateToISOString Sample.env
                        (Sample.formData "Delta Diner") Sample.crowdedForm
       = (Normal st', [])
       /\ App.visits st' = [v; Sample.twin]
       /\ id v = id Sample.twin
       /\ v <> Sample.twin
       /\ ~ NoDup (map id (App.visits st')).
Proof.
  split; [reflexivity |].
  split; [repeat constructor; intros F; exact F |].
  eexists. eexists.
  split; [reflexivity |].
  split; [reflexivity |].
  split; [reflexivity |].
  split; [intros F; discriminate F |].
  intros F. inversion F as [| x l Hn _]. apply Hn. left. reflexivity.
Qed.

(** The sample conversion of the revisit date. *)
Example sample_dateToISOString :
  Sample.dateToISOString "2024-03-05T08:15" = Some Sample.T3
  /\ Sample.dateToISOString "NaN-NaN-NaNTNaN:NaN" = None.
Proof. split; vm_compute; reflexivity. Qed.

(** ** The query/filter engine: which records are retained *)

Lemma startsWith_spec (s q : string) :
  JS.startsWith s q = true <-> exists suf, s = (q ++ suf)%string.
Proof.
  revert s. induction q as [| a q IH]; intros s; simpl.
  - split; [intros _; exists s; reflexivity | reflexivity].
  - destruct s as [| b s]; simpl.
    + split; [discriminate | intros [suf H]; discriminate H].
    + rewrite andb_true_iff, Ascii.eqb_eq, IH. split.
      * intros [-> [suf ->]]. exists suf. reflexivity.
      * intros [suf H]. injection H as -> ->. split; [reflexivity |].
        exists suf. reflexivity.
Qed.

Lemma includes_spec (s q : string) :
  JS.includes s q = true
  <-> exists pre suf, s = (pre ++ q ++ suf)%string.
Proof.
  induction s as [| c s IH]; simpl.
  - destruct (JS.startsWith "" q) eqn:E.
    + split; [intros _ | reflexivity].
      apply startsWith_spec in E. destruct E as [suf E].
      exists "", suf. exact E.
    + split; [discriminate |]. intros (pre & suf & H).
      destruct pre; simpl in H.
      * assert (JS.startsWith "" q = true)
          by (apply startsWith_spec; exists suf; exact H).
        congruence.
      * discriminate H.
  - destruct (JS.startsWith (String c s) q) eqn:E.
    + split; [intros _ | reflexivity].
      apply startsWith_spec in E. destruct E as [suf E].
      exists "", suf. exact E.
    + rewrite IH. split.
      * intros (pre & suf & ->). exists (String c pre), suf. reflexivity.
      * intros (pre & suf & H). destruct pre as [| c' pre]; simpl in H.
        -- assert (JS.startsWith (String c s) q = true)
             by (apply startsWith_spec; exists suf; exact H).
           congruence.
        -- injection H as _ ->. exists pre, suf. reflexivity.
Qed.

Lemma array_includes_spec (l : list string) (x : string) :
  JS.array_includes l x = true <-> In x l.
Proof.
  unfold JS.array_includes. rewrite existsb_exists. split.
  - intros (y & Hin & E). apply String.eqb_eq in E. subst. exact Hin.
  - intros Hin. exists x. split; [exact Hin | apply String.eqb_refl].
Qed.

Lemma VisitType_eqb_eq (a b : VisitType) :
  VisitType_eqb a b = true <-> a = b.
Proof.
  destruct a, b; simpl; split; intros H; try reflexivity; discriminate H.
Qed.

Section SortPermutes.
Context {A : Type}.
Variable comparefn : A -> A -> option Z.

Lemma insert_perm (x : A) (l : list A) :
  Permutation (JS.insert comparefn x l) (x :: l).
Proof.
  induction l as [| y l IH]; simpl; [reflexivity |].
  destruct (JS.SortCompare comparefn x y <=? 0)%Z; [reflexivity |].
  rewrite IH. apply perm_swap.
Qed.

Lemma sort_perm (l : list A) : Permutation (JS.sort comparefn l) l.
Proof.
  induction l as [| x l IH]; simpl; [reflexivity |].
  rewrite insert_perm, IH. reflexivity.
Qed.
End SortPermutes.

Section Retention.
Variable toLowerCase : string -> string.

Lemma retains_decompose (query : string) (f : Filters) (v : Visit) :
  VisitList.retains toLowerCase query f v
  = negb (VisitList.visitType_rejected f v)
    && negb ((0 <? List.length (providers f))%nat
             && negb (JS.array_includes (providers f) (currentProvider v)))
    && negb (JS.truthy_string query
             && negb (JS.includes (toLowerCase (businessName v))
                                  (toLowerCase query)
                      || JS.includes (toLowerCase (contactPerson v))
                                     (toLowerCase query)
                      || JS.includes (toLowerCase (address v))
                                     (toLowerCase query))).
Proof.
  unfold VisitList.retains.
  destruct (VisitList.visitType_rejected f v); [reflexivity |].
  destruct ((0 <? List.length (providers f))%nat
            && negb (JS.array_includes (providers f) (currentProvider v)));
    [reflexivity |].
  destruct (JS.truthy_string query
            && negb (JS.includes (toLowerCase (businessName v))
                                 (toLowerCase query)
                     || JS.includes (toLowerCase (contactPerson v))
                                    (toLowerCase query)
                     || JS.includes (toLowerCase (address v))
                                    (toLowerCase query)));
    reflexivity.
Qed.

Lemma visitType_accepted_spec (f : Filters) (v : Visit) :
  negb (VisitList.visitType_rejected f v) = true
  <-> f_visitType f = all \/ f_visitType f = only (visitType v).
Proof.
  unfold VisitList.visitType_rejected.
  destruct (f_visitType f) as [| t]; simpl.
  - split; auto.
  - rewrite negb_involutive, VisitType_eqb_eq. split.
    + intros ->. right. reflexivity.
    + intros [H | H]; [discriminate H | injection H as <-; reflexivity].
Qed.

Lemma provider_accepted_spec (ps : list string) (x : string) :
  negb ((0 <? List.length ps)%nat && negb (JS.array_includes ps x)) = true
  <-> ps = [] \/ In x ps.
Proof.
  rewrite <- array_includes_spec.
  destruct ps as [| p ps]; [simpl; split; auto |].
  change (0 <? List.length (p :: ps))%nat with true.
  rewrite andb_true_l, negb_involutive. split.
  - intros H. right. exact H.
  - intros [H | H]; [discriminate H | exact H].
Qed.

Lemma query_accepted_spec (query a b c : string) :
  negb (JS.truthy_string query
        && negb (JS.includes (toLowerCase a) (toLowerCase query)
                 || JS.includes (toLowerCase b) (toLowerCase query)
                 || JS.includes (toLowerCase c) (toLowerCase query)))
  = true
  <-> query = ""
      \/ occurs_ignoring_case toLowerCase query a
      \/ occurs_ignoring_case toLowerCase query b
      \/ occurs_ignoring_case toLowerCase query c.
Proof.
  unfold occurs_ignoring_case. rewrite <- !includes_spec.
  destruct (JS.truthy_string query) eqn:Eq.
  - rewrite andb_true_l, negb_involutive, !orb_true_iff. split.
    + tauto.
    + intros [H | H]; [| tauto].
      apply truthy_string_false in H. congruence.
  - apply truthy_string_false in Eq. simpl. split; auto.
Qed.

Lemma retains_spec (query : string) (f : Filters) (v : Visit) :
  VisitList.retains toLowerCase query f v = true
  <-> retained toLowerCase query f v.
Proof.
  unfold retained.
  rewrite retains_decompose, !andb_true_iff, visitType_accepted_spec,
    provider_accepted_spec, query_accepted_spec.
  tauto.
Qed.

(** C2.  A record is in the result of [filteredVisits] exactly when it is
    in the collection and the retention rule of the engine holds for it:
    the type filter is [all] or the record's type, the provider list is
    empty or has the record's provider, and the query is empty or its
    lower-cased form ([toLowerCase], whatever the platform's lower-casing
    is) occurs in the lower-cased business name, contact person or
    address.  The result has each retained record as often as the
    collection has it, and is a subset of the collection. *)
Theorem filteredVisits_retains_exactly :
  forall (getTime : string -> option Z) (visits : list Visit)
         (query : string) (f : Filters),
    let out := VisitList.filteredVisits toLowerCase getTime visits query f in
    (forall v, In v out <-> In v visits /\ retained toLowerCase query f v)
    /\ Permutation out (filter (VisitList.retains toLowerCase query f) visits)
    /\ incl out visits.
Proof.
  intros getTime visits query f out.
  assert (Hp : Permutation out
                 (filter (VisitList.retains toLowerCase query f) visits))
    by apply sort_perm.
  assert (Hin : forall v,
             In v out <-> In v visits /\ retained toLowerCase query f v).
  { intros v. rewrite <- retains_spec, <- filter_In. split.
    - apply Permutation_in. exact Hp.
    - apply Permutation_in. symmetry. exact Hp. }
  split; [exact Hin |]. split; [exact Hp |].
  intros v Hv. apply Hin in Hv. apply Hv.
Qed.
End Retention.

(** The two readings of the retention rule agree for a lower-casing that
    acts letter by letter; the platform's does not. *)
Lemma each_character_app (f : ascii -> ascii) (a b : string) :
  each_character f (a ++ b)
  = (each_character f a ++ each_character f b)%string.
Proof.
  induction a as [| c a IH]; simpl; [reflexivity |]. rewrite IH.
  reflexivity.
Qed.

Lemma each_character_split (f : ascii -> ascii) (a b : string) :
  forall s,
    each_character f s = (a ++ b)%string ->
    exists s1 s2,
      s = (s1 ++ s2)%string
      /\ each_character f s1 = a /\ each_character f s2 = b.
Proof.
  induction a as [| c a IH]; simpl; intros s H.
  - exists "", s. split; [reflexivity |]. split; [reflexivity | exact H].
  - destruct s as [| x s]; [discriminate H |]. simpl in H.
    injection H as Hc Hs. destruct (IH s Hs) as (s1 & s2 & -> & H1 & H2).
    exists (String x s1), s2. simpl. rewrite Hc, H1.
    split; [reflexivity |]. split; [reflexivity | exact H2].
Qed.

Lemma letter_by_letter_readings_agree (toLowerCase : string -> string)
      (query field : string) :
  letter_by_letter toLowerCase ->
  (occurs_ignoring_case toLowerCase query field
   <-> substring_ignoring_case toLowerCase query field).
Proof.
  intros [f Hf]. unfold occurs_ignoring_case, substring_ignoring_case.
  split.
  - intros (pre & suf & H). rewrite !Hf in H.
    destruct (each_character_split f _ _ _ H) as (s1 & s23 & -> & H1 & H23).
    destruct (each_character_split f _ _ _ H23) as (s2 & s3 & -> & H2 & H3).
    exists s1, s2, s3. split; [reflexivity |]. rewrite !Hf. exact H2.
  - intros (pre & part & suf & -> & H).
    exists (toLowerCase pre), (toLowerCase suf).
    rewrite <- H, !Hf, !each_character_app. reflexivity.
Qed.

(** The sample lower-casing on ASCII text and on the capital sigma. *)
Example sample_toLowerCase_ascii :
  Sample.toLowerCase "Acme Corp" = "acme corp".
Proof. reflexivity. Qed.

Example sample_toLowerCase_sigma :
  Sample.toLowerCase Sample.sigmaQuery
  = String "a" (String (ascii_of_nat 207)
                       (String (ascii_of_nat 130) EmptyString))
  /\ Sample.toLowerCase (businessName Sample.sigmaShop)
     = String "a" (String (ascii_of_nat 207)
                          (String (ascii_of_nat 131) "b")).
Proof. split; reflexivity. Qed.

(** C2, as the specification words it, fails: the query need not be
    matched where it is, letter for letter, a part of the name.  The
    business name of [sigmaShop] is the query followed by a letter; the
    capital sigma is lower-cased to the final small sigma at the end of
    the query and to the other small sigma inside the name, so the
    lower-cased query does not occur in the lower-cased name and the
    record is not listed. *)
Lemma filteredVisits_retains_counterexample :
  In Sample.sigmaShop [Sample.sigmaShop]
  /\ businessName Sample.sigmaShop = (Sample.sigmaQuery ++ "B")%string
  /\ retained_as_specified Sample.toLowerCase Sample.sigmaQuery
                           VisitList.initialFilters Sample.sigmaShop
  /\ ~ In Sample.sigmaShop
         (VisitList.filteredVisits Sample.toLowerCase Sample.getTime
                                   [Sample.sigmaShop] Sample.sigmaQuery
                                   VisitList.initialFilters).
Proof.
  split; [left; reflexivity |].
  split; [reflexivity |].
  split.
  - split; [left; reflexivity |].
    split; [left; reflexivity |].
    right. left. exists "", Sample.sigmaQuery, "B".
    split; reflexivity.
  - vm_compute. intros H. exact H.
Qed.

(** ** The query/filter engine: the order of the result *)

(** A comparator that, on the elements satisfying [P], is the difference
    of an integer key [g]. *)
Section StableSort.
Context {A : Type}.
Variable comparefn : A -> A -> option Z.
Variable P : A -> Prop.
Variable g : A -> Z.
Hypothesis comparefn_key :
  forall a b, P a -> P b -> JS.SortCompare comparefn a b = (g a - g b)%Z.

Lemma insert_Forall (Q : A -> Prop) (x : A) (l : list A) :
  Q x -> Forall Q l -> Forall Q (JS.insert comparefn x l).
Proof.
  intros Hx Hl.
  apply (Permutation_Forall (x := x :: l)).
  - symmetry. apply insert_perm.
  - constructor; assumption.
Qed.

Lemma sort_Forall (Q : A -> Prop) (l : list A) :
  Forall Q l -> Forall Q (JS.sort comparefn l).
Proof.
  intros Hl. apply (Permutation_Forall (x := l)); [| exact Hl].
  symmetry. apply sort_perm.
Qed.

Lemma insert_sorted (x : A) (l : list A) :
  P x -> Forall P l ->
  StronglySorted (fun a b => (g a <= g b)%Z) l ->
  StronglySorted (fun a b => (g a <= g b)%Z) (JS.insert comparefn x l).
Proof.
  intros Hx Hl Hs. induction Hs as [| y l Hs IH Hy]; simpl.
  - repeat constructor.
  - inversion Hl as [| ? ? Py Pl]; subst.
    rewrite (comparefn_key x y Hx Py).
    destruct (g x - g y <=? 0)%Z eqn:E.
    + apply Z.leb_le in E.
      constructor; [constructor; assumption |].
      constructor; [lia |].
      eapply Forall_impl; [| exact Hy]. simpl. intros; lia.
    + apply Z.leb_gt in E.
      constructor; [apply IH; exact Pl |].
      apply insert_Forall; [lia | exact Hy].
Qed.

Lemma sort_sorted (l : list A) :
  Forall P l ->
  StronglySorted (fun a b => (g a <= g b)%Z) (JS.sort comparefn l).
Proof.
  induction l as [| x l IH]; simpl; intros Hl; [constructor |].
  inversion Hl as [| ? ? Px Pl]; subst.
  apply insert_sorted; [exact Px | | apply IH; exact Pl].
  apply sort_Forall. exact Pl.
Qed.

(** Among the elements of one key the inserted element comes first: the
    elements it is moved past all have a strictly smaller key. *)
Lemma insert_keeps_ties (k : Z) (x : A) (l : list A) :
  P x -> Forall P l ->
  filter (fun v => (g v =? k)%Z) (JS.insert comparefn x l)
  = filter (fun v => (g v =? k)%Z) (x :: l).
Proof.
  intros Hx Hl. induction Hl as [| y l Py Pl IH]; [reflexivity |].
  simpl. rewrite (comparefn_key x y Hx Py).
  destruct (g x - g y <=? 0)%Z eqn:E; [reflexivity |].
  apply Z.leb_gt in E. simpl. rewrite IH. simpl.
  destruct (g x =? k)%Z eqn:Ex; [| reflexivity].
  apply Z.eqb_eq in Ex.
  assert (Ey : (g y =? k)%Z = false) by (apply Z.eqb_neq; lia).
  rewrite Ey. reflexivity.
Qed.

Lemma sort_keeps_ties (k : Z) (l : list A) :
  Forall P l ->
  filter (fun v => (g v =? k)%Z) (JS.sort comparefn l)
  = filter (fun v => (g v =? k)%Z) l.
Proof.
  induction l as [| x l IH]; intros Hl; [reflexivity |].
  inversion Hl as [| ? ? Px Pl]; subst. simpl JS.sort.
  rewrite insert_keeps_ties; [| exact Px | apply sort_Forall; exact Pl].
  simpl. rewrite (IH Pl). reflexivity.
Qed.
End StableSort.

Lemma StronglySorted_weaken {A} (R S : A -> A -> Prop) (P : A -> Prop)
      (l : list A) :
  (forall a b, P a -> P b -> R a b -> S a b) ->
  Forall P l -> StronglySorted R l -> StronglySorted S l.
Proof.
  intros HRS Hl Hs. induction Hs as [| x l Hs IH Hx]; [constructor |].
  inversion Hl as [| ? ? Px Pl]; subst.
  constructor; [apply IH; exact Pl |].
  rewrite Forall_forall in *. intros y Hy.
  apply HRS; [exact Px | apply Pl; exact Hy | apply Hx; exact Hy].
Qed.

Lemma filter_ext_Forall {A} (p q : A -> bool) (P : A -> Prop) (l : list A) :
  (forall a, P a -> p a = q a) -> Forall P l -> filter p l = filter q l.
Proof.
  intros Hpq Hl. induction Hl as [| x l Px Pl IH]; [reflexivity |].
  simpl. rewrite (Hpq x Px), IH. reflexivity.
Qed.

Section Ordering.
Variable toLowerCase : string -> string.
Variable getTime : string -> option Z.

(** The integer the comparator effectively sorts by, ascending. *)
Let keyZ (s : SortBy) (v : Visit) : Z :=
  match sort_key getTime s v with
  | Some t => t
  | None => 0%Z
  end.

Let signed (s : SortBy) (k : Z) : Z :=
  match s with
  | oldest => k
  | newest | byLastModified => (- k)%Z
  end.

Lemma well_dated_key (s : SortBy) (v : Visit) :
  well_dated getTime v -> sort_key getTime s v = Some (keyZ s v).
Proof.
  intros [[t Ht] Hm]. unfold keyZ.
  destruct s; simpl; try (rewrite Ht; reflexivity).
  destruct (lastModified v) as [m |] eqn:E.
  - destruct (Hm m eq_refl) as [_ [t' Ht']]. rewrite Ht'. reflexivity.
  - rewrite Ht. reflexivity.
Qed.

Lemma well_dated_or_string (v : Visit) :
  well_dated getTime v ->
  getTime (JS.or_string (lastModified v) (timestamp v))
  = sort_key getTime byLastModified v.
Proof.
  intros [_ Hm]. simpl. unfold JS.or_string.
  destruct (lastModified v) as [m |]; [| reflexivity].
  destruct (Hm m eq_refl) as [Hne _].
  destruct m; [contradiction Hne; reflexivity | reflexivity].
Qed.

Lemma compareVisits_key (f : Filters) (a b : Visit) :
  well_dated getTime a -> well_dated getTime b ->
  JS.SortCompare (VisitList.compareVisits getTime f) a b
  = (signed (sortBy f) (keyZ (sortBy f) a)
     - signed (sortBy f) (keyZ (sortBy f) b))%Z.
Proof.
  intros Ha Hb. unfold JS.SortCompare, VisitList.compareVisits.
  destruct (sortBy f) eqn:Es.
  - pose proof (well_dated_key newest a Ha) as Ka.
    pose proof (well_dated_key newest b Hb) as Kb.
    simpl in Ka, Kb. rewrite Ka, Kb. simpl. lia.
  - pose proof (well_dated_key oldest a Ha) as Ka.
    pose proof (well_dated_key oldest b Hb) as Kb.
    simpl in Ka, Kb. rewrite Ka, Kb. simpl. lia.
  - rewrite (well_dated_or_string a Ha), (well_dated_or_string b Hb).
    rewrite (well_dated_key byLastModified a Ha),
      (well_dated_key byLastModified b Hb).
    simpl. lia.
Qed.

Lemma signed_order (s : SortBy) (a b : Visit) :
  well_dated getTime a -> well_dated getTime b ->
  (signed s (keyZ s a) <= signed s (keyZ s b))%Z ->
  in_order getTime s a b.
Proof.
  intros Ha Hb Hle. exists (keyZ s a), (keyZ s b).
  split; [apply well_dated_key; exact Ha |].
  split; [apply well_dated_key; exact Hb |].
  destruct s; simpl in *; lia.
Qed.

Lemma has_key_signed (s : SortBy) (k : Z) (v : Visit) :
  well_dated getTime v ->
  has_key getTime s k v = (signed s (keyZ s v) =? signed s k)%Z.
Proof.
  intros Hv. unfold has_key. rewrite (well_dated_key s v Hv).
  destruct s; simpl; try reflexivity;
    destruct (keyZ _ v =? k)%Z eqn:E; symmetry;
      [apply Z.eqb_eq; apply Z.eqb_eq in E; lia
      |apply Z.eqb_neq; apply Z.eqb_neq in E; lia
      |apply Z.eqb_eq; apply Z.eqb_eq in E; lia
      |apply Z.eqb_neq; apply Z.eqb_neq in E; lia].
Qed.

(** C3.  When the stamps of the records are dates, the result of
    [filteredVisits] is ordered by the chosen key: for [newest],
    descending timestamps; for [oldest], ascending timestamps; for
    [lastModified], descending [lastModified] where there is one and
    timestamp otherwise.  Records with one and the same key stand in the
    result exactly as they stand among the retained records of the
    collection. *)
Theorem filteredVisits_sorted_and_stable :
  forall (visits : list Visit) (query : string) (f : Filters),
    Forall (well_dated getTime) visits ->
    let out := VisitList.filteredVisits toLowerCase getTime visits query f in
    StronglySorted (in_order getTime (sortBy f)) out
    /\ (forall k,
          filter (has_key getTime (sortBy f) k) out
          = filter (has_key getTime (sortBy f) k)
                   (filter (VisitList.retains toLowerCase query f) visits)).
Proof.
  intros visits query f Hd out.
  set (l := filter (VisitList.retains toLowerCase query f) visits).
  assert (Hl : Forall (well_dated getTime) l).
  { rewrite Forall_forall in *. intros v Hv.
    apply filter_In in Hv. apply Hd, Hv. }
  assert (Ho : Forall (well_dated getTime) out)
    by (apply sort_Forall; exact Hl).
  pose (g := fun v => signed (sortBy f) (keyZ (sortBy f) v)).
  assert (Hk : forall a b, well_dated getTime a -> well_dated getTime b ->
                 JS.SortCompare (VisitList.compareVisits getTime f) a b
                 = (g a - g b)%Z)
    by (intros a b; apply compareVisits_key).
  split.
  - apply (StronglySorted_weaken
             (fun a b => (g a <= g b)%Z) _ (well_dated getTime)).
    + intros a b. apply signed_order.
    + exact Ho.
    + apply (sort_sorted _ (well_dated getTime) g Hk). exact Hl.
  - intros k.
    rewrite (filter_ext_Forall _ (fun v => (g v =? signed (sortBy f) k)%Z)
                               (well_dated getTime) out);
      [| intros a; apply has_key_signed | exact Ho].
    rewrite (filter_ext_Forall _ (fun v => (g v =? signed (sortBy f) k)%Z)
                               (well_dated getTime) l);
      [| intros a; apply has_key_signed | exact Hl].
    apply (sort_keeps_ties _ (well_dated getTime) g Hk). exact Hl.
Qed.
End Ordering.

Lemma sample_store_well_dated :
  Forall (well_dated Sample.getTime) Sample.store.
Proof.
  assert (D1 : dated Sample.getTime Sample.T1)
    by (eexists; vm_compute; reflexivity).
  assert (D2 : dated Sample.getTime Sample.T2)
    by (eexists; vm_compute; reflexivity).
  assert (D3 : dated Sample.getTime Sample.T3)
    by (eexists; vm_compute; reflexivity).
  unfold Sample.store.
  apply Forall_cons; [| apply Forall_cons; [| apply Forall_cons;
                                               [| apply Forall_nil]]].
  - split; [exact D1 | intros m E; discriminate E].
  - split; [exact D2 | intros m E; discriminate E].
  - split; [exact D1 |]. intros m E. injection E as <-.
    split; [intros H; discriminate H | exact D3].
Qed.

Lemma filteredVisits_sorted_and_stable_witness :
  Forall (well_dated Sample.getTime) Sample.store
  /\ StronglySorted
       (in_order Sample.getTime newest)
       (VisitList.filteredVisits Sample.toLowerCase Sample.getTime
                                 Sample.store "" VisitList.initialFilters)
  /\ filter (has_key Sample.getTime newest 1709283600000%Z)
            (VisitList.filteredVisits Sample.toLowerCase Sample.getTime
                                      Sample.store ""
                                      VisitList.initialFilters)
     = [Sample.acme; Sample.cafe].
Proof.
  split; [exact sample_store_well_dated |].
  destruct (filteredVisits_sorted_and_stable
              Sample.toLowerCase Sample.getTime Sample.store ""
              VisitList.initialFilters
              sample_store_well_dated) as [Hs Ht].
  split; [exact Hs |].
  etransitivity; [exact (Ht 1709283600000%Z) | vm_compute; reflexivity].
Defined.

(** Scenario B on the sample store, and the three orders side by side. *)
Example sample_newest :
  VisitList.filteredVisits Sample.toLowerCase Sample.getTime Sample.store ""
    {| sortBy := newest; f_visitType := all; providers := [] |}
  = [Sample.bakery; Sample.acme; Sample.cafe].
Proof. vm_compute. reflexivity. Qed.

Example sample_oldest :
  VisitList.filteredVisits Sample.toLowerCase Sample.getTime Sample.store ""
    {| sortBy := oldest; f_visitType := all; providers := [] |}
  = [Sample.acme; Sample.cafe; Sample.bakery].
Proof. vm_compute. reflexivity. Qed.

Example sample_lastModified :
  VisitList.filteredVisits Sample.toLowerCase Sample.getTime Sample.store ""
    {| sortBy := byLastModified; f_visitType := all; providers := [] |}
  = [Sample.cafe; Sample.bakery; Sample.acme].
Proof. vm_compute. reflexivity. Qed.

(** Scenario A, and a query that matches a name and an address. *)
Example sample_filter_type :
  VisitList.filteredVisits Sample.toLowerCase Sample.getTime [Sample.acme] ""
    {| sortBy := newest; f_visitType := only FollowUp; providers := [] |}
  = [].
Proof. reflexivity. Qed.

Example sample_query :
  VisitList.filteredVisits Sample.toLowerCase Sample.getTime Sample.store "ACME"
    {| sortBy := oldest; f_visitType := all;
       providers := ["Provider X"] |}
  = [Sample.acme; Sample.cafe].
Proof. vm_compute. reflexivity. Qed.

(** ** Navigation *)

Lemma selectedVisit_found (st : App.State) (v : Visit) :
  App.selectedVisit st = Some v ->
  In v (App.visits st) /\ App.selectedVisitId st = Some (id v).
Proof.
  unfold App.selectedVisit, App.findVisit.
  destruct (App.selectedVisitId st) as [i |]; simpl;
    [| intros H; discriminate H].
  destruct (negb (JS.truthy_string i)); [intros H; discriminate H |].
  intros H. apply find_some in H. destruct H as [Hin E].
  apply String.eqb_eq in E. subst i. split; [exact Hin | reflexivity].
Qed.

Lemma selectedVisit_missing (st : App.State) :
  (forall i, App.selectedVisitId st = Some i ->
             ~ In i (map id (App.visits st))) ->
  App.selectedVisit st = None.
Proof.
  intros Hm. destruct (App.selectedVisit st) as [v |] eqn:E; [| reflexivity].
  apply selectedVisit_found in E. destruct E as [Hin Hsel].
  exfalso. apply (Hm (id v) Hsel). apply in_map. exact Hin.
Qed.

Section MissingRecord.
Variable trim : string -> string.
Variable parseFloat : string -> JS.number.
Variable dateToISOString : string -> option string.
Variable numberToString : JS.number -> string.
Variable localTime : string -> option FormInit.LocalTime.

Let submit := VisitForm.submit trim parseFloat dateToISOString.
Let toDraft := VisitForm.toDraft trim parseFloat dateToISOString.
Let effect := FormInit.effect numberToString localTime.

(** C4 as amended.  A record that is rendered, in the detail view or as
    the initial record of the form, is always a record of the collection
    with the selected id.  When the selected id is the id of no record,
    the detail view renders nothing, and the form is rendered without
    an initial record: the effect of the form then leaves its fields as
    they are, and submitting it creates a new record instead of updating
    one.  The view itself is not changed; cancelling that form leads to
    the list. *)
Theorem missing_record_is_never_rendered :
  forall (st : App.State) (i : string),
    Navigation.shows_record st i ->
    (forall v, App.renderContent st = App.VisitDetail v
               \/ App.renderContent st = App.VisitForm (Some v) ->
               In v (App.visits st) /\ id v = i)
    /\ (~ In i (map id (App.visits st)) ->
        (App.view st = App.detail_view ->
         App.renderContent st = App.Nothing)
        /\ (App.view st = App.form_view ->
            App.renderContent st = App.VisitForm None
            /\ (forall initialVisit formData,
                  App.renderContent st = App.VisitForm initialVisit ->
                  effect initialVisit formData = formData)
            /\ (forall env formData d,
                  VisitForm.fd_businessName formData <> "" ->
                  toDraft formData None = Normal d ->
                  exists st',
                    result (submit env formData st) = Normal st'
                    /\ App.visits st'
                       = App.newVisit (App.now env ++ App.random env)
                                      (App.now_again env) d
                         :: App.visits st)
            /\ App.view (result (App.handleGoBack st)) = App.list_view)).
Proof.
  intros st i [Hsel Hview]. split.
  - intros v Hr.
    assert (Hs : App.selectedVisit st = Some v).
    { unfold App.renderContent in Hr.
      destruct (App.view st); destruct Hr as [Hr | Hr];
        try discriminate Hr.
      - destruct (App.selectedVisit st); [| discriminate Hr].
        injection Hr as ->. reflexivity.
      - destruct (App.selectedVisit st); discriminate Hr.
      - injection Hr as Hr. destruct (App.isEditing st);
          [exact Hr | discriminate Hr]. }
    apply selectedVisit_found in Hs. destruct Hs as [Hin Hid].
    split; [exact Hin |]. congruence.
  - intros Hmiss.
    assert (Hs : App.selectedVisit st = None).
    { apply selectedVisit_missing. intros j Hj.
      rewrite Hsel in Hj. injection Hj as <-. exact Hmiss. }
    split.
    + intros Hv. unfold App.renderContent. rewrite Hv, Hs. reflexivity.
    + intros Hv.
      assert (Hinit : (if App.isEditing st then App.selectedVisit st
                       else None) = None).
      { rewrite Hs. destruct (App.isEditing st); reflexivity. }
      assert (Hr : App.renderContent st = App.VisitForm None).
      { unfold App.renderContent. rewrite Hv, Hinit. reflexivity. }
      split; [exact Hr |]. split; [| split].
      * intros initialVisit formData Hi. rewrite Hr in Hi.
        injection Hi as <-. reflexivity.
      * intros env formData d Hname Hd.
        exists (result (App.handleSaveVisit env d st)).
        destruct (toDraft_fields trim parseFloat dateToISOString
                                 formData None d Hd) as (Hid & _).
        apply truthy_string_true in Hname. split.
        -- unfold submit, VisitForm.submit, VisitForm.handleSubmit.
           rewrite Hinit, Hname. fold toDraft. rewrite Hd. reflexivity.
        -- unfold App.handleSaveVisit, result, ret. simpl.
           simpl in Hid. rewrite Hid. reflexivity.
      * unfold App.handleGoBack. rewrite Hv, Hs.
        destruct (App.isEditing st); reflexivity.
Qed.
End MissingRecord.

Lemma missing_record_is_never_rendered_witness :
  Navigation.shows_record Sample.orphanedDetail (id Sample.acme)
  /\ App.renderContent Sample.orphanedDetail = App.Nothing.
Proof.
  assert (Hs : Navigation.shows_record Sample.orphanedDetail
                                       (id Sample.acme)).
  { split; [reflexivity | left; reflexivity]. }
  split; [exact Hs |].
  destruct (missing_record_is_never_rendered
              Sample.trim Sample.parseFloat Sample.dateToISOString
              Sample.numberToString Sample.localDate
              Sample.orphanedDetail (id Sample.acme) Hs) as [_ H].
  assert (Hm : ~ In (id Sample.acme)
                    (map id (App.visits Sample.orphanedDetail)))
    by (intros F; exact F).
  destruct (H Hm) as [Hd _]. exact (Hd eq_refl).
Defined.

(** C4 as stated fails.  From the list over the sample store, selecting
    [acme] and then losing the stored collection leaves the detail view of
    a record that no longer exists: nothing is rendered, not the list.
    Opening the edit form instead leaves the form, without its record,
    on the screen. *)
Lemma missing_record_counterexample :
  Navigation.reachable Sample.trim Sample.parseFloat Sample.dateToISOString
                       Sample.orphanedDetail
  /\ Navigation.shows_record Sample.orphanedDetail (id Sample.acme)
  /\ ~ In (id Sample.acme) (map id (App.visits Sample.orphanedDetail))
  /\ App.renderContent Sample.orphanedDetail = App.Nothing
  /\ App.renderContent Sample.orphanedDetail
     <> App.VisitListScreen (App.visits Sample.orphanedDetail)
  /\ Navigation.reachable Sample.trim Sample.parseFloat
                          Sample.dateToISOString Sample.orphanedForm
  /\ Navigation.shows_record Sample.orphanedForm (id Sample.acme)
  /\ App.renderContent Sample.orphanedForm = App.VisitForm None.
Proof.
  split.
  { exists Sample.store,
      [Navigation.SelectVisit (id Sample.acme); Navigation.StoreChanged []].
    reflexivity. }
  split; [split; [reflexivity | left; reflexivity] |].
  split; [intros F; exact F |].
  split; [reflexivity |].
  split; [intros F; discriminate F |].
  split.
  { exists Sample.store,
      [Navigation.EditVisitFromList (id Sample.acme);
       Navigation.StoreChanged []].
    reflexivity. }
  split; [split; [reflexivity | right; split; reflexivity] |].
  reflexivity.
Qed.

(** As long as the collection is changed by the handlers of [App] only
    (no import, no other change of the store from outside them) the
    situation of C4 does not arise: the record of the detail view and of
    the edit form is always in the collection. *)
Section InBand.
Variable trim : string -> string.
Variable parseFloat : string -> JS.number.
Variable dateToISOString : string -> option string.

Let fire := Navigation.fire trim parseFloat dateToISOString.
Let run := Navigation.run trim parseFloat dateToISOString.

Lemma listed_In (i : string) (vs : list Visit) :
  Navigation.listed i vs = true -> In i (map id vs).
Proof.
  unfold Navigation.listed. rewrite existsb_exists.
  intros (v & Hin & E). apply String.eqb_eq in E. subst i.
  apply in_map. exact Hin.
Qed.

Lemma render_list (st : App.State) (vs : list Visit) :
  App.renderContent st = App.VisitListScreen vs ->
  App.view st = App.list_view /\ vs = App.visits st.
Proof.
  unfold App.renderContent. destruct (App.view st); intros H.
  - injection H as <-. split; reflexivity.
  - destruct (App.selectedVisit st); discriminate H.
  - discriminate H.
Qed.

Lemma render_detail (st : App.State) (v : Visit) :
  App.renderContent st = App.VisitDetail v ->
  App.view st = App.detail_view /\ App.selectedVisit st = Some v.
Proof.
  unfold App.renderContent. destruct (App.view st); intros H.
  - discriminate H.
  - destruct (App.selectedVisit st); [| discriminate H].
    injection H as <-. split; reflexivity.
  - discriminate H.
Qed.

Lemma render_form (st : App.State) (o : option Visit) :
  App.renderContent st = App.VisitForm o -> App.view st = App.form_view.
Proof.
  unfold App.renderContent. destruct (App.view st); intros H.
  - discriminate H.
  - destruct (App.selectedVisit st); discriminate H.
  - reflexivity.
Qed.

Lemma toggle_keeps_ids (now i : string) (vs : list Visit) :
  map id (map (fun v => if id v =? i then App.toggled now v else v) vs)
  = map id vs.
Proof.
  rewrite map_map. apply map_ext. intros v.
  destruct (id v =? i); reflexivity.
Qed.

Ltac not_shown :=
  let i := fresh in let Hs := fresh in let Hv := fresh in
  intros i [Hs Hv]; simpl in Hs, Hv;
  try discriminate Hs;
  destruct Hv as [Hv | [Hv ?]]; try discriminate Hv; try congruence.

Lemma fire_in_band_backed (e : Navigation.event) (st st' : App.State) :
  Navigation.in_band e = true ->
  Navigation.backed st -> fire e st = Some st' -> Navigation.backed st'.
Proof.
  intros Hb Hinv Hf. unfold fire, Navigation.fire in Hf.
  destruct e; try discriminate Hb;
    destruct (App.renderContent st) as [| v | o | vs] eqn:R;
    try discriminate Hf.
  - (* SelectVisit *)
    destruct (Navigation.listed i vs) eqn:L; [| discriminate Hf].
    injection Hf as <-. apply render_list in R. destruct R as [_ ->].
    intros j [Hs _]. simpl in *. injection Hs as <-.
    apply listed_In. exact L.
  - (* NewVisit *)
    injection Hf as <-. not_shown.
  - (* EditVisitFromList *)
    destruct (Navigation.listed i vs) eqn:L; [| discriminate Hf].
    injection Hf as <-. apply render_list in R. destruct R as [_ ->].
    intros j [Hs _]. simpl in *. injection Hs as <-.
    apply listed_In. exact L.
  - (* DeleteVisitFromList *)
    destruct (Navigation.listed i vs); [| discriminate Hf].
    injection Hf as <-. apply render_list in R. destruct R as [Hl _].
    unfold App.handleDeleteVisit, result, confirm, bind. simpl.
    destruct answer; simpl.
    + destruct (App.selected_is st i); simpl; not_shown.
    + intros j [Hs Hv]. rewrite Hl in Hv.
      destruct Hv as [Hv | [Hv _]]; discriminate Hv.
  - (* Back *)
    injection Hf as <-. apply render_detail in R. destruct R as [Hd _].
    unfold App.handleGoBack. rewrite Hd. not_shown.
  - (* Edit *)
    injection Hf as <-. apply render_detail in R. destruct R as [Hd Hs].
    unfold App.handleEditVisit. rewrite Hs.
    intros j [Hj _]. simpl in *. apply Hinv.
    split; [exact Hj | left; exact Hd].
  - (* Delete *)
    injection Hf as <-. apply render_detail in R. destruct R as [Hd Hs].
    apply selectedVisit_found in Hs. destruct Hs as [_ Hsel].
    unfold App.handleDeleteVisit, result, confirm, bind. simpl.
    destruct answer; simpl.
    + unfold App.selected_is. rewrite Hsel, String.eqb_refl. simpl.
      not_shown.
    + exact Hinv.
  - (* ToggleRevisitSuccess *)
    injection Hf as <-.
    intros j [Hs Hv]. simpl in *. rewrite toggle_keeps_ids.
    apply Hinv. split; assumption.
  - (* Save *)
    injection Hf as <-.
    unfold VisitForm.submit, VisitForm.handleSubmit.
    destruct (negb (JS.truthy_string (VisitForm.fd_businessName formData)));
      [exact Hinv |].
    destruct (VisitForm.toDraft _ _ _ _ _) as [d | m]; [| exact Hinv].
    simpl. not_shown.
  - (* Cancel *)
    injection Hf as <-. apply render_form in R.
    unfold App.handleGoBack. rewrite R.
    destruct (App.isEditing st) eqn:Ee; simpl.
    + destruct (App.selectedVisit st) as [v |] eqn:Es; simpl.
      * intros j [Hj _]. simpl in Hj. apply Hinv.
        split; [exact Hj | right; split; assumption].
      * not_shown.
    + not_shown.
Qed.

Lemma run_in_band_backed (events : list Navigation.event) :
  forall st st',
    forallb Navigation.in_band events = true ->
    Navigation.backed st -> run events st = Some st' -> Navigation.backed st'.
Proof.
  induction events as [| e events IH]; simpl; intros st st' Hb Hinv Hr.
  - injection Hr as <-. exact Hinv.
  - apply andb_true_iff in Hb. destruct Hb as [He Hb].
    unfold run in Hr. simpl in Hr.
    destruct (Navigation.fire trim parseFloat dateToISOString e st)
      as [st1 |] eqn:F; [| discriminate Hr].
    apply (IH st1 st' Hb); [| exact Hr].
    apply (fire_in_band_backed e st st1 He Hinv F).
Qed.

Lemma in_band_record_present :
  forall stored events st i,
    forallb Navigation.in_band events = true ->
    run events (App.initialState stored) = Some st ->
    Navigation.shows_record st i ->
    In i (map id (App.visits st)).
Proof.
  intros stored events st i Hb Hr.
  apply (run_in_band_backed events (App.initialState stored) st Hb);
    [| exact Hr].
  intros j [Hs _]. discriminate Hs.
Qed.
End InBand.

(** ** Import *)

Lemma hasRequired_object (properties : list (string * JSON.value)) :
  Importer.hasRequired (JSON.Object properties)
  = Normal (JSON.truthy (JSON.lookup "id" properties)
            && JSON.truthy (JSON.lookup "businessName" properties)
            && JSON.truthy (JSON.lookup "timestamp" properties)).
Proof.
  unfold Importer.hasRequired, Importer.get.
  destruct (JSON.truthy (JSON.lookup "id" properties)); [| reflexivity].
  destruct (JSON.truthy (JSON.lookup "businessName" properties));
    reflexivity.
Qed.

Lemma hasRequired_true (e : JSON.value) :
  Importer.hasRequired e = Normal true <-> has_required_fields e.
Proof.
  unfold has_required_fields. split.
  - destruct e as [| b | n | s | l | p]; try (intros H; discriminate H).
    rewrite hasRequired_object. intros H. injection H as H.
    apply andb_true_iff in H. destruct H as [H Ht].
    apply andb_true_iff in H. destruct H as [Hi Hb].
    exists p. repeat split; assumption.
  - intros (p & -> & Hi & Hb & Ht).
    rewrite hasRequired_object, Hi, Hb, Ht. reflexivity.
Qed.

Lemma every_hasRequired_true (l : list JSON.value) :
  Importer.every Importer.hasRequired l = Normal true
  <-> Forall has_required_fields l.
Proof.
  induction l as [| e l IH]; simpl.
  - split; [constructor | reflexivity].
  - destruct (Importer.hasRequired e) as [[|] | m] eqn:E.
    + rewrite IH. split.
      * intros H. constructor; [apply hasRequired_true; exact E | exact H].
      * intros H. inversion H; assumption.
    + split; [intros H; discriminate H |].
      intros H. inversion H as [| ? ? He _]; subst.
      apply hasRequired_true in He. congruence.
    + split; [intros H; discriminate H |].
      intros H. inversion H as [| ? ? He _]; subst.
      apply hasRequired_true in He. congruence.
Qed.

Section ImportFacts.
Variable JSON_parse : string -> completion JSON.value.

Let validated := Importer.validated JSON_parse.
Let handleFileChange := Importer.handleFileChange JSON_parse.

Lemma validated_accepts (t : string) (elements : list JSON.value) :
  JSON_parse t = Normal (JSON.Array elements) ->
  Forall has_required_fields elements ->
  validated (Some t) = Normal elements.
Proof.
  intros Hp Hf. unfold validated, Importer.validated. rewrite Hp.
  apply every_hasRequired_true in Hf. rewrite Hf. reflexivity.
Qed.




End ImportFacts.



(** Scenario D in full, and the question as it reads for one stored
    and three incoming records. *)
Example sample_import_question :
  dialogs (Importer.handleFileChange Sample.parse false
             (Some "odd.json") [Sample.goodRecord])
  = [Confirm "Are you sure you want to replace all 1 existing logs with 3 imported logs? This action cannot be undone."
             false].
Proof. reflexivity. Qed.

(** C10.  The check of an element reads nothing but the truthiness of its
    [id], [businessName] and [timestamp]: two objects that agree on those
    three truth values are checked alike.  An array all of whose elements
    pass is, once confirmed, stored as it is.  Such elements need not have
    the shape of a [Visit]: a record with a number for id, a boolean for
    business name, an object for timestamp, an unknown visit type, no
    free-text fields and an extra field passes, and so does a record with
    the three fields alone. *)
Theorem import_checks_three_fields_only :
  (forall p,
      Importer.hasRequired (JSON.Object p)
      = Normal (JSON.truthy (JSON.lookup "id" p)
                && JSON.truthy (JSON.lookup "businessName" p)
                && JSON.truthy (JSON.lookup "timestamp" p)))
  /\ (forall p p',
        JSON.truthy (JSON.lookup "id" p) = JSON.truthy (JSON.lookup "id" p') ->
        JSON.truthy (JSON.lookup "businessName" p)
        = JSON.truthy (JSON.lookup "businessName" p') ->
        JSON.truthy (JSON.lookup "timestamp" p)
        = JSON.truthy (JSON.lookup "timestamp" p') ->
        Importer.hasRequired (JSON.Object p)
        = Importer.hasRequired (JSON.Object p'))
  /\ (forall (JSON_parse : string -> completion JSON.value) t elements visits,
        JSON_parse t = Normal (JSON.Array elements) ->
        Forall has_required_fields elements ->
        result (Importer.handleFileChange JSON_parse true (Some t) visits)
        = elements)
  /\ (has_required_fields Sample.oddRecord
      /\ Importer.conformsToVisit Sample.oddRecord = false)
  /\ (has_required_fields Sample.bareRecord
      /\ Importer.conformsToVisit Sample.bareRecord = false)
  /\ Importer.conformsToVisit Sample.goodRecord = true.
Proof.
  split; [exact hasRequired_object |].
  split.
  { intros p p' Hi Hb Ht. rewrite !hasRequired_object, Hi, Hb, Ht.
    reflexivity. }
  split.
  { intros JSON_parse t elements visits Hp Hf.
    unfold Importer.handleFileChange.
    rewrite (validated_accepts JSON_parse t elements Hp Hf). reflexivity. }
  split; [split; [apply hasRequired_true |]; reflexivity |].
  split; [split; [apply hasRequired_true |]; reflexivity |].
  reflexivity.
Qed.

Lemma import_checks_three_fields_only_witness :
  Importer.hasRequired Sample.oddRecord
  = Importer.hasRequired Sample.goodRecord
  /\ result (Importer.handleFileChange Sample.parse true (Some "odd.json") [])
     = [Sample.oddRecord; Sample.bareRecord; Sample.goodRecord]
  /\ forallb Importer.conformsToVisit
             (result (Importer.handleFileChange Sample.parse true
                                               (Some "odd.json") []))
     = false.
Proof.
  destruct import_checks_three_fields_only as (_ & Hsame & Hstore & _).
  split; [apply Hsame; reflexivity |].
  assert (Hf : Forall has_required_fields
                      [Sample.oddRecord; Sample.bareRecord;
                       Sample.goodRecord]).
  { apply every_hasRequired_true. reflexivity. }
  pose proof (Hstore Sample.parse "odd.json" _ [] eq_refl Hf) as Hr.
  split; [exact Hr |]. rewrite Hr. reflexivity.
Defined.

(* ================================================================== *)
(** * Further properties of the code *)
(* ================================================================== *)

(** ** The list screen *)

Lemma in_sort_iff {A} (comparefn : A -> A -> option Z) (l : list A) (x : A) :
  In x (JS.sort comparefn l) <-> In x l.
Proof.
  split; apply Permutation_in; [| symmetry]; apply sort_perm.
Qed.

Lemma retains_initial (toLowerCase : string -> string) (v : Visit) :
  VisitList.retains toLowerCase "" VisitList.initialFilters v = true.
Proof. reflexivity. Qed.

Lemma isFilterActive_false (f : Filters) :
  ListScreen.isFilterActive f = false <-> f = VisitList.initialFilters.
Proof.
  unfold ListScreen.isFilterActive. split.
  - destruct f as [s t ps]; simpl.
    destruct s; simpl; try (intros H; discriminate H).
    destruct t; simpl; try (intros H; discriminate H).
    destruct ps; simpl; [reflexivity | intros H; discriminate H].
  - intros ->. reflexivity.
Qed.

Lemma length_zero_nil {A} (l : list A) :
  (0 <? List.length l)%nat = false <-> l = [].
Proof.
  destruct l; simpl; split; intros H; try reflexivity; discriminate H.
Qed.

(** X1.  After Refresh nothing is hidden: the list shows every stored
    visit, each as often as it is stored. *)
Theorem refresh_lists_every_visit :
  forall (toLowerCase : string -> string) (getTime : string -> option Z)
         (visits : list Visit)
         (st : ListScreen.State),
    let st' := ListScreen.handleRefresh st in
    Permutation
      (VisitList.filteredVisits toLowerCase getTime visits
                                (ListScreen.searchQuery st')
                                (ListScreen.activeFilters st'))
      visits
    /\ ListScreen.isFilterActive (ListScreen.activeFilters st') = false
    /\ (visits <> [] ->
        exists shown,
          ListScreen.main toLowerCase getTime visits st'
          = ListScreen.Items shown
          /\ Permutation shown visits).
Proof.
  intros toLowerCase getTime visits st st'.
  assert (Hp : Permutation
                 (VisitList.filteredVisits toLowerCase getTime visits ""
                                           VisitList.initialFilters)
                 visits).
  { unfold VisitList.filteredVisits. rewrite sort_perm.
    rewrite filter_all; [reflexivity |]. intros v _. apply retains_initial. }
  split; [exact Hp |]. split; [reflexivity |].
  intros Hne. unfold ListScreen.main. simpl.
  destruct (VisitList.filteredVisits toLowerCase getTime visits ""
                                     VisitList.initialFilters)
    as [| v l] eqn:E.
  - apply Permutation_nil in Hp. contradiction.
  - exists (v :: l). split; [reflexivity | exact Hp].
Qed.

Lemma refresh_lists_every_visit_witness :
  exists shown,
    ListScreen.main Sample.toLowerCase Sample.getTime Sample.store
                    (ListScreen.handleRefresh
                       (ListScreen.setSearchQuery "zzz"
                                                  ListScreen.initialState))
    = ListScreen.Items shown
    /\ Permutation shown Sample.store.
Proof.
  destruct (refresh_lists_every_visit
              Sample.toLowerCase Sample.getTime Sample.store
              (ListScreen.setSearchQuery "zzz" ListScreen.initialState))
    as (_ & _ & H).
  apply H. intros E. discriminate E.
Defined.

(** X2.  The list shows the message "No visits logged yet." exactly when
    the store is empty, the search box is empty and the filters are the
    initial ones; whenever it shows items, these are the non-empty result
    of the engine. *)
Theorem empty_message_means_empty_store :
  forall (toLowerCase : string -> string) (getTime : string -> option Z)
         (visits : list Visit)
         (st : ListScreen.State),
    (ListScreen.main toLowerCase getTime visits st
     = ListScreen.Message "No visits logged yet."
     <-> visits = []
         /\ ListScreen.searchQuery st = ""
         /\ ListScreen.activeFilters st = VisitList.initialFilters)
    /\ (forall shown,
          ListScreen.main toLowerCase getTime visits st
          = ListScreen.Items shown ->
          shown <> []
          /\ shown = VisitList.filteredVisits
                       toLowerCase getTime visits (ListScreen.searchQuery st)
                       (ListScreen.activeFilters st)).
Proof.
  intros toLowerCase getTime visits st. unfold ListScreen.main. split.
  - split.
    + destruct (0 <? List.length _)%nat eqn:El; [intros H; discriminate H |].
      apply length_zero_nil in El.
      destruct (JS.truthy_string (ListScreen.searchQuery st)) eqn:Eq;
        [intros H; discriminate H |].
      destruct (ListScreen.isFilterActive (ListScreen.activeFilters st))
               eqn:Ef; [intros H; discriminate H |].
      intros _. apply truthy_string_false in Eq.
      apply isFilterActive_false in Ef.
      split; [| split; assumption].
      rewrite Eq, Ef in El. unfold VisitList.filteredVisits in El.
      destruct visits as [| v vs]; [reflexivity |].
      assert (Hin : In v (JS.sort
                            (VisitList.compareVisits
                               getTime VisitList.initialFilters)
                            (filter (VisitList.retains
                                       toLowerCase
                                       "" VisitList.initialFilters)
                                    (v :: vs)))).
      { apply in_sort_iff. apply filter_In.
        split; [left; reflexivity | apply retains_initial]. }
      rewrite El in Hin. contradiction.
    + intros (-> & -> & ->). reflexivity.
  - intros shown.
    destruct (0 <? List.length _)%nat eqn:El; [| intros H; discriminate H].
    intros H. injection H as <-. split; [| reflexivity].
    intros E. rewrite E in El. discriminate El.
Qed.

(** ** The search box *)

Lemma truthy_toLowerCase (toLowerCase : string -> string) (a b : string) :
  keeps_emptiness toLowerCase ->
  toLowerCase a = toLowerCase b ->
  JS.truthy_string a = JS.truthy_string b.
Proof.
  intros He H.
  destruct a as [| x a], b as [| y b]; simpl; try reflexivity.
  - assert (E : String y b = "").
    { apply He. rewrite <- H. apply He. reflexivity. }
    discriminate E.
  - assert (E : String x a = "").
    { apply He. rewrite H. apply He. reflexivity. }
    discriminate E.
Qed.

Lemma sample_toLowerCase_empty : keeps_emptiness Sample.toLowerCase.
Proof.
  intros s. split.
  - destruct s as [| c [| d rest]]; [reflexivity | |].
    + intros H. discriminate H.
    + unfold Sample.toLowerCase. simpl.
      destruct (Sample.isCapitalSigma c d); intros H; discriminate H.
  - intros ->. reflexivity.
Qed.

(** X3.  The search ignores the case of what is typed: two queries with
    the same lower-case form give the same list, whatever lower-casing
    the platform has, as long as it leaves no text empty but the empty
    one. *)
Theorem search_ignores_case_of_query :
  forall (toLowerCase : string -> string) (getTime : string -> option Z)
         (visits : list Visit) (q1 q2 : string) (f : Filters),
    keeps_emptiness toLowerCase ->
    toLowerCase q1 = toLowerCase q2 ->
    VisitList.filteredVisits toLowerCase getTime visits q1 f
    = VisitList.filteredVisits toLowerCase getTime visits q2 f.
Proof.
  intros toLowerCase getTime visits q1 q2 f He H.
  unfold VisitList.filteredVisits.
  f_equal. apply filter_ext. intros v. unfold VisitList.retains.
  rewrite H, (truthy_toLowerCase toLowerCase q1 q2 He H). reflexivity.
Qed.

Lemma search_ignores_case_of_query_witness :
  VisitList.filteredVisits Sample.toLowerCase Sample.getTime Sample.store
                           "aCmE" VisitList.initialFilters
  = VisitList.filteredVisits Sample.toLowerCase Sample.getTime Sample.store
                             "ACME" VisitList.initialFilters.
Proof.
  apply search_ignores_case_of_query;
    [exact sample_toLowerCase_empty | reflexivity].
Defined.

Lemma append_eq_empty (a b : string) :
  (a ++ b)%string = "" -> a = "" /\ b = "".
Proof.
  destruct a; simpl; intros H; [split; [reflexivity | exact H] |].
  discriminate H.
Qed.

Lemma string_app_assoc (a b c : string) :
  ((a ++ b) ++ c)%string = (a ++ b ++ c)%string.
Proof.
  induction a as [| x a IH]; simpl; [reflexivity |]. rewrite IH. reflexivity.
Qed.

Lemma occurs_trans (toLowerCase : string -> string) (q q' field : string) :
  occurs_ignoring_case toLowerCase q q' ->
  occurs_ignoring_case toLowerCase q' field ->
  occurs_ignoring_case toLowerCase q field.
Proof.
  intros (pre & suf & H) (a & b & H'). unfold occurs_ignoring_case.
  exists (a ++ pre)%string, (suf ++ b)%string.
  rewrite H', H, !string_app_assoc. reflexivity.
Qed.

(** X4.  A query whose lower-cased form occurs inside the lower-cased
    form of another query lists every visit the other lists.  The
    condition is on the lower-cased forms: lower-casing is not done letter
    by letter, so text typed after a query can change how the query
    itself is lower-cased, and the longer text can then list a visit the
    shorter one does not ([sample_typing_more_adds_a_result]). *)
Theorem longer_query_narrows :
  forall (toLowerCase : string -> string) (getTime : string -> option Z)
         (visits : list Visit) (q q' : string) (f : Filters),
    keeps_emptiness toLowerCase ->
    occurs_ignoring_case toLowerCase q q' ->
    incl (VisitList.filteredVisits toLowerCase getTime visits q' f)
         (VisitList.filteredVisits toLowerCase getTime visits q f).
Proof.
  intros toLowerCase getTime visits q q' f He Hq v Hv.
  unfold VisitList.filteredVisits in *.
  apply in_sort_iff in Hv. apply in_sort_iff.
  apply filter_In in Hv. destruct Hv as [Hin Hr]. apply filter_In.
  split; [exact Hin |].
  apply retains_spec in Hr. apply retains_spec.
  destruct Hr as (Ht & Hp & Hs). split; [exact Ht |]. split; [exact Hp |].
  destruct Hs as [-> | Hs].
  - left. destruct Hq as (pre & suf & H).
    assert (E : toLowerCase "" = "") by (apply He; reflexivity).
    rewrite E in H. symmetry in H.
    apply append_eq_empty in H. destruct H as [_ H].
    apply append_eq_empty in H. destruct H as [H _].
    apply He. exact H.
  - right.
    destruct Hs as [Hs | [Hs | Hs]];
      [left | right; left | right; right];
      apply (occurs_trans toLowerCase q q'); assumption.
Qed.

Lemma longer_query_narrows_witness :
  incl (VisitList.filteredVisits Sample.toLowerCase Sample.getTime
                                 Sample.store "Acme Co"
                                 VisitList.initialFilters)
       (VisitList.filteredVisits Sample.toLowerCase Sample.getTime
                                 Sample.store "ACME"
                                 VisitList.initialFilters).
Proof.
  apply longer_query_narrows; [exact sample_toLowerCase_empty |].
  exists "", " co". reflexivity.
Defined.

(** Typing one more letter after a capital sigma lists a visit that the
    shorter query does not list. *)
Example sample_typing_more_adds_a_result :
  VisitList.filteredVisits Sample.toLowerCase Sample.getTime
                           [Sample.sigmaShop] Sample.sigmaQuery
                           VisitList.initialFilters
  = []
  /\ VisitList.filteredVisits Sample.toLowerCase Sample.getTime
                              [Sample.sigmaShop]
                              (Sample.sigmaQuery ++ "B")
                              VisitList.initialFilters
     = [Sample.sigmaShop].
Proof. split; vm_compute; reflexivity. Qed.

(** X5.  The sort order decides nothing but the order: two filter
    settings that differ only in [sortBy] list the same visits. *)
Theorem sort_order_hides_nothing :
  forall (toLowerCase : string -> string) (getTime : string -> option Z)
         (visits : list Visit)
         (q : string) (f f' : Filters),
    f_visitType f = f_visitType f' ->
    providers f = providers f' ->
    Permutation (VisitList.filteredVisits toLowerCase getTime visits q f)
                (VisitList.filteredVisits toLowerCase getTime visits q f').
Proof.
  intros toLowerCase getTime visits q f f' Ht Hp.
  unfold VisitList.filteredVisits.
  rewrite !sort_perm.
  rewrite (filter_ext (VisitList.retains toLowerCase q f)
                      (VisitList.retains toLowerCase q f'));
    [reflexivity |].
  intros v. unfold VisitList.retains, VisitList.visitType_rejected.
  rewrite Ht, Hp. reflexivity.
Qed.

Lemma sort_order_hides_nothing_witness :
  Permutation
    (VisitList.filteredVisits Sample.toLowerCase Sample.getTime Sample.store "a"
       {| sortBy := oldest; f_visitType := all; providers := [] |})
    (VisitList.filteredVisits Sample.toLowerCase Sample.getTime Sample.store "a"
       {| sortBy := byLastModified; f_visitType := all; providers := [] |}).
Proof.
  apply sort_order_hides_nothing; reflexivity.
Defined.

(** ** The engine applied to its own result, and the two timestamp orders *)

Section SortedInput.
Context {A : Type}.
Variable comparefn : A -> A -> option Z.
Variable P : A -> Prop.
Variable g : A -> Z.
Hypothesis comparefn_key :
  forall a b, P a -> P b -> JS.SortCompare comparefn a b = (g a - g b)%Z.

Lemma sort_of_sorted (l : list A) :
  Forall P l -> StronglySorted (fun a b => (g a <= g b)%Z) l ->
  JS.sort comparefn l = l.
Proof.
  intros Hl Hs. induction Hs as [| x l Hs IH Hx]; [reflexivity |].
  inversion Hl as [| ? ? Px Pl]; subst. simpl. rewrite (IH Pl).
  destruct l as [| y l']; [reflexivity |]. simpl.
  inversion Pl as [| ? ? Py _]; subst.
  inversion Hx as [| ? ? Hxy _]; subst.
  rewrite (comparefn_key x y Px Py).
  destruct (g x - g y <=? 0)%Z eqn:E; [reflexivity |].
  apply Z.leb_gt in E. lia.
Qed.
End SortedInput.

Section SortedLists.
Context {A : Type}.
Variable g : A -> Z.



End SortedLists.



Section EngineOnItself.
Variable toLowerCase : string -> string.
Variable getTime : string -> option Z.

Let keyZ (s : SortBy) (v : Visit) : Z :=
  match sort_key getTime s v with
  | Some t => t
  | None => 0%Z
  end.

Let signed_key (f : Filters) (v : Visit) : Z :=
  match sortBy f with
  | oldest => keyZ (sortBy f) v
  | newest | byLastModified => (- keyZ (sortBy f) v)%Z
  end.

Let retained_list (visits : list Visit) (q : string) (f : Filters) :=
  filter (VisitList.retains toLowerCase q f) visits.

Lemma retained_list_well_dated visits q f :
  Forall (well_dated getTime) visits ->
  Forall (well_dated getTime) (retained_list visits q f).
Proof.
  intros H. rewrite Forall_forall in *. intros v Hv.
  apply filter_In in Hv. apply H, Hv.
Qed.

(** X6.  When the stamps of the records are dates, applying the engine
    to its own result with the same query and filters changes nothing. *)
Theorem filteredVisits_idempotent :
  forall (visits : list Visit) (q : string) (f : Filters),
    Forall (well_dated getTime) visits ->
    VisitList.filteredVisits
      toLowerCase getTime
      (VisitList.filteredVisits toLowerCase getTime visits q f) q f
    = VisitList.filteredVisits toLowerCase getTime visits q f.
Proof.
  intros visits q f Hd. unfold VisitList.filteredVisits at 1.
  assert (Hl := retained_list_well_dated visits q f Hd).
  assert (Ho : Forall (well_dated getTime)
                      (VisitList.filteredVisits toLowerCase getTime visits q f))
    by (apply sort_Forall; exact Hl).
  rewrite filter_all.
  - apply (sort_of_sorted _ (well_dated getTime) (signed_key f)).
    + intros a b. apply compareVisits_key.
    + exact Ho.
    + apply (sort_sorted _ (well_dated getTime) (signed_key f)).
      * intros a b. apply compareVisits_key.
      * exact Hl.
  - intros v Hv. unfold VisitList.filteredVisits in Hv.
    apply in_sort_iff in Hv. apply filter_In in Hv. apply Hv.
Qed.

End EngineOnItself.


Lemma filteredVisits_idempotent_witness :
  VisitList.filteredVisits
    Sample.toLowerCase Sample.getTime
    (VisitList.filteredVisits Sample.toLowerCase Sample.getTime Sample.store
                              "a" VisitList.initialFilters)
    "a" VisitList.initialFilters
  = [Sample.bakery; Sample.acme; Sample.cafe].
Proof.
  rewrite (filteredVisits_idempotent
             Sample.toLowerCase Sample.getTime Sample.store "a"
             VisitList.initialFilters
             sample_store_well_dated).
  vm_compute. reflexivity.
Defined.


(** ** The filter modal *)

Lemma array_includes_false (l : list string) (x : string) :
  JS.array_includes l x = false <-> ~ In x l.
Proof.
  rewrite <- array_includes_spec.
  destruct (JS.array_includes l x); split; intros H;
    try reflexivity; try discriminate H.
  - contradiction H. reflexivity.
  - intros E. discriminate E.
Qed.

Lemma in_remove_provider (p q : string) (l : list string) :
  In q (filter (fun x => negb (x =? p)) l) <-> In q l /\ q <> p.
Proof.
  rewrite filter_In, negb_true_iff, String.eqb_neq. reflexivity.
Qed.

(** X8.  Ticking a provider's checkbox flips whether that provider is
    selected and nothing else: every other provider stays selected or
    unselected, the sort order and the visit type are kept, and a
    selection without repetitions stays without repetitions. *)
Theorem provider_toggle_flips_one :
  forall (p : string) (f : Filters),
    let f' := FilterModal.handleProviderToggle p f in
    JS.array_includes (providers f') p
    = negb (JS.array_includes (providers f) p)
    /\ (forall q, q <> p -> (In q (providers f') <-> In q (providers f)))
    /\ sortBy f' = sortBy f
    /\ f_visitType f' = f_visitType f
    /\ (NoDup (providers f) -> NoDup (providers f')).
Proof.
  intros p f f'. unfold f', FilterModal.handleProviderToggle. simpl.
  destruct (JS.array_includes (providers f) p) eqn:E; simpl.
  - split.
    { apply array_includes_false. rewrite in_remove_provider.
      intros [_ H]. apply H. reflexivity. }
    split.
    { intros q Hq. rewrite in_remove_provider. tauto. }
    split; [reflexivity |]. split; [reflexivity |].
    apply NoDup_filter.
  - apply array_includes_false in E. split.
    { apply array_includes_spec. apply in_or_app. right. left. reflexivity. }
    split.
    { intros q Hq. rewrite in_app_iff. simpl. split.
      - intros [H | [H | H]]; [exact H | congruence | contradiction].
      - intros H. left. exact H. }
    split; [reflexivity |]. split; [reflexivity |].
    intros Hnd. apply NoDup_app; [exact Hnd | repeat constructor; auto |].
    intros x Hx [<- | H]; [contradiction | exact H].
Qed.

Lemma provider_toggle_flips_one_witness :
  providers (FilterModal.handleProviderToggle
               "Provider X"
               {| sortBy := oldest; f_visitType := all;
                  providers := ["Provider X"; "Provider Y"] |})
  = ["Provider Y"]
  /\ NoDup (providers (FilterModal.handleProviderToggle
                         "Provider Z"
                         {| sortBy := oldest; f_visitType := all;
                            providers := ["Provider X"; "Provider Y"] |})).
Proof.
  split; [reflexivity |].
  destruct (provider_toggle_flips_one
              "Provider Z"
              {| sortBy := oldest; f_visitType := all;
                 providers := ["Provider X"; "Provider Y"] |})
    as (_ & _ & _ & _ & H).
  apply H. simpl. constructor.
  - intros [E | E]; [discriminate E | exact E].
  - constructor; [intros E; exact E | constructor].
Defined.

Lemma retains_by_membership (toLowerCase : string -> string) (q : string)
      (f f' : Filters) (v : Visit) :
  f_visitType f = f_visitType f' ->
  (providers f = [] <-> providers f' = []) ->
  (In (currentProvider v) (providers f)
   <-> In (currentProvider v) (providers f')) ->
  VisitList.retains toLowerCase q f v = VisitList.retains toLowerCase q f' v.
Proof.
  intros Ht He Hi.
  destruct (VisitList.retains toLowerCase q f v) eqn:E1;
    destruct (VisitList.retains toLowerCase q f' v) eqn:E2; try reflexivity.
  - apply retains_spec in E1.
    assert (H : retained toLowerCase q f' v).
    { destruct E1 as (A & B & C). split; [rewrite <- Ht; exact A |].
      split; [| exact C]. tauto. }
    apply retains_spec in H. congruence.
  - apply retains_spec in E2.
    assert (H : retained toLowerCase q f v).
    { destruct E2 as (A & B & C). split; [rewrite Ht; exact A |].
      split; [| exact C]. tauto. }
    apply retains_spec in H. congruence.
Qed.

(** X9.  Ticking a provider's checkbox twice leaves the effect of the
    filter unchanged: the engine lists the same visits in the same order;
    and when the provider was not selected to begin with, the filters are
    exactly what they were. *)
Theorem provider_toggle_twice :
  forall (toLowerCase : string -> string) (getTime : string -> option Z)
         (visits : list Visit) (q p : string) (f : Filters),
    let f2 := FilterModal.handleProviderToggle
                p (FilterModal.handleProviderToggle p f) in
    VisitList.filteredVisits toLowerCase getTime visits q f2
    = VisitList.filteredVisits toLowerCase getTime visits q f
    /\ (~ In p (providers f) -> f2 = f).
Proof.
  intros toLowerCase getTime visits q p f f2.
  assert (Hnot : ~ In p (providers f) -> f2 = f).
  { intros Hn. unfold f2, FilterModal.handleProviderToggle. simpl.
    apply array_includes_false in Hn. rewrite Hn.
    assert (Hi : JS.array_includes (providers f ++ [p]) p = true).
    { apply array_includes_spec, in_or_app. right. left. reflexivity. }
    rewrite Hi. apply array_includes_false in Hn.
    rewrite filter_app. simpl. rewrite String.eqb_refl. simpl.
    rewrite app_nil_r, filter_all.
    - destruct f; reflexivity.
    - intros x Hx. apply negb_true_iff, String.eqb_neq. congruence. }
  split; [| exact Hnot].
  destruct (JS.array_includes (providers f) p) eqn:E.
  - (* selected before: removed, then appended at the end *)
    assert (Hp : providers f2
                 = filter (fun x => negb (x =? p)) (providers f) ++ [p]).
    { unfold f2, FilterModal.handleProviderToggle. simpl. rewrite E.
      assert (Hn : JS.array_includes
                     (filter (fun x => negb (x =? p)) (providers f)) p
                   = false).
      { apply array_includes_false. rewrite in_remove_provider.
        intros [_ H]. apply H. reflexivity. }
      rewrite Hn. reflexivity. }
    apply array_includes_spec in E.
    unfold VisitList.filteredVisits.
    assert (Hc : forall a b, VisitList.compareVisits getTime f2 a b
                             = VisitList.compareVisits getTime f a b)
      by reflexivity.
    assert (Hr : forall v, VisitList.retains toLowerCase q f2 v
                           = VisitList.retains toLowerCase q f v).
    { intros v. apply retains_by_membership.
      - reflexivity.
      - rewrite Hp. split; intros H.
        + destruct (filter _ (providers f)); discriminate H.
        + rewrite H in E. contradiction.
      - rewrite Hp, in_app_iff, in_remove_provider. simpl. split.
        + intros [[H _] | [<- | H]]; [exact H | exact E | contradiction].
        + intros H. destruct (string_dec (currentProvider v) p) as [-> | Hne].
          * right. left. reflexivity.
          * left. split; assumption. }
    rewrite (filter_ext _ _ Hr).
    generalize (filter (VisitList.retains toLowerCase q f) visits). intros l.
    induction l as [| x l IH]; [reflexivity |]. simpl. rewrite IH.
    generalize (JS.sort (VisitList.compareVisits getTime f) l). intros s.
    induction s as [| y s IHs]; [reflexivity |]. simpl.
    unfold JS.SortCompare. rewrite Hc, IHs. reflexivity.
  - apply array_includes_false in E. rewrite (Hnot E). reflexivity.
Qed.

Lemma provider_toggle_twice_witness :
  FilterModal.handleProviderToggle
    "Provider X"
    (FilterModal.handleProviderToggle "Provider X" VisitList.initialFilters)
  = VisitList.initialFilters.
Proof.
  destruct (provider_toggle_twice
              Sample.toLowerCase Sample.getTime Sample.store "" "Provider X"
              VisitList.initialFilters) as [_ H].
  apply H. intros F. exact F.
Defined.

Lemma toggle_NoDup (p : string) (f : Filters) :
  NoDup (providers f) ->
  NoDup (providers (FilterModal.handleProviderToggle p f)).
Proof.
  intros Hnd. unfold FilterModal.handleProviderToggle. simpl.
  destruct (JS.array_includes (providers f) p) eqn:E.
  - apply NoDup_filter. exact Hnd.
  - apply array_includes_false in E.
    apply NoDup_app; [exact Hnd | repeat constructor; auto |].
    intros x Hx [<- | H]; [contradiction | exact H].
Qed.

Section ModalFacts.
Variable PROVIDERS : list string.

Let fire := FilterModal.fire PROVIDERS.
Let run := FilterModal.run PROVIDERS.
Let tidy := FilterModal.tidy PROVIDERS.

Lemma initial_tidy : tidy VisitList.initialFilters.
Proof.
  split; [constructor | intros x H; contradiction].
Qed.

Lemma toggle_tidy (p : string) (f : Filters) :
  JS.array_includes PROVIDERS p = true -> tidy f ->
  tidy (FilterModal.handleProviderToggle p f).
Proof.
  intros Hp [Hnd Hin]. split.
  - apply toggle_NoDup. exact Hnd.
  - intros x Hx. unfold FilterModal.handleProviderToggle in Hx. simpl in Hx.
    destruct (JS.array_includes (providers f) p).
    + apply in_remove_provider in Hx. apply Hin, Hx.
    + apply in_app_iff in Hx. destruct Hx as [Hx | [<- | Hx]].
      * apply Hin, Hx.
      * apply array_includes_spec. exact Hp.
      * contradiction.
Qed.

Lemma fire_tidy (e : FilterModal.event) (s s' : FilterModal.Screen) :
  tidy (ListScreen.activeFilters (FilterModal.screen s)) ->
  tidy (FilterModal.localFilters s) ->
  fire e s = Some s' ->
  tidy (ListScreen.activeFilters (FilterModal.screen s'))
  /\ tidy (FilterModal.localFilters s').
Proof.
  intros Ha Hl Hf. unfold fire, FilterModal.fire in Hf.
  destruct e;
    destruct (ListScreen.isFilterModalOpen (FilterModal.screen s));
    simpl in Hf; try discriminate Hf;
    try (injection Hf as <-; simpl; split; try assumption;
         apply initial_tidy).
  destruct (JS.array_includes PROVIDERS provider) eqn:Ep;
    [| discriminate Hf].
  injection Hf as <-. simpl. split; [exact Ha |].
  apply toggle_tidy; assumption.
Qed.

(** X10.  Whatever is done on the list screen and in the filter modal,
    the providers of the active filters and of the modal's own copy are
    always providers of the [PROVIDERS] list, each selected at most
    once. *)
Theorem filters_stay_tidy :
  forall (events : list FilterModal.event) (s : FilterModal.Screen),
    run events FilterModal.initialScreen = Some s ->
    tidy (ListScreen.activeFilters (FilterModal.screen s))
    /\ tidy (FilterModal.localFilters s).
Proof.
  intros events.
  assert (H : forall s0 s,
             tidy (ListScreen.activeFilters (FilterModal.screen s0)) ->
             tidy (FilterModal.localFilters s0) ->
             run events s0 = Some s ->
             tidy (ListScreen.activeFilters (FilterModal.screen s))
             /\ tidy (FilterModal.localFilters s)).
  { induction events as [| e events IH]; simpl; intros s0 s Ha Hl Hr.
    - injection Hr as <-. split; assumption.
    - unfold run in Hr. simpl in Hr.
      destruct (FilterModal.fire PROVIDERS e s0) as [s1 |] eqn:F;
        [| discriminate Hr].
      destruct (fire_tidy e s0 s1 Ha Hl F) as [Ha1 Hl1].
      apply (IH s1 s Ha1 Hl1 Hr). }
  intros s Hr.
  apply (H FilterModal.initialScreen s); try exact Hr; apply initial_tidy.
Qed.

Lemma run_app (l1 l2 : list FilterModal.event) (s : FilterModal.Screen) :
  run (l1 ++ l2) s
  = match run l1 s with
    | Some s1 => run l2 s1
    | None => None
    end.
Proof.
  revert s. induction l1 as [| e l1 IH]; intros s; [reflexivity |].
  unfold run. simpl. destruct (FilterModal.fire PROVIDERS e s);
    [apply IH | reflexivity].
Qed.

Lemma run_edits (edits : list FilterModal.event) :
  forall s s',
    forallb FilterModal.is_edit edits = true ->
    run edits s = Some s' ->
    FilterModal.screen s' = FilterModal.screen s
    /\ FilterModal.localFilters s'
       = fold_left FilterModal.edit edits (FilterModal.localFilters s).
Proof.
  induction edits as [| e edits IH]; simpl; intros s s' He Hr.
  - injection Hr as <-. split; reflexivity.
  - apply andb_true_iff in He. destruct He as [He Hes].
    unfold run in Hr. simpl in Hr.
    destruct (FilterModal.fire PROVIDERS e s) as [s1 |] eqn:F;
      [| discriminate Hr].
    destruct (IH s1 s' Hes Hr) as [Hs Hl].
    assert (H1 : FilterModal.screen s1 = FilterModal.screen s
                 /\ FilterModal.localFilters s1
                    = FilterModal.edit (FilterModal.localFilters s) e).
    { unfold FilterModal.fire in F.
      destruct e; try discriminate He;
        destruct (ListScreen.isFilterModalOpen (FilterModal.screen s));
        simpl in F; try discriminate F.
      - injection F as <-. split; reflexivity.
      - injection F as <-. split; reflexivity.
      - destruct (JS.array_includes PROVIDERS provider);
          [| discriminate F].
        injection F as <-. split; reflexivity. }
    destruct H1 as [H1s H1l]. rewrite Hs, Hl, H1s, H1l.
    split; reflexivity.
Qed.

(** X11.  Edits made in the filter modal take effect only through Apply.
    Opening the modal, editing and closing it leaves the list screen
    exactly as it was; ending with Apply instead makes the active filters
    the result of the edits on the filters that were active, closes the
    modal and keeps the search; ending with Clear makes them the initial
    filters. *)
Theorem modal_edits_need_apply :
  forall (edits : list FilterModal.event) (s : FilterModal.Screen),
    ListScreen.isFilterModalOpen (FilterModal.screen s) = false ->
    forallb FilterModal.is_edit edits = true ->
    (forall s',
        run (FilterModal.OpenFilters :: edits ++ [FilterModal.CloseFilters]) s
        = Some s' ->
        FilterModal.screen s' = FilterModal.screen s)
    /\ (forall s',
          run (FilterModal.OpenFilters :: edits ++ [FilterModal.ApplyFilters])
              s = Some s' ->
          ListScreen.activeFilters (FilterModal.screen s')
          = fold_left FilterModal.edit edits
                      (ListScreen.activeFilters (FilterModal.screen s))
          /\ ListScreen.isFilterModalOpen (FilterModal.screen s') = false
          /\ ListScreen.searchQuery (FilterModal.screen s')
             = ListScreen.searchQuery (FilterModal.screen s))
    /\ (forall s',
          run (FilterModal.OpenFilters :: edits ++ [FilterModal.ClearFilters])
              s = Some s' ->
          ListScreen.activeFilters (FilterModal.screen s')
          = VisitList.initialFilters
          /\ ListScreen.isFilterActive
               (ListScreen.activeFilters (FilterModal.screen s')) = false).
Proof.
  intros edits s Hclosed Hedits.
  assert (Hopen : forall last s',
             run (FilterModal.OpenFilters :: edits ++ [last]) s = Some s' ->
             exists s2,
               FilterModal.screen s2
               = ListScreen.setFilterModalOpen true (FilterModal.screen s)
               /\ FilterModal.localFilters s2
                  = fold_left FilterModal.edit edits
                              (ListScreen.activeFilters
                                 (FilterModal.screen s))
               /\ fire last s2 = Some s').
  { intros last s' Hr. unfold run in Hr. simpl in Hr.
    rewrite Hclosed in Hr.
    change (FilterModal.run PROVIDERS (edits ++ [last]))
      with (run (edits ++ [last])) in Hr.
    rewrite run_app in Hr.
    destruct (run edits _) as [s2 |] eqn:E; [| discriminate Hr].
    destruct (run_edits edits _ s2 Hedits E) as [Hs Hl].
    exists s2. simpl in Hs, Hl. split; [exact Hs |]. split; [exact Hl |].
    unfold run in Hr. simpl in Hr.
    destruct (FilterModal.fire PROVIDERS last s2) as [s3 |] eqn:F;
      [| discriminate Hr].
    injection Hr as <-. exact F. }
  split; [| split].
  - intros s' Hr. destruct (Hopen _ _ Hr) as (s2 & Hs & _ & F).
    unfold fire, FilterModal.fire in F. rewrite Hs in F. simpl in F.
    injection F as <-. simpl. rewrite <- Hclosed.
    destruct (FilterModal.screen s); reflexivity.
  - intros s' Hr. destruct (Hopen _ _ Hr) as (s2 & Hs & Hl & F).
    unfold fire, FilterModal.fire in F. rewrite Hs in F. simpl in F.
    injection F as <-. simpl. rewrite Hl.
    split; [reflexivity |]. split; reflexivity.
  - intros s' Hr. destruct (Hopen _ _ Hr) as (s2 & Hs & _ & F).
    unfold fire, FilterModal.fire in F. rewrite Hs in F. simpl in F.
    injection F as <-. simpl. split; reflexivity.
Qed.
End ModalFacts.

(** ** The navigation controller on its own events *)

Lemma findVisit_listed (i : string) (vs : list Visit) :
  In i (map id vs) -> exists v, App.findVisit i vs = Some v.
Proof.
  intros Hin. apply in_map_iff in Hin. destruct Hin as (w & E & Hw).
  unfold App.findVisit.
  destruct (find (fun v => id v =? i) vs) as [v |] eqn:F.
  - exists v. reflexivity.
  - exfalso. pose proof (find_none _ _ F w Hw) as H. simpl in H.
    apply String.eqb_neq in H. contradiction.
Qed.

Lemma selectedVisit_backed (st : App.State) (i : string) :
  Forall identified (App.visits st) ->
  App.selectedVisitId st = Some i ->
  In i (map id (App.visits st)) ->
  exists v, App.selectedVisit st = Some v.
Proof.
  intros Hid Hsel Hin. unfold App.selectedVisit. rewrite Hsel. simpl.
  assert (Hne : JS.truthy_string i = true).
  { apply truthy_string_true. apply in_map_iff in Hin.
    destruct Hin as (w & <- & Hw). rewrite Forall_forall in Hid.
    apply (Hid w Hw). }
  rewrite Hne. simpl. apply findVisit_listed. exact Hin.
Qed.

Lemma merged_identified (now i : string) (d : Draft) (v : Visit) :
  i <> "" -> d_businessName d <> "" -> identified v ->
  identified (App.merged now i d v).
Proof.
  intros Hi Hb (_ & _ & Ht). repeat split; assumption.
Qed.

Lemma saved_identified (env : App.Env) (d : Draft) (st : App.State) :
  JS.truthy_string (App.now env) = true ->
  JS.truthy_string (App.now_again env) = true ->
  d_businessName d <> "" ->
  Forall identified (App.visits st) ->
  Forall identified (App.visits (result (App.handleSaveVisit env d st))).
Proof.
  intros Hn Hna Hb Hid.
  apply truthy_string_true in Hn. apply truthy_string_true in Hna.
  assert (Hnew : identified
                   (App.newVisit (App.now env ++ App.random env)
                                 (App.now_again env) d)).
  { repeat split; simpl; try assumption. apply append_nonempty. exact Hn. }
  unfold App.handleSaveVisit, result, ret. simpl.
  destruct (d_id d) as [i |]; [| constructor; assumption].
  destruct (JS.truthy_string i) eqn:Ei; [| constructor; assumption].
  apply truthy_string_true in Ei.
  rewrite Forall_forall in *. intros w Hw. apply in_map_iff in Hw.
  destruct Hw as (v & <- & Hv).
  destruct (id v =? i); [| apply Hid; exact Hv].
  apply merged_identified; try assumption. apply Hid. exact Hv.
Qed.

Section OnScreen.
Variable trim : string -> string.
Variable parseFloat : string -> JS.number.
Variable dateToISOString : string -> option string.

Let fire := Navigation.fire trim parseFloat dateToISOString.
Let run := Navigation.run trim parseFloat dateToISOString.

Ltac shape_list := split; [assumption | simpl; split; reflexivity].

Lemma fire_well_formed (e : Navigation.event) (st st' : App.State) :
  from_screen e = true ->
  well_formed st -> fire e st = Some st' -> well_formed st'.
Proof.
  intros He [Hid Hshape] Hf. unfold from_screen in He.
  apply andb_true_iff in He. destruct He as [Hb Hclock].
  unfold fire, Navigation.fire in Hf.
  destruct e; try discriminate Hb;
    destruct (App.renderContent st) as [| v | o | vs] eqn:R;
    try discriminate Hf.
  - (* SelectVisit *)
    destruct (Navigation.listed i vs) eqn:L; [| discriminate Hf].
    injection Hf as <-. apply render_list in R. destruct R as [Hl ->].
    rewrite Hl in Hshape. destruct Hshape as [_ Hed].
    split; [exact Hid |]. simpl. split; [exact Hed |].
    exists i. split; [reflexivity | apply listed_In; exact L].
  - (* NewVisit *)
    injection Hf as <-. split; [exact Hid |]. simpl. left.
    split; reflexivity.
  - (* EditVisitFromList *)
    destruct (Navigation.listed i vs) eqn:L; [| discriminate Hf].
    injection Hf as <-. apply render_list in R. destruct R as [_ ->].
    split; [exact Hid |]. simpl. right. split; [reflexivity |].
    exists i. split; [reflexivity | apply listed_In; exact L].
  - (* DeleteVisitFromList *)
    destruct (Navigation.listed i vs); [| discriminate Hf].
    injection Hf as <-. apply render_list in R. destruct R as [Hl _].
    rewrite Hl in Hshape. destruct Hshape as [Hsel Hed].
    unfold App.handleDeleteVisit, result, confirm, bind. simpl.
    destruct answer; simpl.
    + unfold App.selected_is. rewrite Hsel. simpl. split.
      * simpl. rewrite Forall_forall in *. intros w Hw.
        apply filter_In in Hw. apply Hid, Hw.
      * simpl. rewrite Hl. split; [reflexivity | assumption].
    + split; [exact Hid |]. rewrite Hl. split; assumption.
  - (* Back *)
    injection Hf as <-. apply render_detail in R. destruct R as [Hd _].
    rewrite Hd in Hshape. destruct Hshape as [Hed _].
    unfold App.handleGoBack. rewrite Hd. split; [exact Hid |].
    simpl. split; [reflexivity | exact Hed].
  - (* Edit *)
    injection Hf as <-. apply render_detail in R. destruct R as [Hd Hs].
    rewrite Hd in Hshape. destruct Hshape as [_ Hex].
    unfold App.handleEditVisit. rewrite Hs. split; [exact Hid |].
    simpl. right. split; [reflexivity | exact Hex].
  - (* Delete *)
    injection Hf as <-. apply render_detail in R. destruct R as [Hd Hs].
    rewrite Hd in Hshape. destruct Hshape as [Hed Hex].
    apply selectedVisit_found in Hs. destruct Hs as [_ Hsel].
    unfold App.handleDeleteVisit, result, confirm, bind. simpl.
    destruct answer; simpl.
    + unfold App.selected_is. rewrite Hsel, String.eqb_refl. simpl. split.
      * simpl. rewrite Forall_forall in *. intros w Hw.
        apply filter_In in Hw. apply Hid, Hw.
      * simpl. split; [reflexivity | exact Hed].
    + split; [exact Hid |]. rewrite Hd. split; assumption.
  - (* ToggleRevisitSuccess *)
    injection Hf as <-. apply render_detail in R. destruct R as [Hd _].
    rewrite Hd in Hshape. split.
    + simpl. rewrite Forall_forall in *. intros w Hw.
      apply in_map_iff in Hw. destruct Hw as (u & <- & Hu).
      destruct (id u =? id v); [| apply Hid; exact Hu].
      destruct (Hid u Hu) as (A & B & C). repeat split; assumption.
    + simpl. rewrite Hd, toggle_keeps_ids. exact Hshape.
  - (* Save *)
    injection Hf as <-. simpl in Hclock.
    apply andb_true_iff in Hclock. destruct Hclock as [Hn Hna].
    unfold VisitForm.submit, VisitForm.handleSubmit.
    destruct (JS.truthy_string (VisitForm.fd_businessName formData)) eqn:Eb;
      cbn [negb]; [| simpl; split; assumption].
    destruct (VisitForm.toDraft _ _ _ _ _) as [d |] eqn:Ed;
      [| simpl; split; assumption].
    destruct (toDraft_fields _ _ _ _ _ _ Ed) as (_ & Hb' & _).
    split.
    + apply saved_identified; try assumption.
      rewrite Hb'. apply truthy_string_true. exact Eb.
    + simpl. split; reflexivity.
  - (* Cancel *)
    injection Hf as <-. apply render_form in R.
    rewrite R in Hshape. unfold App.handleGoBack. rewrite R.
    split; [exact Hid |]. simpl.
    destruct Hshape as [[Hed Hsel] | [Hed Hex]]; rewrite Hed.
    + simpl. split; [exact Hsel | reflexivity].
    + destruct Hex as (i & Hsel & Hin).
      destruct (selectedVisit_backed st i Hid Hsel Hin) as [w Hw].
      rewrite Hw. simpl. split; [reflexivity |].
      exists i. split; assumption.
Qed.

Lemma well_formed_rendered (st : App.State) :
  well_formed st -> App.renderContent st <> App.Nothing.
Proof.
  intros [Hid Hshape]. unfold App.renderContent.
  destruct (App.view st); try (intros E; discriminate E).
  destruct Hshape as [_ (i & Hsel & Hin)].
  destruct (selectedVisit_backed st i Hid Hsel Hin) as [w Hw].
  rewrite Hw. intros E. discriminate E.
Qed.

(** X12.  Started on a store whose records all have a non-empty id,
    business name and timestamp, and as long as the stored collection is
    changed by the handlers of [App] only (select, new, edit, delete,
    toggle, save, cancel and back, with non-empty clock readings: no
    import, which replaces the collection from outside these handlers
    and in whatever view it completes), the application is always in one
    of four situations: the list with nothing selected, the detail view
    of a stored record, the edit form of a stored record, or the form
    for a new visit.  Every stored record keeps a non-empty id, business
    name and timestamp, and the screen is never blank. *)
Theorem screen_events_keep_state_well_formed :
  forall (stored : list Visit) (events : list Navigation.event)
         (st : App.State),
    Forall identified stored ->
    forallb from_screen events = true ->
    run events (App.initialState stored) = Some st ->
    well_formed st /\ App.renderContent st <> App.Nothing.
Proof.
  intros stored events st Hid Hev Hr.
  assert (H : forall s0, well_formed s0 -> run events s0 = Some st ->
                         well_formed st).
  { clear Hr. induction events as [| e events IH]; simpl;
      intros s0 Hw Hr.
    - injection Hr as <-. exact Hw.
    - simpl in Hev. apply andb_true_iff in Hev. destruct Hev as [He Hev].
      unfold run in Hr. simpl in Hr.
      destruct (Navigation.fire trim parseFloat dateToISOString e s0)
        as [s1 |] eqn:F; [| discriminate Hr].
      apply (IH Hev s1); [| exact Hr].
      apply (fire_well_formed e s0 s1 He Hw F). }
  assert (Hw : well_formed st).
  { apply (H (App.initialState stored)); [| exact Hr].
    split; [exact Hid | simpl; split; reflexivity]. }
  split; [exact Hw | apply well_formed_rendered; exact Hw].
Qed.
End OnScreen.

(** ** Going into a view and back *)

(** X13.  Leaving a view by its back or cancel control undoes entering
    it: from the list, selecting a visit and going back, or opening the
    new-visit form and cancelling, gives the state before; from the
    detail view, opening the edit form and cancelling gives the state
    before.  The edit form opened from the list is the exception: its
    cancel leads to the detail view of that visit, not back to the
    list. *)
Theorem cancel_undoes_navigation :
  forall (st : App.State),
    well_formed st ->
    (App.view st = App.list_view ->
     (forall i,
         result (App.handleGoBack (result (App.handleSelectVisit i st)))
         = st)
     /\ result (App.handleGoBack (result (App.handleNewVisit st))) = st
     /\ (forall i,
           In i (map id (App.visits st)) ->
           result (App.handleGoBack
                     (result (App.handleEditVisitFromList i st)))
           = result (App.handleSelectVisit i st)))
    /\ (App.view st = App.detail_view ->
        App.view (result (App.handleEditVisit st)) = App.form_view
        /\ result (App.handleGoBack (result (App.handleEditVisit st)))
           = st).
Proof.
  intros st [Hid Hshape]. split.
  - intros Hl. rewrite Hl in Hshape. destruct Hshape as [Hsel Hed].
    split; [| split].
    + intros i. unfold App.handleSelectVisit, App.handleGoBack, result, ret.
      simpl. rewrite <- Hsel, <- Hl. apply state_eta.
    + unfold App.handleNewVisit, App.handleGoBack, result, ret. simpl.
      rewrite <- Hsel, <- Hl, <- Hed. apply state_eta.
    + intros i Hin.
      set (st1 := result (App.handleEditVisitFromList i st)).
      assert (Hs : exists w, App.selectedVisit st1 = Some w).
      { apply (selectedVisit_backed st1 i); [exact Hid | reflexivity |].
        exact Hin. }
      destruct Hs as [w Hw].
      unfold App.handleGoBack. change (App.view st1) with App.form_view.
      cbv iota. rewrite Hw. unfold st1. simpl. rewrite Hed. reflexivity.
  - intros Hd. rewrite Hd in Hshape. destruct Hshape as [Hed Hex].
    destruct Hex as (i & Hsel & Hin).
    destruct (selectedVisit_backed st i Hid Hsel Hin) as [w Hw].
    unfold App.handleEditVisit. rewrite Hw. split; [reflexivity |].
    set (st1 := result (ret {| App.visits := App.visits st;
                               App.view := App.form_view;
                               App.selectedVisitId := App.selectedVisitId st;
                               App.isEditing := true |})).
    assert (Hw1 : App.selectedVisit st1 = Some w) by exact Hw.
    unfold App.handleGoBack. change (App.view st1) with App.form_view.
    cbv iota. rewrite Hw1. unfold st1. simpl.
    rewrite <- Hd, <- Hed. apply state_eta.
Qed.

(** ** How the repository operations compose *)


(** X14.  Creating a visit and then deleting it by its new id gives the
    collection without the records that already had that id; when the
    generated id was not in use, this is exactly the collection before. *)
Theorem create_then_delete :
  forall (env : App.Env) (d : Draft) (st : App.State),
    d_id d = None ->
    let newId := (App.now env ++ App.random env)%string in
    let st2 := result (App.handleDeleteVisit
                         true newId
                         (result (App.handleSaveVisit env d st))) in
    App.visits st2
    = filter (fun v => negb (id v =? newId)) (App.visits st)
    /\ (~ In newId (map id (App.visits st)) ->
        App.visits st2 = App.visits st).
Proof.
  intros env d st Hd newId st2.
  assert (H : App.visits st2
              = filter (fun v => negb (id v =? newId)) (App.visits st)).
  { unfold st2, App.handleDeleteVisit, App.handleSaveVisit, result,
      confirm, bind, ret. simpl. rewrite Hd. simpl.
    fold newId. rewrite String.eqb_refl. reflexivity. }
  split; [exact H |]. intros Hn. rewrite H. apply filter_all.
  intros v Hv. rewrite (id_not_listed newId _ v Hn Hv). reflexivity.
Qed.

Lemma create_then_delete_witness :
  App.visits
    (result (App.handleDeleteVisit
               true (App.now Sample.env ++ App.random Sample.env)%string
               (result (App.handleSaveVisit Sample.env (Sample.draft None)
                                            Sample.listState))))
  = Sample.store.
Proof.
  destruct (create_then_delete Sample.env (Sample.draft None)
                               Sample.listState eq_refl) as [_ H].
  apply H. exact fresh_sample_id.
Defined.


(** ** The form opened on a visit *)

Lemma selectedVisit_truthy (st : App.State) (v : Visit) :
  App.selectedVisit st = Some v -> id v <> "".
Proof.
  unfold App.selectedVisit, App.findVisit.
  destruct (App.selectedVisitId st) as [i |]; simpl;
    [| intros H; discriminate H].
  destruct (JS.truthy_string i) eqn:Ei; simpl; [| intros H; discriminate H].
  intros H. apply find_some in H. destruct H as [_ E].
  apply String.eqb_eq in E. rewrite E. apply truthy_string_true. exact Ei.
Qed.

Lemma render_edit_form (st : App.State) (v : Visit) :
  App.renderContent st = App.VisitForm (Some v) ->
  (if App.isEditing st then App.selectedVisit st else None) = Some v
  /\ App.selectedVisit st = Some v.
Proof.
  unfold App.renderContent. destruct (App.view st); intros H.
  - discriminate H.
  - destruct (App.selectedVisit st); discriminate H.
  - injection H as H. split; [exact H |].
    destruct (App.isEditing st); [exact H | discriminate H].
Qed.

Section UnchangedForm.
Variable trim : string -> string.
Variable parseFloat : string -> JS.number.
Variable dateToISOString : string -> option string.
Variable numberToString : JS.number -> string.
Variable localTime : string -> option FormInit.LocalTime.

Let submit := VisitForm.submit trim parseFloat dateToISOString.
Let mounted := FormInit.mounted numberToString localTime.
Let read_back := revisit_read_back dateToISOString localTime.

Lemma numberOrNull_round_trip (n : option JS.number) :
  trim "" = "" ->
  (forall x, n = Some x ->
             trim (numberToString x) <> ""
             /\ parseFloat (numberToString x) = x) ->
  VisitForm.numberOrNull trim parseFloat
                         (FormInit.numberField numberToString n) = n.
Proof.
  intros Ht Hx. unfold VisitForm.numberOrNull, FormInit.numberField.
  destruct n as [x |].
  - destruct (Hx x eq_refl) as [Hne Hp].
    apply String.eqb_neq in Hne. rewrite Hne, Hp. reflexivity.
  - rewrite Ht. reflexivity.
Qed.

Lemma formatDate_truthy (date : option FormInit.LocalTime) :
  JS.truthy_string (FormInit.formatDate date) = true.
Proof.
  destruct date as [d |]; [| reflexivity].
  unfold FormInit.formatDate, FormInit.formatForDateTimeLocal.
  destruct (FormInit.toString_Z (FormInit.getFullYear d)); reflexivity.
Qed.

(** What the submit handler makes of the revisit date of the form opened
    on a visit. *)
Lemma revisitDateOf_mounted (v : Visit) :
  VisitForm.revisitDateOf dateToISOString (mounted (Some v))
  = match read_back v with
    | Some kept => Normal kept
    | None => Throw "Invalid time value"
    end.
Proof.
  unfold VisitForm.revisitDateOf, read_back, revisit_read_back. simpl.
  destruct (revisitDate v) as [r |]; [| reflexivity].
  destruct (JS.truthy_string r); [| reflexivity].
  rewrite formatDate_truthy.
  destruct (dateToISOString (FormInit.formatDate (localTime r)));
    reflexivity.
Qed.

(** X16.  Opening the edit form on a visit and saving it untouched shows
    no dialog.  When the revisit date of the visit is absent, empty, or
    text that the form reads and converts back as a date, the visit is
    kept: the record keeps its id, timestamp and revisit-success flag,
    gets the clock reading as [lastModified], has the visit's business
    name, contact person, owner name, provider, address, notes and visit
    type, and as revisit date what was read back; an absent owner
    contact becomes the empty string; a number field that is empty stays
    empty, and one that is set survives when [parseFloat] reads back
    what [String] wrote; the list is displayed.  When the revisit date
    is text that is no date, the submit handler throws and nothing is
    saved. *)
Theorem saving_untouched_form_keeps_visit :
  forall (env : App.Env) (st : App.State) (v : Visit),
    App.renderContent st = App.VisitForm (Some v) ->
    businessName v <> "" ->
    trim "" = "" ->
    let out := submit env (mounted (Some v)) st in
    dialogs out = []
    /\ (revisitDate v = None -> read_back v = Some None)
    /\ (read_back v = None ->
        (exists m, result out = Throw m) /\ settled st (result out) = st)
    /\ (forall kept, read_back v = Some kept ->
        exists st',
          result out = Normal st'
          /\ App.view st' = App.list_view
          /\ forall n w,
               nth_error (App.visits st) n = Some w -> id w = id v ->
               exists w',
                 nth_error (App.visits st') n = Some w'
                 /\ id w' = id v
                 /\ timestamp w' = timestamp w
                 /\ isRevisitSuccessful w' = isRevisitSuccessful w
                 /\ lastModified w' = Some (App.now env)
                 /\ businessName w' = businessName v
                 /\ contactPerson w' = contactPerson v
                 /\ ownerName w' = ownerName v
                 /\ currentProvider w' = currentProvider v
                 /\ address w' = address v
                 /\ notes w' = notes v
                 /\ visitType w' = visitType v
                 /\ ownerContact w' = Some (JS.or_string (ownerContact v) "")
                 /\ ((forall x, numberOfPhones v = Some x ->
                                trim (numberToString x) <> ""
                                /\ parseFloat (numberToString x) = x) ->
                     numberOfPhones w' = numberOfPhones v)
                 /\ ((forall x, estimatedMonthlyPayment v = Some x ->
                                trim (numberToString x) <> ""
                                /\ parseFloat (numberToString x) = x) ->
                     estimatedMonthlyPayment w' = estimatedMonthlyPayment v)
                 /\ revisitDate w' = kept).
Proof.
  intros env st v Hr Hname Htrim out.
  destruct (render_edit_form st v Hr) as [Hinit Hsel].
  pose proof (selectedVisit_truthy st v Hsel) as Hid.
  apply truthy_string_true in Hname.
  assert (Hout : out
                 = match VisitForm.toDraft trim parseFloat dateToISOString
                                           (mounted (Some v)) (Some v) with
                   | Throw m => (Throw m, [])
                   | Normal d =>
                       (Normal (result (App.handleSaveVisit env d st)), [])
                   end).
  { unfold out, submit, VisitForm.submit, VisitForm.handleSubmit.
    rewrite Hinit.
    assert (Hb : JS.truthy_string
                   (VisitForm.fd_businessName (mounted (Some v))) = true)
      by exact Hname.
    rewrite Hb. simpl negb. cbv iota.
    destruct (VisitForm.toDraft _ _ _ _ _); reflexivity. }
  assert (Hd : VisitForm.toDraft trim parseFloat dateToISOString
                                 (mounted (Some v)) (Some v)
               = match VisitForm.revisitDateOf dateToISOString
                                               (mounted (Some v)) with
                 | Throw m => Throw m
                 | Normal revisit =>
                     Normal
                       {| d_id := Some (id v);
                          d_businessName := businessName v;
                          d_contactPerson := contactPerson v;
                          d_ownerName := ownerName v;
                          d_ownerContact :=
                            present (Some (JS.or_string (ownerContact v) ""));
                          d_numberOfPhones :=
                            VisitForm.numberOrNull
                              trim parseFloat
                              (FormInit.numberField numberToString
                                                    (numberOfPhones v));
                          d_estimatedMonthlyPayment :=
                            VisitForm.numberOrNull
                              trim parseFloat
                              (FormInit.numberField
                                 numberToString
                                 (estimatedMonthlyPayment v));
                          d_currentProvider := currentProvider v;
                          d_address := address v;
                          d_notes := notes v;
                          d_visitType := visitType v;
                          d_revisitDate := present revisit;
                          d_isRevisitSuccessful := absent |}
                 end) by reflexivity.
  rewrite revisitDateOf_mounted in Hd.
  split.
  { rewrite Hout. destruct (VisitForm.toDraft _ _ _ _ _); reflexivity. }
  split.
  { intros Hn. unfold read_back, revisit_read_back. rewrite Hn.
    reflexivity. }
  split.
  - intros Hnone. rewrite Hnone in Hd. rewrite Hout, Hd.
    split; [eexists |]; reflexivity.
  - intros kept Hkept. rewrite Hkept in Hd. rewrite Hout, Hd.
    match type of Hd with _ = Normal ?x => set (d := x) end.
    exists (result (App.handleSaveVisit env d st)).
    split; [reflexivity |]. split; [reflexivity |].
    intros n w Hn Hw.
    assert (Hv := save_edit_visits env d (id v) st eq_refl Hid).
    exists (App.merged (App.now env) (id v) d w). split.
    { rewrite Hv, (nth_error_map_if _ (id v) _ n w Hn).
      apply String.eqb_eq in Hw. rewrite Hw. reflexivity. }
    do 12 (split; [reflexivity |]).
    split; [| split].
    + intros Hx. simpl. apply numberOrNull_round_trip; assumption.
    + intros Hx. simpl. apply numberOrNull_round_trip; assumption.
    + reflexivity.
Qed.
End UnchangedForm.

(** ** The value of the date-and-time input *)






(** ** Swiping a row of the list *)

Lemma actionsWidth_cases (visit : Visit) :
  VisitItem.actionsWidth visit = 160%Z \/ VisitItem.actionsWidth visit = 240%Z.
Proof.
  unfold VisitItem.actionsWidth.
  destruct (JS.truthy_opt_string (revisitDate visit)); [right | left];
    reflexivity.
Qed.

Lemma perform_in_place (visit : Visit) (g : VisitItem.gesture)
      (r : VisitItem.Row) :
  row_in_place visit r ->
  row_in_place visit (fst (VisitItem.perform visit g r)).
Proof.
  intros Hr.
  pose proof (actionsWidth_cases visit) as Hw.
  assert (Hclosed : row_in_place visit (VisitItem.closed r)).
  { exists 0%Z. split; [reflexivity |]. split; [lia |].
    intros _. right. split; reflexivity. }
  destruct g; simpl.
  - (* DragStart *)
    destruct Hr as (t & Ht & Hb & _).
    exists t. split; [exact Ht |]. split; [exact Hb |].
    simpl. intros E. discriminate E.
  - (* DragMove *)
    unfold VisitItem.onDragMove.
    destruct (VisitItem.isDragging (VisitItem.dragState r)); simpl;
      [| exact Hr].
    eexists. split; [reflexivity |]. split.
    + destruct (0 <? _)%Z eqn:E1.
      * destruct (0 <? - (VisitItem.actionsWidth visit + 20))%Z eqn:E2;
          [apply Z.ltb_lt in E2 |]; lia.
      * apply Z.ltb_ge in E1.
        destruct (_ <? - (VisitItem.actionsWidth visit + 20))%Z eqn:E2;
          [| apply Z.ltb_ge in E2]; lia.
    + simpl. intros E. discriminate E.
  - (* DragEnd *)
    unfold VisitItem.onDragEnd.
    destruct (VisitItem.isDragging (VisitItem.dragState r)); simpl;
      [| exact Hr].
    destruct (_ <? - (VisitItem.actionsWidth visit / 2))%Z.
    + eexists. split; [reflexivity |]. split; [lia |].
      intros _. left. split; reflexivity.
    + eexists. split; [reflexivity |]. split; [lia |].
      intros _. right. split; reflexivity.
  - (* Click *)
    unfold VisitItem.handleClick.
    destruct (10 <? Z.abs _)%Z; simpl; [exact Hr |].
    destruct (VisitItem.isOpen r); simpl; [exact Hclosed | exact Hr].
  - (* OtherRowOpened *)
    destruct (VisitItem.isOpen r); [exact Hclosed | exact Hr].
Qed.

Lemma row_in_place_within_travel (visit : Visit) (r : VisitItem.Row) :
  row_in_place visit r -> row_within_travel visit r.
Proof.
  intros (t & Ht & Hb & Hrest). unfold row_within_travel, VisitItem.offset.
  rewrite Ht. split; [exact Hb |].
  intros Hd. destruct (Hrest Hd) as [[Ho E] | [_ E]];
    [left; split; assumption | right; exact E].
Qed.

Lemma perform_within_travel (visit : Visit) (g : VisitItem.gesture)
      (r : VisitItem.Row) :
  row_within_travel visit r ->
  row_within_travel visit (fst (VisitItem.perform visit g r)).
Proof.
  intros Hr.
  pose proof (actionsWidth_cases visit) as Hw.
  assert (Hclosed : row_within_travel visit (VisitItem.closed r)).
  { split; [unfold VisitItem.offset; simpl; lia |].
    intros _. right. reflexivity. }
  destruct g; simpl.
  - (* DragStart *)
    destruct Hr as [Hb _]. split; [exact Hb |].
    simpl. intros E. discriminate E.
  - (* DragMove *)
    unfold VisitItem.onDragMove.
    destruct (VisitItem.isDragging (VisitItem.dragState r)); simpl;
      [| exact Hr].
    split; [| simpl; intros E; discriminate E].
    unfold VisitItem.offset. simpl.
    destruct (0 <? _)%Z eqn:E1.
    + destruct (0 <? - (VisitItem.actionsWidth visit + 20))%Z eqn:E2;
        [apply Z.ltb_lt in E2 |]; lia.
    + apply Z.ltb_ge in E1.
      destruct (_ <? - (VisitItem.actionsWidth visit + 20))%Z eqn:E2;
        [| apply Z.ltb_ge in E2]; lia.
  - (* DragEnd *)
    unfold VisitItem.onDragEnd.
    destruct (VisitItem.isDragging (VisitItem.dragState r)); simpl;
      [| exact Hr].
    destruct (_ <? - (VisitItem.actionsWidth visit / 2))%Z.
    + split; [unfold VisitItem.offset; simpl; lia |].
      intros _. left. split; reflexivity.
    + split; [unfold VisitItem.offset; simpl; lia |].
      intros _. right. reflexivity.
  - (* Click *)
    unfold VisitItem.handleClick.
    destruct (10 <? Z.abs _)%Z; simpl; [exact Hr |].
    destruct (VisitItem.isOpen r); simpl; [exact Hclosed | exact Hr].
  - (* OtherRowOpened *)
    destruct (VisitItem.isOpen r); [exact Hclosed | exact Hr].
Qed.

Lemma performAll_invariant (visit : Visit) (Inv : VisitItem.Row -> Prop) :
  (forall g r, Inv r -> Inv (fst (VisitItem.perform visit g r))) ->
  forall gestures r,
    Inv r -> Inv (fst (VisitItem.performAll visit gestures r)).
Proof.
  intros Hstep gestures.
  induction gestures as [| g gs IH]; simpl; intros r Hr; [exact Hr |].
  pose proof (Hstep g r Hr) as H1.
  destruct (VisitItem.perform visit g r) as [r1 s1]. simpl in H1.
  specialize (IH r1 H1).
  destruct (VisitItem.performAll visit gs r1) as [r2 s2]. exact IH.
Qed.

(** X18.  Whatever is done to a row that shows one visit, whose id no
    other row of the list has, and however it was mounted, it is never
    drawn outside its travel: its offset stays
    between the width of its actions plus twenty pixels of overdrag, to
    the left, and zero; whenever no drag is under way it is drawn fully
    open or fully closed, and fully open only while it is the open row
    of the list.  A row that was mounted closed is, at rest, fully open
    exactly while it is the open row of the list.  A row mounted while
    it is the open row of the list starts fully closed although the list
    has it open. *)
Theorem row_stays_in_place :
  forall (visit : Visit) (gestures : list VisitItem.gesture),
    (forall isOpen,
        row_within_travel
          visit
          (fst (VisitItem.performAll visit gestures
                                     (VisitItem.mounted isOpen))))
    /\ row_in_place
         visit
         (fst (VisitItem.performAll visit gestures
                                    (VisitItem.mounted false)))
    /\ VisitItem.isOpen (VisitItem.mounted true) = true
    /\ VisitItem.offset (VisitItem.mounted true) = 0%Z.
Proof.
  intros visit gestures.
  pose proof (actionsWidth_cases visit) as Hw.
  split; [| split; [| split; reflexivity]].
  - intros isOpen.
    apply performAll_invariant; [apply perform_within_travel |].
    split.
    + destruct isOpen; unfold VisitItem.offset; simpl; lia.
    + intros _. right. destruct isOpen; reflexivity.
  - apply performAll_invariant; [apply perform_in_place |].
    exists 0%Z. split; [reflexivity |]. split; [lia |].
    intros _. right. split; reflexivity.
Qed.

(** A row that is remounted as the open row of the list, and is then
    clicked: the click closes it in the list and selects nothing. *)
Example sample_row_mounted_open :
  VisitItem.performAll Sample.acme [VisitItem.Click]
                       (VisitItem.mounted true)
  = (VisitItem.closed (VisitItem.mounted true), false).
Proof. reflexivity. Qed.

(** X19.  Press, move, release and click on a row at rest.  On a closed
    row the visit is selected exactly when the pointer moved at most ten
    pixels; a move to the left by more than half the width of the actions
    opens the row instead, and any other move leaves it closed.  On an
    open row the visit is never selected: a move of at most ten pixels
    closes the row. *)
Theorem click_or_swipe :
  forall (visit : Visit) (x x' : Z) (r : VisitItem.Row),
    VisitItem.isDragging (VisitItem.dragState r) = false ->
    row_in_place visit r ->
    let gestures :=
      [VisitItem.DragStart x; VisitItem.DragMove x'; VisitItem.DragEnd;
       VisitItem.Click] in
    let after := fst (VisitItem.performAll visit gestures r) in
    let selected := snd (VisitItem.performAll visit gestures r) in
    (VisitItem.isOpen r = false ->
     selected = (Z.abs (x' - x) <=? 10)%Z
     /\ VisitItem.isOpen after
        = (x' - x <? - (VisitItem.actionsWidth visit / 2))%Z)
    /\ (VisitItem.isOpen r = true ->
        selected = false
        /\ ((Z.abs (x' - x) <= 10)%Z ->
            VisitItem.isOpen after = false
            /\ VisitItem.translateX after = Some 0%Z)).
Proof.
  intros visit x x' r Hd (t & Ht & Hb & Hrest) gestures after selected.
  pose proof (actionsWidth_cases visit) as Hw.
  specialize (Hrest Hd).
  unfold after, selected, gestures. simpl.
  unfold VisitItem.onDragMove, VisitItem.onDragStart. simpl.
  unfold VisitItem.onDragEnd. simpl. rewrite Ht.
  unfold VisitItem.handleClick.
  split.
  - intros Hc. destruct Hrest as [[Ho _] | [_ ->]]; [congruence |].
    rewrite Z.add_0_l.
    destruct (x' - x <? - (VisitItem.actionsWidth visit / 2))%Z eqn:E;
      simpl.
    + apply Z.ltb_lt in E.
      assert (Ha : (10 <? Z.abs (x' - x))%Z = true).
      { apply Z.ltb_lt. destruct Hw as [Hw | Hw]; rewrite Hw in E;
          simpl in E; lia. }
      rewrite Ha. simpl. split; [| reflexivity].
      symmetry. apply Z.leb_gt. apply Z.ltb_lt in Ha. exact Ha.
    + destruct (10 <? Z.abs (x' - x))%Z eqn:Ha; simpl.
      * split; [| reflexivity]. symmetry. apply Z.leb_gt.
        apply Z.ltb_lt in Ha. exact Ha.
      * split; [| reflexivity]. symmetry. apply Z.leb_le.
        apply Z.ltb_ge in Ha. exact Ha.
  - intros Ho. destruct Hrest as [[_ ->] | [Hc _]]; [| congruence].
    destruct (- VisitItem.actionsWidth visit + (x' - x)
              <? - (VisitItem.actionsWidth visit / 2))%Z eqn:E; simpl.
    + destruct (10 <? Z.abs (x' - x))%Z eqn:Ha; simpl.
      * split; [reflexivity |]. intros Hle. apply Z.ltb_lt in Ha. lia.
      * split; [reflexivity |]. intros _. split; reflexivity.
    + destruct (10 <? Z.abs (x' - x))%Z eqn:Ha; simpl.
      * split; [reflexivity |]. intros Hle. apply Z.ltb_lt in Ha. lia.
      * exfalso. apply Z.ltb_ge in E, Ha.
        destruct Hw as [Hw | Hw]; rewrite Hw in E;
          [change (160 / 2)%Z with 80%Z in E
          | change (240 / 2)%Z with 120%Z in E];
          clear - E Ha; lia.
Qed.

Lemma click_or_swipe_witness :
  snd (VisitItem.performAll
         Sample.acme
         [VisitItem.DragStart 200; VisitItem.DragMove 203; VisitItem.DragEnd;
          VisitItem.Click]
         (VisitItem.mounted false)) = true
  /\ VisitItem.isOpen
       (fst (VisitItem.performAll
               Sample.acme
               [VisitItem.DragStart 200; VisitItem.DragMove 100;
                VisitItem.DragEnd; VisitItem.Click]
               (VisitItem.mounted false))) = true.
Proof.
  assert (Hp : row_in_place Sample.acme (VisitItem.mounted false)).
  { exists 0%Z. split; [reflexivity |]. split; [vm_compute; split;
                                                 intros E; discriminate E |].
    intros _. right. split; reflexivity. }
  split.
  - destruct (click_or_swipe Sample.acme 200 203 (VisitItem.mounted false)
                             eq_refl Hp) as [H _].
    destruct (H eq_refl) as [Hs _]. rewrite Hs. reflexivity.
  - destruct (click_or_swipe Sample.acme 200 100 (VisitItem.mounted false)
                             eq_refl Hp) as [H _].
    destruct (H eq_refl) as [_ Ho]. rewrite Ho. reflexivity.
Defined.

(** ** Dates in the calendar link and in the export file name *)

Lemma digit_is_not (c x : ascii) :
  VisitItem.isDigit c = false -> VisitItem.isDigit x = true ->
  Ascii.eqb x c = false.
Proof.
  intros Hc Hx. destruct (Ascii.eqb x c) eqn:E; [| reflexivity].
  apply Ascii.eqb_eq in E. subst. congruence.
Qed.

Lemma digits_free_of (c : ascii) (n : nat) (s : string) :
  VisitItem.isDigit c = false -> digits_of_length n s -> free_of c s.
Proof.
  intros Hc [_ Hd]. unfold free_of. clear n.
  induction s as [| x s IH]; [reflexivity |]. simpl in *.
  apply andb_true_iff in Hd. destruct Hd as [Hx Hd].
  rewrite (digit_is_not c x Hc Hx), (IH Hd). reflexivity.
Qed.

Lemma removeDashesAndColons_app (a b : string) :
  VisitItem.removeDashesAndColons (a ++ b)
  = (VisitItem.removeDashesAndColons a
     ++ VisitItem.removeDashesAndColons b)%string.
Proof.
  induction a as [| x a IH]; simpl; [reflexivity |].
  destruct (Ascii.eqb x "-" || Ascii.eqb x ":"); simpl; rewrite IH;
    reflexivity.
Qed.

Lemma removeDashesAndColons_digits (n : nat) (s : string) :
  digits_of_length n s -> VisitItem.removeDashesAndColons s = s.
Proof.
  intros [_ Hd]. clear n. induction s as [| x s IH]; [reflexivity |].
  simpl in *. apply andb_true_iff in Hd. destruct Hd as [Hx Hd].
  rewrite (digit_is_not "-" x eq_refl Hx), (digit_is_not ":" x eq_refl Hx).
  simpl. rewrite (IH Hd). reflexivity.
Qed.

Lemma removeMillis_prefix (a rest : string) :
  free_of "." a ->
  VisitItem.removeMillis (a ++ rest)
  = (a ++ VisitItem.removeMillis rest)%string.
Proof.
  unfold free_of. induction a as [| x a IH]; simpl; intros H;
    [reflexivity |].
  apply andb_true_iff in H. destruct H as [Hx Ha].
  apply negb_true_iff in Hx. rewrite Hx, (IH Ha). reflexivity.
Qed.

Lemma removeMillis_hit (ms rest : string) :
  digits_of_length 3 ms ->
  VisitItem.removeMillis (String "." (ms ++ rest)) = rest.
Proof.
  intros [Hl Hd].
  destruct ms as [| a [| b [| c [| e ms]]]]; try discriminate Hl.
  simpl in Hd. rewrite !andb_true_iff in Hd.
  destruct Hd as (Ha & Hb & Hc & _). simpl. rewrite Ha, Hb, Hc. reflexivity.
Qed.

Lemma beforeFirst_prefix (c : ascii) (a rest : string) :
  free_of c a ->
  ListScreen.beforeFirst c (a ++ rest)
  = (a ++ ListScreen.beforeFirst c rest)%string.
Proof.
  unfold free_of. induction a as [| x a IH]; simpl; intros H;
    [reflexivity |].
  apply andb_true_iff in H. destruct H as [Hx Ha].
  apply negb_true_iff in Hx. rewrite Hx, (IH Ha). reflexivity.
Qed.

Lemma string_app_nil_r (s : string) : (s ++ "")%string = s.
Proof.
  induction s as [| x s IH]; simpl; [reflexivity |]. rewrite IH. reflexivity.
Qed.

(** X20.  When the ISO form of the date is the usual
    [YYYY-MM-DDTHH:mm:ss.sssZ], [formatGoogleCalendarDate] yields
    [YYYYMMDDTHHmmssZ]: the same digits with the dashes, the colons and
    the milliseconds removed. *)
Theorem formatGoogleCalendarDate_compact :
  forall (dateToISOString : string -> string)
         (isoDate y mo d h mi sec ms : string),
    digits_of_length 4 y -> digits_of_length 2 mo -> digits_of_length 2 d ->
    digits_of_length 2 h -> digits_of_length 2 mi ->
    digits_of_length 2 sec -> digits_of_length 3 ms ->
    dateToISOString isoDate
    = (y ++ "-" ++ mo ++ "-" ++ d ++ "T" ++ h ++ ":" ++ mi ++ ":" ++ sec
         ++ "." ++ ms ++ "Z")%string ->
    VisitItem.formatGoogleCalendarDate dateToISOString isoDate
    = (y ++ mo ++ d ++ "T" ++ h ++ mi ++ sec ++ "Z")%string.
Proof.
  intros f isoDate y mo d h mi sec ms Hy Hmo Hd Hh Hmi Hs Hms Hiso.
  unfold VisitItem.formatGoogleCalendarDate. rewrite Hiso.
  rewrite removeDashesAndColons_app, (removeDashesAndColons_digits 4 y Hy).
  simpl.
  rewrite removeDashesAndColons_app, (removeDashesAndColons_digits 2 mo Hmo).
  simpl.
  rewrite removeDashesAndColons_app, (removeDashesAndColons_digits 2 d Hd).
  simpl.
  rewrite removeDashesAndColons_app, (removeDashesAndColons_digits 2 h Hh).
  simpl.
  rewrite removeDashesAndColons_app, (removeDashesAndColons_digits 2 mi Hmi).
  simpl.
  rewrite removeDashesAndColons_app, (removeDashesAndColons_digits 2 sec Hs).
  simpl.
  rewrite removeDashesAndColons_app, (removeDashesAndColons_digits 3 ms Hms).
  simpl.
  rewrite (removeMillis_prefix y)
    by (apply (digits_free_of "." 4); [reflexivity | exact Hy]).
  rewrite (removeMillis_prefix mo)
    by (apply (digits_free_of "." 2); [reflexivity | exact Hmo]).
  rewrite (removeMillis_prefix d)
    by (apply (digits_free_of "." 2); [reflexivity | exact Hd]).
  simpl.
  rewrite (removeMillis_prefix h)
    by (apply (digits_free_of "." 2); [reflexivity | exact Hh]).
  rewrite (removeMillis_prefix mi)
    by (apply (digits_free_of "." 2); [reflexivity | exact Hmi]).
  rewrite (removeMillis_prefix sec)
    by (apply (digits_free_of "." 2); [reflexivity | exact Hs]).
  rewrite (removeMillis_hit ms "Z" Hms). reflexivity.
Qed.

Lemma beforeFirst_date (y mo d rest : string) :
  digits_of_length 4 y -> digits_of_length 2 mo -> digits_of_length 2 d ->
  ListScreen.beforeFirst "T" (y ++ "-" ++ mo ++ "-" ++ d ++ "T" ++ rest)
  = (y ++ "-" ++ mo ++ "-" ++ d)%string.
Proof.
  intros Hy Hmo Hd.
  rewrite (beforeFirst_prefix "T" y)
    by (apply (digits_free_of "T" 4); [reflexivity | exact Hy]).
  simpl.
  rewrite (beforeFirst_prefix "T" mo)
    by (apply (digits_free_of "T" 2); [reflexivity | exact Hmo]).
  simpl.
  rewrite (beforeFirst_prefix "T" d)
    by (apply (digits_free_of "T" 2); [reflexivity | exact Hd]).
  simpl. rewrite string_app_nil_r. reflexivity.
Qed.

(** X21.  Export does nothing but alert when the collection is empty.
    Otherwise it shows no dialog and offers one file: its content is the
    whole collection, serialised, and its name carries the date part of
    the clock reading, [business-visits-log-YYYY-MM-DD.json]. *)
Theorem export_names_file_by_date :
  forall (A : Type) (stringify : list A -> string)
         (encodeURIComponent : string -> string)
         (now y mo d rest : string) (visits : list A),
    digits_of_length 4 y -> digits_of_length 2 mo -> digits_of_length 2 d ->
    now = (y ++ "-" ++ mo ++ "-" ++ d ++ "T" ++ rest)%string ->
    let out := ListScreen.handleExport stringify encodeURIComponent
                                       now visits in
    (visits = [] ->
     result out = None
     /\ dialogs out = [Alert "There are no logs to export."])
    /\ (visits <> [] ->
        dialogs out = []
        /\ result out
           = Some {| ListScreen.href :=
                       "data:text/json;charset=utf-8,"
                       ++ encodeURIComponent (stringify visits);
                     ListScreen.download :=
                       "business-visits-log-"
                       ++ (y ++ "-" ++ mo ++ "-" ++ d) ++ ".json" |}).
Proof.
  intros A stringify encode now y mo d rest visits Hy Hmo Hd Hnow out.
  split.
  - intros ->. split; reflexivity.
  - intros Hne. unfold out, ListScreen.handleExport.
    destruct visits as [| v vs]; [contradiction Hne; reflexivity |].
    simpl. split; [reflexivity |]. unfold result, ret. simpl.
    rewrite Hnow, (beforeFirst_date y mo d rest Hy Hmo Hd). reflexivity.
Qed.

(** ** What an import is rejected for *)

Lemma hasRequired_offender (e : JSON.value) :
  ~ has_required_fields e ->
  match e with
  | JSON.Null => Importer.hasRequired e = Throw (offence e)
  | _ => Importer.hasRequired e = Normal false
  end.
Proof.
  intros Hn. destruct e as [| b | n | s | l | p]; try reflexivity.
  destruct (Importer.hasRequired (JSON.Object p)) as [[|] | m] eqn:E.
  - exfalso. apply Hn. apply hasRequired_true. exact E.
  - reflexivity.
  - rewrite hasRequired_object in E. discriminate E.
Qed.

Lemma every_first_offender (good rest : list JSON.value) (bad : JSON.value) :
  Forall has_required_fields good ->
  Importer.every Importer.hasRequired (good ++ bad :: rest)
  = match Importer.hasRequired bad with
    | Normal true => Importer.every Importer.hasRequired rest
    | Normal false => Normal false
    | Throw m => Throw m
    end.
Proof.
  intros Hg. induction Hg as [| e good He Hg IH]; [reflexivity |].
  simpl. apply hasRequired_true in He. rewrite He. exact IH.
Qed.

(** X22.  An import is rejected for its first offending element.  When
    the elements before it all have the three required fields, the
    alert names a TypeError if that element is [null] and the invalid
    file format otherwise, whatever comes after it; the collection stays
    as it was and the user is not asked anything. *)
Theorem import_rejected_for_first_offender :
  forall (JSON_parse : string -> completion JSON.value) (answer : bool)
         (t : string) (visits good rest : list JSON.value)
         (bad : JSON.value),
    JSON_parse t = Normal (JSON.Array (good ++ bad :: rest)) ->
    Forall has_required_fields good ->
    ~ has_required_fields bad ->
    let out := Importer.handleFileChange JSON_parse answer (Some t) visits in
    result out = visits
    /\ dialogs out
       = [Alert ("Failed to import logs. Please check the file format. Error: "
                 ++ offence bad)].
Proof.
  intros JSON_parse answer t visits good rest bad Hp Hg Hb out.
  assert (Hv : Importer.validated JSON_parse (Some t)
               = Throw (offence bad)).
  { unfold Importer.validated. rewrite Hp, (every_first_offender _ _ _ Hg).
    pose proof (hasRequired_offender bad Hb) as H.
    destruct bad; rewrite H; reflexivity. }
  unfold out, Importer.handleFileChange. rewrite Hv. split; reflexivity.
Qed.

Lemma import_rejected_for_first_offender_witness :
  dialogs (Importer.handleFileChange
             (fun _ => Normal (JSON.Array [Sample.goodRecord; JSON.Null;
                                           Sample.namelessRecord]))
             true (Some "file") [Sample.goodRecord])
  = [Alert "Failed to import logs. Please check the file format. Error: Cannot read properties of null (reading 'id')"].
Proof.
  assert (Hg : Forall has_required_fields [Sample.goodRecord]).
  { apply every_hasRequired_true. reflexivity. }
  assert (Hb : ~ has_required_fields JSON.Null).
  { intros (p & E & _). discriminate E. }
  destruct (import_rejected_for_first_offender
              (fun _ => Normal (JSON.Array [Sample.goodRecord; JSON.Null;
                                            Sample.namelessRecord]))
              true "file" [Sample.goodRecord] [Sample.goodRecord]
              [Sample.namelessRecord] JSON.Null eq_refl Hg Hb) as [_ H].
  exact H.
Defined.

(** ** The further properties on the sample data *)

Lemma sample_store_identified : Forall identified Sample.store.
Proof.
  unfold Sample.store.
  apply Forall_cons; [| apply Forall_cons; [| apply Forall_cons;
                                               [| apply Forall_nil]]];
    repeat split; intros E; discriminate E.
Qed.

Lemma empty_message_means_empty_store_witness :
  exists shown,
    ListScreen.main Sample.toLowerCase Sample.getTime Sample.store
                    ListScreen.initialState
    = ListScreen.Items shown
    /\ shown <> [].
Proof.
  eexists. split; [vm_compute; reflexivity |].
  destruct (empty_message_means_empty_store
              Sample.toLowerCase Sample.getTime Sample.store
              ListScreen.initialState)
    as [_ H].
  apply (H _ ltac:(vm_compute; reflexivity)).
Defined.

Lemma filters_stay_tidy_witness :
  exists s,
    FilterModal.run Sample.PROVIDERS Sample.filtering
                    FilterModal.initialScreen = Some s
    /\ providers (ListScreen.activeFilters (FilterModal.screen s))
       = ["Provider Y"]
    /\ FilterModal.tidy Sample.PROVIDERS
                        (ListScreen.activeFilters (FilterModal.screen s)).
Proof.
  eexists. split; [vm_compute; reflexivity |]. split; [reflexivity |].
  apply (filters_stay_tidy Sample.PROVIDERS Sample.filtering).
  vm_compute. reflexivity.
Defined.

Lemma modal_edits_need_apply_witness :
  exists s',
    FilterModal.run
      Sample.PROVIDERS
      (FilterModal.OpenFilters
         :: [FilterModal.ChooseSortBy oldest;
             FilterModal.ToggleProvider "Provider X"]
         ++ [FilterModal.CloseFilters])
      FilterModal.initialScreen = Some s'
    /\ FilterModal.screen s' = ListScreen.initialState.
Proof.
  destruct (modal_edits_need_apply
              Sample.PROVIDERS
              [FilterModal.ChooseSortBy oldest;
               FilterModal.ToggleProvider "Provider X"]
              FilterModal.initialScreen eq_refl eq_refl) as [H _].
  eexists. split; [vm_compute; reflexivity |].
  apply H. vm_compute. reflexivity.
Defined.

Lemma screen_events_keep_state_well_formed_witness :
  exists st,
    Navigation.run Sample.trim Sample.parseFloat Sample.dateToISOString
                   Sample.session (App.initialState Sample.store) = Some st
    /\ List.length (App.visits st) = 3%nat
    /\ well_formed st
    /\ App.renderContent st <> App.Nothing.
Proof.
  eexists. split; [vm_compute; reflexivity |]. split; [reflexivity |].
  apply (screen_events_keep_state_well_formed
           Sample.trim Sample.parseFloat Sample.dateToISOString
           Sample.store Sample.session).
  - exact sample_store_identified.
  - reflexivity.
  - vm_compute. reflexivity.
Defined.

Lemma sample_list_well_formed : well_formed Sample.listState.
Proof.
  split; [exact sample_store_identified | split; reflexivity].
Qed.

Lemma cancel_undoes_navigation_witness :
  result (App.handleGoBack
            (result (App.handleSelectVisit (id Sample.cafe)
                                           Sample.listState)))
  = Sample.listState
  /\ App.view (result (App.handleGoBack Sample.editForm)) = App.detail_view.
Proof.
  destruct (cancel_undoes_navigation Sample.listState
                                     sample_list_well_formed) as [H _].
  destruct (H eq_refl) as (Hs & _ & He).
  split; [apply Hs |].
  unfold Sample.editForm. rewrite He; [reflexivity |].
  simpl. right. left. reflexivity.
Defined.


Lemma saving_untouched_form_keeps_visit_witness :
  exists st' w',
    result (VisitForm.submit
              Sample.trim Sample.parseFloat Sample.dateToISOString
              Sample.env
              (FormInit.mounted Sample.numberToString Sample.localDate
                                (Some Sample.bakery))
              Sample.editForm) = Normal st'
    /\ nth_error (App.visits st') 1 = Some w'
    /\ businessName w' = "Corner Bakery"
    /\ timestamp w' = Sample.T2
    /\ isRevisitSuccessful w' = Some true
    /\ numberOfPhones w' = Some (JS.Finite 3)
    /\ revisitDate w' = Some Sample.T3.
Proof.
  assert (Hname : businessName Sample.bakery <> "")
    by (intros E; discriminate E).
  assert (Hback : revisit_read_back Sample.dateToISOString Sample.localDate
                                    Sample.bakery
                  = Some (Some Sample.T3))
    by (vm_compute; reflexivity).
  destruct (saving_untouched_form_keeps_visit
              Sample.trim Sample.parseFloat Sample.dateToISOString
              Sample.numberToString Sample.localDate
              Sample.env Sample.editForm Sample.bakery
              eq_refl Hname eq_refl) as (_ & _ & _ & H).
  destruct (H _ Hback) as (st' & Hst & _ & Hrec).
  destruct (Hrec 1%nat Sample.bakery eq_refl eq_refl)
    as (w' & H1 & _ & H3 & H4 & _ & H6 & _ & _ & _ & _ & _ & _ & _ & H14
        & _ & H16).
  exists st', w'. split; [exact Hst |]. split; [exact H1 |].
  split; [exact H6 |]. split; [exact H3 |]. split; [exact H4 |].
  split; [| exact H16].
  apply H14. intros x E. injection E as <-.
  split; [intros F; discriminate F | reflexivity].
Defined.

(** A visit whose revisit date is no date cannot be saved from its edit
    form: the input shows the text of an Invalid Date, and the submit
    handler throws on it. *)
Example sample_vague_visit_is_not_saved :
  VisitForm.fd_revisitDate
    (FormInit.mounted Sample.numberToString Sample.localDate
                      (Some Sample.vague))
  = "NaN-NaN-NaNTNaN:NaN"
  /\ VisitForm.submit
       Sample.trim Sample.parseFloat Sample.dateToISOString Sample.env
       (FormInit.mounted Sample.numberToString Sample.localDate
                         (Some Sample.vague))
       Sample.vagueForm
     = (Throw "Invalid time value", []).
Proof. split; vm_compute; reflexivity. Qed.


Lemma formatGoogleCalendarDate_compact_witness :
  VisitItem.formatGoogleCalendarDate (fun s => s) Sample.T3
  = "20240305T081500Z".
Proof.
  apply (formatGoogleCalendarDate_compact
           (fun s => s) Sample.T3 "2024" "03" "05" "08" "15" "00" "000");
    split; reflexivity.
Defined.

Lemma export_names_file_by_date_witness :
  result (ListScreen.handleExport
            (fun l : list Visit => "[...]") (fun s => s)
            Sample.T1 Sample.store)
  = Some {| ListScreen.href := "data:text/json;charset=utf-8,[...]";
            ListScreen.download := "business-visits-log-2024-03-01.json" |}
  /\ result (ListScreen.handleExport
               (fun l : list Visit => "[...]") (fun s => s)
               Sample.T1 []) = None.
Proof.
  assert (Hy : digits_of_length 4 "2024") by (split; reflexivity).
  assert (Hm : digits_of_length 2 "03") by (split; reflexivity).
  assert (Hd : digits_of_length 2 "01") by (split; reflexivity).
  assert (Hne : Sample.store <> []) by (intros E; discriminate E).
  split.
  - destruct (export_names_file_by_date
                Visit (fun l => "[...]") (fun s => s)
                Sample.T1 "2024" "03" "01" "09:00:00.000Z" Sample.store
                Hy Hm Hd eq_refl) as [_ H].
    destruct (H Hne) as [_ Hr]. exact Hr.
  - destruct (export_names_file_by_date
                Visit (fun l => "[...]") (fun s => s)
                Sample.T1 "2024" "03" "01" "09:00:00.000Z" []
                Hy Hm Hd eq_refl) as [H0 _].
    destruct (H0 eq_refl) as [Hr _]. exact Hr.
Defined.
